(** * Inventory reservation API: quantity accounting and reservation lifecycle

    A shallow embedding of the service layer of the repository
    (items.service.ts, reservations.service.ts, maintenance.service.ts)
    over an in-memory model of the two tables of
    migrations/initial_schema.sql.

    Modelling conventions.
    - A timestamp (a JS [Date], an ISO string, a [TIMESTAMPTZ] column) is
      the number of milliseconds since the epoch, a [Z].  The world carries
      the server's local time zone, through which [getMinutes] and
      [setMinutes] go.  The application and the database read the same
      clock.
    - A JS string is held as its UTF-8 encoding.
    - A JS [number] holding an integer is a [Z].
    - Identifiers (UUIDs) are strings, drawn by the database from a
      generator the world carries.
    - Every supabase call is one atomic statement on the store.  Between
      two statements, and before every clock reading, the environment may
      act: time elapses and other requests write to the store.  The world
      carries that schedule explicitly; an empty schedule is an isolated,
      instantaneous execution. *)

From Stdlib Require Import ZArith List String Ascii Bool Lia DecimalString.
Import ListNotations.

Open Scope string_scope.
Open Scope list_scope.
Open Scope Z_scope.

(** ** Data model (modules/reservations/types.ts, modules/items/types.ts) *)

Inductive ReservationStatus : Type :=
| PENDING
| CONFIRMED
| CANCELLED
| EXPIRED.

Definition status_eqb (a b : ReservationStatus) : bool :=
  match a, b with
  | PENDING, PENDING | CONFIRMED, CONFIRMED
  | CANCELLED, CANCELLED | EXPIRED, EXPIRED => true
  | _, _ => false
  end.

Module Item.
Record t : Type := mk {
  id : string;
  name : string;
  total_quantity : Z;
  created_at : Z;
  updated_at : Z
}.
End Item.

Module ItemStatus.
Record t : Type := mk {
  id : string;
  name : string;
  total_quantity : Z;
  available_quantity : Z;
  reserved_quantity : Z;
  confirmed_quantity : Z;
  created_at : Z;
  updated_at : Z
}.
End ItemStatus.

Module Reservation.
(** A row of the reservations table; [None] is SQL NULL. *)
Record t : Type := mk {
  id : string;
  item_id : string;
  customer_id : string;
  quantity : Z;
  status : ReservationStatus;
  created_at : Z;
  expires_at : Z;
  confirmed_at : option Z;
  cancelled_at : option Z
}.
End Reservation.

Module ReservationResponse.
(** [confirmed_at?: string | null]: [None] is an absent key,
    [Some None] is null. *)
Record t : Type := mk {
  id : string;
  item_id : string;
  customer_id : string;
  quantity : Z;
  status : ReservationStatus;
  created_at : Z;
  expires_at : Z;
  confirmed_at : option (option Z);
  cancelled_at : option (option Z)
}.
End ReservationResponse.

Module CreateReservationInput.
Record t : Type := mk {
  item_id : string;
  customer_id : string;
  quantity : Z
}.
End CreateReservationInput.

Module CreateItemInput.
Record t : Type := mk {
  name : string;
  initial_quantity : Z
}.
End CreateItemInput.

Module ExpireReservationsResult.
Record t : Type := mk {
  expired_count : Z;
  expired_reservation_ids : list string
}.
End ExpireReservationsResult.

(** [data as ReservationResponse]: a full row seen as a response. *)
Definition as_response (r : Reservation.t) : ReservationResponse.t :=
  ReservationResponse.mk
    (Reservation.id r) (Reservation.item_id r) (Reservation.customer_id r)
    (Reservation.quantity r) (Reservation.status r)
    (Reservation.created_at r) (Reservation.expires_at r)
    (Some (Reservation.confirmed_at r)) (Some (Reservation.cancelled_at r)).

(** ** Errors (types/api.ts) *)

Inductive ErrorCode : Type :=
| INTERNAL_SERVER_ERROR
| NOT_FOUND
| VALIDATION_ERROR
| TOO_MANY_REQUESTS
| DATABASE_ERROR
| ITEM_NOT_FOUND
| RESERVATION_NOT_FOUND
| INSUFFICIENT_QUANTITY
| RESERVATION_EXPIRED
| RESERVATION_CANCELLED
| RESERVATION_CONFIRMED.

Record AppError : Type := mkAppError {
  statusCode : Z;
  message : string;
  code : ErrorCode
}.

(** The error object of a supabase response; only its code is inspected. *)
Record PostgrestError : Type := mkPostgrestError {
  pg_code : string
}.

Definition PGRST116 : PostgrestError := mkPostgrestError "PGRST116".
Definition unique_violation : PostgrestError := mkPostgrestError "23505".
Definition foreign_key_violation : PostgrestError := mkPostgrestError "23503".
Definition check_violation : PostgrestError := mkPostgrestError "23514".
Definition numeric_value_out_of_range : PostgrestError := mkPostgrestError "22003".
Definition string_data_right_truncation : PostgrestError := mkPostgrestError "22001".

(** The [{ data, error }] pair of a supabase response. *)
Inductive Response (A : Type) : Type :=
| Data (data : A)
| Error (error : PostgrestError).
Arguments Data {A} data.
Arguments Error {A} error.

(** ** The store (migrations/initial_schema.sql) *)

Record Store : Type := mkStore {
  items : list Item.t;
  reservations : list Reservation.t
}.

Definition empty_store : Store := mkStore [] [].

(** [LENGTH(TRIM(s)) > 0]: some character of [s] is not a space. *)
Definition not_blank (s : string) : bool :=
  existsb (fun c => negb (Ascii.eqb c " "%char)) (list_ascii_of_string s).

(** Strings are held as their UTF-8 encoding: a byte [10xxxxxx] continues
    a character, and a lead byte [11110xxx] starts a character outside the
    basic plane, which a JS string holds as two code units. *)
Definition continues_character (c : ascii) : bool :=
  ((128 <=? N_of_ascii c) && (N_of_ascii c <? 192))%N.

Definition starts_astral_character (c : ascii) : bool :=
  (240 <=? N_of_ascii c)%N.

(** The number of characters, as [LENGTH] and [VARCHAR(n)] count them. *)
Definition char_length (s : string) : Z :=
  Z.of_nat (List.length
              (filter (fun c => negb (continues_character c))
                 (list_ascii_of_string s))).

(** [s.length]: the number of UTF-16 code units. *)
Definition js_length (s : string) : Z :=
  char_length s
  + Z.of_nat (List.length
                (filter starts_astral_character (list_ascii_of_string s))).

(** [VARCHAR(255)] *)
Definition fits_varchar255 (s : string) : bool :=
  (char_length s <=? 255).

(** [INTEGER] is a 32-bit signed integer. *)
Definition fits_integer (n : Z) : bool :=
  (-2147483648 <=? n) && (n <=? 2147483647).

Definition has_item (s : Store) (item : string) : bool :=
  existsb (fun i => Item.id i =? item)%string (items s).

Definition has_reservation (s : Store) (rid : string) : bool :=
  existsb (fun r => Reservation.id r =? rid)%string (reservations s).

(** [.single()]: exactly one row, else the PGRST116 error. *)
Definition single {A : Type} (rows : list A) : Response A :=
  match rows with
  | [row] => Data row
  | _ => Error PGRST116
  end.

(** Query filters of the PostgREST builder on the reservations table. *)
Definition eq_id (rid : string) (r : Reservation.t) : bool :=
  (Reservation.id r =? rid)%string.
Definition eq_item_id (item : string) (r : Reservation.t) : bool :=
  (Reservation.item_id r =? item)%string.
Definition eq_status (st : ReservationStatus) (r : Reservation.t) : bool :=
  status_eqb (Reservation.status r) st.
Definition gt_expires_at (now : Z) (r : Reservation.t) : bool :=
  (Reservation.expires_at r >? now).
Definition lt_expires_at (now : Z) (r : Reservation.t) : bool :=
  (Reservation.expires_at r <? now).
Definition in_id (ids : list string) (r : Reservation.t) : bool :=
  existsb (fun i => Reservation.id r =? i)%string ids.

(** [from('items').select(..).eq('id', itemId).single()] *)
Definition select_item (itemId : string) (s : Store) : Response Item.t :=
  single (filter (fun i => Item.id i =? itemId)%string (items s)).

(** [from('reservations').select('*').eq('id', reservationId).single()] *)
Definition select_reservation (reservationId : string) (s : Store)
  : Response Reservation.t :=
  single (filter (eq_id reservationId) (reservations s)).

(** [from('reservations').update(patch).<filters>.select().single()]:
    with a single object requested, a mutation touching any number of rows
    other than one is rolled back and answered with PGRST116. *)
Definition update_single (patch : Reservation.t -> Reservation.t)
    (sel : Reservation.t -> bool) (s : Store)
  : Response Reservation.t * Store :=
  match filter sel (reservations s) with
  | [r] => (Data (patch r),
            mkStore (items s)
              (map (fun x => if sel x then patch x else x) (reservations s)))
  | _ => (Error PGRST116, s)
  end.

(** [from('reservations').update(patch).<filters>] *)
Definition update_where (patch : Reservation.t -> Reservation.t)
    (sel : Reservation.t -> bool) (s : Store) : Store :=
  mkStore (items s)
    (map (fun x => if sel x then patch x else x) (reservations s)).

Definition set_confirmed (at_ : Z) (r : Reservation.t) : Reservation.t :=
  Reservation.mk (Reservation.id r) (Reservation.item_id r)
    (Reservation.customer_id r) (Reservation.quantity r) CONFIRMED
    (Reservation.created_at r) (Reservation.expires_at r)
    (Some at_) (Reservation.cancelled_at r).

Definition set_cancelled (at_ : Z) (r : Reservation.t) : Reservation.t :=
  Reservation.mk (Reservation.id r) (Reservation.item_id r)
    (Reservation.customer_id r) (Reservation.quantity r) CANCELLED
    (Reservation.created_at r) (Reservation.expires_at r)
    (Reservation.confirmed_at r) (Some at_).

Definition set_expired (r : Reservation.t) : Reservation.t :=
  Reservation.mk (Reservation.id r) (Reservation.item_id r)
    (Reservation.customer_id r) (Reservation.quantity r) EXPIRED
    (Reservation.created_at r) (Reservation.expires_at r)
    (Reservation.confirmed_at r) (Reservation.cancelled_at r).

(** [from('reservations').insert({..}).select().single()] with the row's
    defaults ([id], [created_at]) and the table's constraints. *)
Definition insert_reservation (uuid : string) (db_now : Z)
    (item customer : string) (qty : Z) (expires : Z) (s : Store)
  : Response Reservation.t * Store :=
  if has_reservation s uuid then (Error unique_violation, s)
  else if negb (fits_varchar255 customer)
  then (Error string_data_right_truncation, s)
  else if negb (fits_integer qty) then (Error numeric_value_out_of_range, s)
  else if negb (has_item s item) then (Error foreign_key_violation, s)
  else if negb (not_blank customer) then (Error check_violation, s)
  else if negb (qty >? 0) then (Error check_violation, s)
  else
    let row := Reservation.mk uuid item customer qty PENDING db_now expires
                 None None in
    (Data row, mkStore (items s) (reservations s ++ [row])).

(** The reservations table takes a new row for an existing item: the drawn
    identifier is unused and the column types and CHECK constraints hold. *)
Definition row_accepted (s : Store) (uuid customer : string) (qty : Z) : bool :=
  negb (has_reservation s uuid)
  && fits_varchar255 customer
  && fits_integer qty
  && not_blank customer
  && (qty >? 0).

(** [from('items').insert({ name, total_quantity }).select().single()] *)
Definition insert_item (uuid : string) (db_now : Z)
    (name : string) (total : Z) (s : Store) : Response Item.t * Store :=
  if has_item s uuid then (Error unique_violation, s)
  else if negb (fits_varchar255 name)
  then (Error string_data_right_truncation, s)
  else if negb (fits_integer total) then (Error numeric_value_out_of_range, s)
  else if negb (not_blank name) then (Error check_violation, s)
  else if negb (total >=? 0) then (Error check_violation, s)
  else
    let row := Item.mk uuid name total db_now db_now in
    (Data row, mkStore (items s ++ [row]) (reservations s)).

(** ** The world: store, clock, UUID generator, and what the environment
       does between two steps of a request *)

Record Tick : Type := mkTick {
  elapsed : Z;                      (* milliseconds that pass *)
  concurrent : Store -> Store       (* writes of other requests *)
}.

(** The server's local time zone: the offset of local time from UTC in
    milliseconds, [LocalTZA(t, isUTC)] of ECMAScript, at a UTC time value
    and at a local time value.  A local time that a transition repeats or
    skips is read with the offset in force before the transition. *)
Record TimeZone : Type := mkTimeZone {
  offset_at_utc : Z -> Z;           (* LocalTZA(t, true) *)
  offset_at_local : Z -> Z          (* LocalTZA(t, false) *)
}.

Record World : Type := mkWorld {
  db : Store;
  clock : Z;
  uuids : nat -> string;            (* the stream behind gen_random_uuid() *)
  issued : nat;
  sched : list Tick;
  zone : TimeZone
}.

Definition advance (w : World) : World :=
  match sched w with
  | [] => w
  | t :: rest =>
      mkWorld (concurrent t (db w)) (clock w + elapsed t)
        (uuids w) (issued w) rest (zone w)
  end.

(** ** Requests: a state and exception monad over the world

    A request body runs with the database client in hand and throws only
    [AppError]s; obtaining the client, which can throw another [Error], is
    modelled with [getSupabaseClient] below. *)

Inductive Outcome (A : Type) : Type :=
| Returned (value : A)
| Thrown (e : AppError).
Arguments Returned {A} value.
Arguments Thrown {A} e.

Definition M (A : Type) : Type := World -> Outcome A * World.

Definition ret {A : Type} (a : A) : M A := fun w => (Returned a, w).

Definition throw {A : Type} (e : AppError) : M A := fun w => (Thrown e, w).

Definition bind {A B : Type} (m : M A) (k : A -> M B) : M B :=
  fun w =>
    match m w with
    | (Returned a, w') => k a w'
    | (Thrown e, w') => (Thrown e, w')
    end.

Notation "x <- m ;; k" := (bind m (fun x => k))
  (at level 61, m at next level, right associativity).

(** [new Date()] *)
Definition newDate : M Z :=
  fun w => let w' := advance w in (Returned (clock w'), w').

(** An awaited supabase call that reads. *)
Definition query {A : Type} (q : Store -> A) : M A :=
  fun w => let w' := advance w in (Returned (q (db w')), w').

(** An awaited supabase call that updates. *)
Definition mutate {A : Type} (stmt : Store -> A * Store) : M A :=
  fun w =>
    let w' := advance w in
    let (a, s) := stmt (db w') in
    (Returned a, mkWorld s (clock w') (uuids w') (issued w') (sched w') (zone w')).

(** An awaited supabase call that inserts: the database draws the row's
    identifier and reads its own clock for [created_at]. *)
Definition insert {A : Type} (stmt : string -> Z -> Store -> A * Store) : M A :=
  fun w =>
    let w' := advance w in
    let (a, s) := stmt (uuids w' (issued w')) (clock w') (db w') in
    (Returned a, mkWorld s (clock w') (uuids w') (S (issued w')) (sched w') (zone w')).

(** Template-literal rendering of an integer. *)
Definition show (n : Z) : string := NilZero.string_of_int (Z.to_int n).

(** [reduce((sum, r) => sum + r.quantity, 0)] over rows holding [quantity]. *)
Definition reduce_quantity (rows : list Z) : Z :=
  fold_left (fun sum quantity => sum + quantity) rows 0.

(** The process's time zone, as the [Date] methods see it. *)
Definition timeZone : M TimeZone := fun w => (Returned (zone w), w).

(** Time values (ECMAScript, Dates and Times). *)
Definition msPerDay : Z := 86400000.
Definition Day (t : Z) : Z := t / msPerDay.
Definition HourFromTime (t : Z) : Z := (t / 3600000) mod 24.
Definition MinFromTime (t : Z) : Z := (t / 60000) mod 60.
Definition SecFromTime (t : Z) : Z := (t / 1000) mod 60.
Definition msFromTime (t : Z) : Z := t mod 1000.
Definition MakeTime (hour min sec ms : Z) : Z :=
  hour * 3600000 + min * 60000 + sec * 1000 + ms.
Definition MakeDate (day time : Z) : Z := day * msPerDay + time.
Definition LocalTime (tz : TimeZone) (t : Z) : Z := t + offset_at_utc tz t.
Definition UTC (tz : TimeZone) (t : Z) : Z := t - offset_at_local tz t.

(** [d.getMinutes()] *)
Definition getMinutes (tz : TimeZone) (d : Z) : Z :=
  MinFromTime (LocalTime tz d).

(** [d.setMinutes(min)]: the local date and time of [d] with its minute
    replaced, read back as a UTC time value.  Time values are taken within
    the range that [TimeClip] leaves alone. *)
Definition setMinutes (tz : TimeZone) (d min : Z) : Z :=
  let t := LocalTime tz d in
  UTC tz (MakeDate (Day t)
            (MakeTime (HourFromTime t) min (SecFromTime t) (msFromTime t))).

(** [d.setMinutes(d.getMinutes() + m)] *)
Definition setMinutes_plus (tz : TimeZone) (d m : Z) : Z :=
  setMinutes tz d (getMinutes tz d + m).

(** ** items.service.ts *)

Definition createItem (input : CreateItemInput.t) : M Item.t :=
  res <- insert (fun uuid db_now =>
           insert_item uuid db_now (CreateItemInput.name input)
             (CreateItemInput.initial_quantity input)) ;;
  match res with
  | Error _ => throw (mkAppError 500 "Failed to create item" DATABASE_ERROR)
  | Data data => ret data
  end.

(** [select('quantity').eq('item_id', itemId).eq('status', PENDING)] *)
Definition select_pending_quantities (itemId : string) (s : Store)
  : Response (list Z) :=
  Data (map Reservation.quantity
          (filter (eq_status PENDING)
             (filter (eq_item_id itemId) (reservations s)))).

(** [select('quantity').eq('item_id', itemId).eq('status', CONFIRMED)] *)
Definition select_confirmed_quantities (itemId : string) (s : Store)
  : Response (list Z) :=
  Data (map Reservation.quantity
          (filter (eq_status CONFIRMED)
             (filter (eq_item_id itemId) (reservations s)))).

(** [select('quantity').eq('item_id', itemId).eq('status', PENDING)
      .gt('expires_at', now)] *)
Definition select_live_pending_quantities (itemId : string) (now : Z)
    (s : Store) : Response (list Z) :=
  Data (map Reservation.quantity
          (filter (gt_expires_at now)
             (filter (eq_status PENDING)
                (filter (eq_item_id itemId) (reservations s))))).

Definition getItemStatus (itemId : string) : M ItemStatus.t :=
  item <- query (select_item itemId) ;;
  match item with
  | Error itemError =>
      if (pg_code itemError =? "PGRST116")%string
      then throw (mkAppError 404 "Item not found" ITEM_NOT_FOUND)
      else throw (mkAppError 500 "Failed to fetch item" DATABASE_ERROR)
  | Data item =>
      pending <- query (select_pending_quantities itemId) ;;
      match pending with
      | Error _ =>
          throw (mkAppError 500 "Failed to fetch reservations" DATABASE_ERROR)
      | Data pendingReservations =>
          confirmed <- query (select_confirmed_quantities itemId) ;;
          match confirmed with
          | Error _ =>
              throw (mkAppError 500 "Failed to fetch reservations"
                       DATABASE_ERROR)
          | Data confirmedReservations =>
              let reservedQuantity := reduce_quantity pendingReservations in
              let confirmedQuantity := reduce_quantity confirmedReservations in
              let availableQuantity :=
                Item.total_quantity item - reservedQuantity
                - confirmedQuantity in
              ret (ItemStatus.mk (Item.id item) (Item.name item)
                     (Item.total_quantity item) availableQuantity
                     reservedQuantity confirmedQuantity
                     (Item.created_at item) (Item.updated_at item))
          end
      end
  end.

Definition itemExists (itemId : string) : M bool :=
  res <- query (select_item itemId) ;;
  match res with
  | Error error =>
      if (pg_code error =? "PGRST116")%string then ret false
      else throw (mkAppError 500 "Failed to check item existence"
                    DATABASE_ERROR)
  | Data _ => ret true
  end.

(** ** reservations.service.ts *)

Definition RESERVATION_EXPIRY_MINUTES : Z := 1.

Definition getAvailableQuantity (itemId : string) : M Z :=
  item <- query (select_item itemId) ;;
  match item with
  | Error _ => throw (mkAppError 500 "Failed to fetch item" DATABASE_ERROR)
  | Data item =>
      now <- newDate ;;
      pending <- query (select_live_pending_quantities itemId now) ;;
      match pending with
      | Error _ =>
          throw (mkAppError 500 "Failed to fetch reservations" DATABASE_ERROR)
      | Data pendingReservations =>
          confirmed <- query (select_confirmed_quantities itemId) ;;
          match confirmed with
          | Error _ =>
              throw (mkAppError 500 "Failed to fetch reservations"
                       DATABASE_ERROR)
          | Data confirmedReservations =>
              let pendingQty := reduce_quantity pendingReservations in
              let confirmedQty := reduce_quantity confirmedReservations in
              ret (Item.total_quantity item - pendingQty - confirmedQty)
          end
      end
  end.

Definition insufficient_quantity_message (availableQty requested : Z)
  : string :=
  ("Insufficient available quantity. Available: " ++ show availableQty
   ++ ", Requested: " ++ show requested)%string.

Definition createReservation (input : CreateReservationInput.t)
  : M ReservationResponse.t :=
  exists_ <- itemExists (CreateReservationInput.item_id input) ;;
  if negb exists_
  then throw (mkAppError 404 "Item not found" ITEM_NOT_FOUND)
  else
    availableQty <- getAvailableQuantity (CreateReservationInput.item_id input) ;;
    if availableQty <? CreateReservationInput.quantity input
    then throw (mkAppError 409
                  (insufficient_quantity_message availableQty
                     (CreateReservationInput.quantity input))
                  INSUFFICIENT_QUANTITY)
    else
      expiresAt0 <- newDate ;;
      tz <- timeZone ;;
      let expiresAt :=
        setMinutes_plus tz expiresAt0 RESERVATION_EXPIRY_MINUTES in
      res <- insert (fun uuid db_now =>
               insert_reservation uuid db_now
                 (CreateReservationInput.item_id input)
                 (CreateReservationInput.customer_id input)
                 (CreateReservationInput.quantity input)
                 expiresAt) ;;
      match res with
      | Error _ =>
          throw (mkAppError 500 "Failed to create reservation" DATABASE_ERROR)
      | Data data => ret (as_response data)
      end.

Definition getReservation (reservationId : string) : M Reservation.t :=
  res <- query (select_reservation reservationId) ;;
  match res with
  | Error error =>
      if (pg_code error =? "PGRST116")%string
      then throw (mkAppError 404 "Reservation not found" RESERVATION_NOT_FOUND)
      else throw (mkAppError 500 "Failed to fetch reservation" DATABASE_ERROR)
  | Data data => ret data
  end.

(** The guarded write of confirm:
    [update({status: CONFIRMED, confirmed_at}).eq('id', id)
       .eq('status', PENDING).select().single()] *)
Definition update_confirmed (reservationId : string) (at_ : Z) (s : Store)
  : Response Reservation.t * Store :=
  update_single (set_confirmed at_)
    (fun r => eq_id reservationId r && eq_status PENDING r) s.

(** The guarded write of cancel. *)
Definition update_cancelled (reservationId : string) (at_ : Z) (s : Store)
  : Response Reservation.t * Store :=
  update_single (set_cancelled at_)
    (fun r => eq_id reservationId r && eq_status PENDING r) s.

Definition state_changed_on_confirm : AppError :=
  mkAppError 409 "Reservation state changed" RESERVATION_EXPIRED.

Definition state_changed_on_cancel : AppError :=
  mkAppError 409 "Reservation state changed" RESERVATION_CONFIRMED.

Definition confirmReservation (reservationId : string)
  : M ReservationResponse.t :=
  reservation <- getReservation reservationId ;;
  match Reservation.status reservation with
  | CONFIRMED =>
      ret (ReservationResponse.mk
             (Reservation.id reservation) (Reservation.item_id reservation)
             (Reservation.customer_id reservation)
             (Reservation.quantity reservation)
             (Reservation.status reservation)
             (Reservation.created_at reservation)
             (Reservation.expires_at reservation)
             (Some (Reservation.confirmed_at reservation)) None)
  | CANCELLED =>
      throw (mkAppError 409 "Cannot confirm a cancelled reservation"
               RESERVATION_CANCELLED)
  | EXPIRED =>
      throw (mkAppError 409 "Cannot confirm an expired reservation"
               RESERVATION_EXPIRED)
  | PENDING =>
      now <- newDate ;;
      let expiresAt := Reservation.expires_at reservation in
      if now >? expiresAt
      then throw (mkAppError 409 "Cannot confirm an expired reservation"
                    RESERVATION_EXPIRED)
      else
        stamp <- newDate ;;
        res <- mutate (update_confirmed reservationId stamp) ;;
        match res with
        | Error error =>
            if (pg_code error =? "PGRST116")%string
            then
              updated <- getReservation reservationId ;;
              match Reservation.status updated with
              | CONFIRMED => ret (as_response updated)
              | _ => throw state_changed_on_confirm
              end
            else throw (mkAppError 500 "Failed to confirm reservation"
                          DATABASE_ERROR)
        | Data data => ret (as_response data)
        end
  end.

Definition cancelReservation (reservationId : string)
  : M ReservationResponse.t :=
  reservation <- getReservation reservationId ;;
  match Reservation.status reservation with
  | CANCELLED =>
      ret (ReservationResponse.mk
             (Reservation.id reservation) (Reservation.item_id reservation)
             (Reservation.customer_id reservation)
             (Reservation.quantity reservation)
             (Reservation.status reservation)
             (Reservation.created_at reservation)
             (Reservation.expires_at reservation)
             None (Some (Reservation.cancelled_at reservation)))
  | EXPIRED =>
      throw (mkAppError 409 "Cannot cancel an expired reservation"
               RESERVATION_EXPIRED)
  | CONFIRMED =>
      throw (mkAppError 409 "Cannot cancel a confirmed reservation"
               RESERVATION_CONFIRMED)
  | PENDING =>
      stamp <- newDate ;;
      res <- mutate (update_cancelled reservationId stamp) ;;
      match res with
      | Error error =>
          if (pg_code error =? "PGRST116")%string
          then
            updated <- getReservation reservationId ;;
            match Reservation.status updated with
            | CANCELLED | EXPIRED => ret (as_response updated)
            | _ => throw state_changed_on_cancel
            end
          else throw (mkAppError 500 "Failed to cancel reservation"
                        DATABASE_ERROR)
      | Data data => ret (as_response data)
      end
  end.

(** ** maintenance.service.ts *)

(** A row of [select('id')]. *)
Module IdRow.
Record t : Type := mk { id : string }.
End IdRow.

(** [select('id').eq('status', 'PENDING').lt('expires_at', now)] *)
Definition select_stale_pending_ids (now : Z) (s : Store)
  : Response (list IdRow.t) :=
  Data (map (fun r => IdRow.mk (Reservation.id r))
          (filter (lt_expires_at now)
             (filter (eq_status PENDING) (reservations s)))).

(** [update({status: 'EXPIRED'}).in('id', expiredIds).eq('status', 'PENDING')] *)
Definition update_expired (expiredIds : list string) (s : Store)
  : option PostgrestError * Store :=
  (None,
   update_where set_expired
     (fun r => in_id expiredIds r && eq_status PENDING r) s).

Definition expireReservations : M ExpireReservationsResult.t :=
  now <- newDate ;;
  fetched <- query (select_stale_pending_ids now) ;;
  match fetched with
  | Error _ =>
      throw (mkAppError 500 "Failed to fetch expired reservations"
               DATABASE_ERROR)
  | Data expiredReservations =>
      if (Z.of_nat (List.length expiredReservations) =? 0)
      then ret (ExpireReservationsResult.mk 0 [])
      else
        let expiredIds := map (fun reservation => IdRow.id reservation)
                            expiredReservations in
        updateError <- mutate (update_expired expiredIds) ;;
        match updateError with
        | Some _ =>
            throw (mkAppError 500 "Failed to expire reservations"
                     DATABASE_ERROR)
        | None =>
            ret (ExpireReservationsResult.mk
                   (Z.of_nat (List.length expiredIds)) expiredIds)
        end
  end.

(** ** The error handler (middlewares/error/errorHandler.ts) *)

(** A thrown value: an [AppError], or any other [Error] with its message. *)
Inductive JsError : Type :=
| AnAppError (err : AppError)
| AnotherError (err_message : string).

Module ErrorDetail.
Record t : Type := mk {
  code : ErrorCode;
  message : string
}.
End ErrorDetail.

Module ErrorResponse.
Record t : Type := mk {
  success : bool;
  error : ErrorDetail.t
}.
End ErrorResponse.

(** [res.status(..).json(..)] *)
Record Reply : Type := mkReply {
  http_status : Z;
  json : ErrorResponse.t
}.

Definition errorHandler (err : JsError) : Reply :=
  match err with
  | AnAppError err =>
      mkReply (statusCode err)
        (ErrorResponse.mk false (ErrorDetail.mk (code err) (message err)))
  | AnotherError _ =>
      mkReply 500
        (ErrorResponse.mk false
           (ErrorDetail.mk INTERNAL_SERVER_ERROR
              "An unexpected error occurred"))
  end.

(** The HTTP status the README's table of error codes gives each code. *)
Definition documented_status (c : ErrorCode) : Z :=
  match c with
  | VALIDATION_ERROR => 400
  | NOT_FOUND | ITEM_NOT_FOUND | RESERVATION_NOT_FOUND => 404
  | INSUFFICIENT_QUANTITY | RESERVATION_EXPIRED | RESERVATION_CANCELLED
  | RESERVATION_CONFIRMED => 409
  | TOO_MANY_REQUESTS => 429
  | DATABASE_ERROR | INTERNAL_SERVER_ERROR => 500
  end.

(** Every error [m] can throw satisfies [P], whatever the schedule. *)
Definition throws_only {A : Type} (P : AppError -> Prop) (m : M A) : Prop :=
  forall w e w', m w = (Thrown e, w') -> P e.

(** An error with one of the given codes, whose HTTP status is the
    documented one and which the error handler renders accordingly. *)
Definition as_documented (codes : list ErrorCode) (e : AppError) : Prop :=
  In (code e) codes
  /\ statusCode e = documented_status (code e)
  /\ errorHandler (AnAppError e)
     = mkReply (documented_status (code e))
         (ErrorResponse.mk false (ErrorDetail.mk (code e) (message e))).

(** ** The database client (db/client.ts)

    Every exported service function starts with [getSupabaseClient()].
    The first call that succeeds keeps the client in a module variable, so
    the further calls a request makes return it; the service definitions
    above are the bodies that run with the client in hand, and
    [with_client] is the function as exported, the call in front. *)

(** The part of the process the client depends on. *)
Record Process : Type := mkProcess {
  SUPABASE_URL : option string;          (* process.env.SUPABASE_URL *)
  SUPABASE_SERVICE_KEY : option string;  (* process.env.SUPABASE_SERVICE_KEY *)
  supabase : bool                        (* the singleton has been created *)
}.

(** [!value] on an environment variable: unset, or the empty string. *)
Definition falsy (value : option string) : bool :=
  match value with
  | None => true
  | Some s => (s =? "")%string
  end.

Definition text (value : option string) : string :=
  match value with
  | None => ""
  | Some s => s
  end.

(** How a promise settles: with a value, or with the value thrown. *)
Inductive Settled (A : Type) : Type :=
| Fulfilled (value : A)
| Rejected (reason : JsError).
Arguments Fulfilled {A} value.
Arguments Rejected {A} reason.

Definition missing_credentials : string :=
  ("Missing Supabase credentials. Please set SUPABASE_URL and "
   ++ "SUPABASE_SERVICE_KEY environment variables.")%string.

Section Client.

(** [createClient] of the supabase library, which is not part of the
    repository: given a URL and a key it returns a client ([None]) or throws
    an [Error] with a message. *)
Variable createClient : string -> string -> option string.

(** The outcome is the message of the [Error] thrown, if any. *)
Definition getSupabaseClient (p : Process) : option string * Process :=
  if supabase p then (None, p)
  else if falsy (SUPABASE_URL p) || falsy (SUPABASE_SERVICE_KEY p)
  then (Some missing_credentials, p)
  else
    match createClient (text (SUPABASE_URL p)) (text (SUPABASE_SERVICE_KEY p))
    with
    | Some thrown => (Some thrown, p)
    | None =>
        (None, mkProcess (SUPABASE_URL p) (SUPABASE_SERVICE_KEY p) true)
    end.

Definition with_client {A : Type} (m : M A) (p : Process) (w : World)
  : Settled A * Process * World :=
  match getSupabaseClient p with
  | (Some thrown, p') => (Rejected (AnotherError thrown), p', w)
  | (None, p') =>
      match m w with
      | (Returned a, w') => (Fulfilled a, p', w')
      | (Thrown e, w') => (Rejected (AnAppError e), p', w')
      end
  end.

(** Whatever the process, the world and the schedule, [m] as exported
    settles with a value, or is rejected in one of two ways: with an
    [AppError] that is documented for one of [codes]; or, no client having
    been created before, with another [Error] before anything is read or
    written, which the error handler answers as 500
    INTERNAL_SERVER_ERROR. *)
Definition rejects_only {A : Type} (codes : list ErrorCode) (m : M A)
  : Prop :=
  forall p w reason p' w',
    with_client m p w = (Rejected reason, p', w') ->
    match reason with
    | AnAppError e => as_documented codes e
    | AnotherError _ =>
        supabase p = false /\ p' = p /\ w' = w
        /\ errorHandler reason
           = mkReply 500
               (ErrorResponse.mk false
                  (ErrorDetail.mk INTERNAL_SERVER_ERROR
                     "An unexpected error occurred"))
    end.

End Client.

(** ** Request validation (items.schema.ts, reservations.schema.ts)

    Identifiers are opaque here, so the UUID format check is left out. *)

Definition createItemSchema (input : CreateItemInput.t) : bool :=
  (1 <=? js_length (CreateItemInput.name input))
  && (js_length (CreateItemInput.name input) <=? 255)
  && (1 <=? CreateItemInput.initial_quantity input).

Definition createReservationSchema (input : CreateReservationInput.t) : bool :=
  (1 <=? js_length (CreateReservationInput.customer_id input))
  && (js_length (CreateReservationInput.customer_id input) <=? 255)
  && (1 <=? CreateReservationInput.quantity input).

(** ** Quantity accounting, as the specification words it *)

(** Sum of [quantity] over the rows that satisfy [p]. *)
Fixpoint sum_quantity (p : Reservation.t -> bool) (rows : list Reservation.t)
  : Z :=
  match rows with
  | [] => 0
  | r :: rest =>
      (if p r then Reservation.quantity r else 0) + sum_quantity p rest
  end.

Definition is_pending_of (item : string) (r : Reservation.t) : bool :=
  eq_item_id item r && eq_status PENDING r.

Definition is_confirmed_of (item : string) (r : Reservation.t) : bool :=
  eq_item_id item r && eq_status CONFIRMED r.

(** A live hold: PENDING with expiry strictly after [now]. *)
Definition is_live_pending_of (item : string) (now : Z) (r : Reservation.t)
  : bool :=
  eq_item_id item r && eq_status PENDING r
  && (now <? Reservation.expires_at r).

(** A stale hold: PENDING whose expiry is not after [now]. *)
Definition is_stale_pending_of (item : string) (now : Z) (r : Reservation.t)
  : bool :=
  eq_item_id item r && eq_status PENDING r
  && (Reservation.expires_at r <=? now).

(** [Σ live PENDING + Σ CONFIRMED] of an item at time [now]. *)
Definition committed_quantity (item : string) (now : Z) (s : Store) : Z :=
  sum_quantity (is_live_pending_of item now) (reservations s)
  + sum_quantity (is_confirmed_of item) (reservations s).

(** What one row adds to the committed quantity of an item. *)
Definition contribution (item : string) (now : Z) (r : Reservation.t) : Z :=
  (if is_live_pending_of item now r then Reservation.quantity r else 0)
  + (if is_confirmed_of item r then Reservation.quantity r else 0).

(** The accounting contract at time [now]. *)
Definition accounting_invariant (s : Store) (now : Z) : Prop :=
  forall i, In i (items s) ->
    Item.total_quantity i >= committed_quantity (Item.id i) now s.

Definition accounting_invariantb (s : Store) (now : Z) : bool :=
  forallb (fun i =>
             Item.total_quantity i >=? committed_quantity (Item.id i) now s)
    (items s).

(** Row constraint [reservations_quantity_positive] on the whole table. *)
Definition quantities_positive (s : Store) : Prop :=
  forall r, In r (reservations s) -> 0 < Reservation.quantity r.

(** A stale PENDING row as the sweep selects it. *)
Definition is_stale_pending (now : Z) (r : Reservation.t) : bool :=
  eq_status PENDING r && (Reservation.expires_at r <? now).

(** ** Error kinds of the specification's taxonomy and the codes that
       surface them *)

Inductive ErrorKind : Type :=
| ItemNotFound
| ReservationNotFound
| InsufficientQuantity
| ReservationExpired
| ReservationCancelled
| ReservationConfirmed
| ReservationStateChanged
| ValidationError
| DatabaseError
| InternalServerError.

Definition kind_of_code (c : ErrorCode) : option ErrorKind :=
  match c with
  | INTERNAL_SERVER_ERROR => Some InternalServerError
  | NOT_FOUND => None
  | VALIDATION_ERROR => Some ValidationError
  | TOO_MANY_REQUESTS => None
  | DATABASE_ERROR => Some DatabaseError
  | ITEM_NOT_FOUND => Some ItemNotFound
  | RESERVATION_NOT_FOUND => Some ReservationNotFound
  | INSUFFICIENT_QUANTITY => Some InsufficientQuantity
  | RESERVATION_EXPIRED => Some ReservationExpired
  | RESERVATION_CANCELLED => Some ReservationCancelled
  | RESERVATION_CONFIRMED => Some ReservationConfirmed
  end.

(** A request fails with kind [k] and writes nothing. *)
Definition rejects_with {A : Type} (k : ErrorKind) (m : M A) (w : World)
  : Prop :=
  exists e, m w = (Thrown e, w) /\ kind_of_code (code e) = Some k.

(** ** Executions *)

(** No other request interferes and no time passes during the request. *)
Definition isolated (w : World) : Prop := sched w = [].

(** A zone without daylight saving changes: one offset at all times. *)
Definition fixed_offset (tz : TimeZone) : Prop :=
  exists c, forall t, offset_at_utc tz t = c /\ offset_at_local tz t = c.

(** The world after the environment has acted [n] times. *)
Definition after (n : nat) (w : World) : World := Nat.iter n advance w.

(** Time passing between two requests. *)
Definition wait (dt : Z) (w : World) : World :=
  mkWorld (db w) (clock w + dt) (uuids w) (issued w) (sched w) (zone w).

Inductive Request : Type :=
| CreateItem (input : CreateItemInput.t)
| CreateReservation (input : CreateReservationInput.t)
| ConfirmReservation (reservationId : string)
| CancelReservation (reservationId : string)
| ExpireReservations.

Definition valid_request (q : Request) : bool :=
  match q with
  | CreateItem input => createItemSchema input
  | CreateReservation input => createReservationSchema input
  | _ => true
  end.

Definition handle (q : Request) (w : World) : World :=
  match q with
  | CreateItem input => snd (createItem input w)
  | CreateReservation input => snd (createReservation input w)
  | ConfirmReservation rid => snd (confirmReservation rid w)
  | CancelReservation rid => snd (cancelReservation rid w)
  | ExpireReservations => snd (expireReservations w)
  end.

(** Worlds reached from an empty store by validated requests served one
    after the other, with time passing in between. *)
Inductive reachable : World -> Prop :=
| reach_start (gen : nat -> string) (t0 : Z) (tz : TimeZone) :
    reachable (mkWorld empty_store t0 gen 0 [] tz)
| reach_wait (w : World) (dt : Z) :
    reachable w -> 0 <= dt -> reachable (wait dt w)
| reach_request (w : World) (q : Request) :
    reachable w -> valid_request q = true -> reachable (handle q w).

(** ** The life of a reservation row *)

(** What a request served at time [now] may do to a stored row. *)
Inductive row_step (now : Z) : Reservation.t -> Reservation.t -> Prop :=
| row_kept (r : Reservation.t) : row_step now r r
| row_confirmed (r : Reservation.t) :
    Reservation.status r = PENDING ->
    now <= Reservation.expires_at r ->
    row_step now r (set_confirmed now r)
| row_cancelled (r : Reservation.t) :
    Reservation.status r = PENDING ->
    row_step now r (set_cancelled now r)
| row_expired (r : Reservation.t) :
    Reservation.status r = PENDING ->
    Reservation.expires_at r < now ->
    row_step now r (set_expired r).

(** The item a request has appended, if any. *)
Definition appended_item (q : Request) (w : World) (new_items : list Item.t)
  : Prop :=
  new_items = []
  \/ exists input,
       q = CreateItem input
       /\ new_items = [Item.mk (uuids w (issued w))
                         (CreateItemInput.name input)
                         (CreateItemInput.initial_quantity input)
                         (clock w) (clock w)]
       /\ has_item (db w) (uuids w (issued w)) = false.

(** The reservation a request has appended, if any. *)
Definition appended_reservation (q : Request) (w : World)
    (added : list Reservation.t) : Prop :=
  added = []
  \/ exists input item,
       q = CreateReservation input
       /\ added = [Reservation.mk (uuids w (issued w))
                     (CreateReservationInput.item_id input)
                     (CreateReservationInput.customer_id input)
                     (CreateReservationInput.quantity input)
                     PENDING (clock w)
                     (setMinutes_plus (zone w) (clock w) RESERVATION_EXPIRY_MINUTES)
                     None None]
       /\ select_item (CreateReservationInput.item_id input) (db w)
          = Data item
       /\ CreateReservationInput.quantity input
          <= Item.total_quantity item
             - committed_quantity (CreateReservationInput.item_id input)
                 (clock w) (db w)
       /\ row_accepted (db w) (uuids w (issued w))
            (CreateReservationInput.customer_id input)
            (CreateReservationInput.quantity input) = true.

(** [w'] is [w] with its rows taken one step along their life cycle and
    at most one item or one reservation appended by the request [q]. *)
Definition effect_of (q : Request) (w w' : World) : Prop :=
  exists g new_items added n,
    w' = mkWorld (mkStore (items (db w) ++ new_items)
                    (map g (reservations (db w)) ++ added))
           (clock w) (uuids w) n (sched w) (zone w)
    /\ (forall x, In x (reservations (db w)) -> row_step (clock w) x (g x))
    /\ appended_item q w new_items
    /\ appended_reservation q w added.

(** The timestamps that go with each status. *)
Definition timestamps_ok (r : Reservation.t) : Prop :=
  match Reservation.status r with
  | PENDING | EXPIRED =>
      Reservation.confirmed_at r = None /\ Reservation.cancelled_at r = None
  | CONFIRMED =>
      Reservation.cancelled_at r = None
      /\ exists t, Reservation.confirmed_at r = Some t
  | CANCELLED =>
      Reservation.confirmed_at r = None
      /\ exists t, Reservation.cancelled_at r = Some t
  end.

Definition row_ok (r : Reservation.t) : Prop :=
  0 < Reservation.quantity r /\ timestamps_ok r.

(** Primary keys are unique and every reservation refers to an item. *)
Definition keys_ok (s : Store) : Prop :=
  NoDup (map Item.id (items s))
  /\ NoDup (map Reservation.id (reservations s))
  /\ forall r, In r (reservations s) ->
       has_item s (Reservation.item_id r) = true.

Definition world_ok (w : World) : Prop :=
  isolated w
  /\ keys_ok (db w)
  /\ (forall r, In r (reservations (db w)) -> row_ok r)
  /\ (forall i, In i (items (db w)) -> 1 <= Item.total_quantity i).

(** [w'] comes after [w] by validated requests served one after the other
    and the passing of time. *)
Inductive evolves (w : World) : World -> Prop :=
| evolves_refl : evolves w w
| evolves_wait (w' : World) (dt : Z) :
    evolves w w' -> 0 <= dt -> evolves w (wait dt w')
| evolves_request (w' : World) (q : Request) :
    evolves w w' -> valid_request q = true -> evolves w (handle q w').

(** A hold that can no longer be confirmed at time [now]. *)
Definition lapsed (now : Z) (r : Reservation.t) : Prop :=
  match Reservation.status r with
  | PENDING => Reservation.expires_at r < now
  | CONFIRMED => False
  | CANCELLED | EXPIRED => True
  end.

(** ** Scenarios used below *)

(** Coordinated universal time. *)
Definition utc : TimeZone := mkTimeZone (fun _ => 0) (fun _ => 0).

(** Central European time around the end of summer time in 2026: two hours
    ahead of UTC until 2026-10-25T01:00:00Z, one hour ahead from then on,
    so that the local hour from 02:00 to 03:00 occurs twice. *)
Definition end_of_summer_time_2026 : Z := 1792890000000.

Definition berlin_autumn_2026 : TimeZone :=
  mkTimeZone
    (fun t => if t <? end_of_summer_time_2026 then 7200000 else 3600000)
    (fun t => if t <? end_of_summer_time_2026 + 7200000
              then 7200000 else 3600000).

Definition gen (n : nat) : string := ("uuid-" ++ show (Z.of_nat n))%string.

Definition widget (total : Z) : Item.t := Item.mk "uuid-0" "Widget" total 0 0.

Definition hold (rid customer : string) (qty : Z) (st : ReservationStatus)
    (created : Z) : Reservation.t :=
  Reservation.mk rid "uuid-0" customer qty st created (created + 60000)
    None None.

Definition world_of (s : Store) (now : Z) (n : nat) (ticks : list Tick)
  : World :=
  mkWorld s now gen n ticks utc.

(** One widget; a hold taken at time 0 and a second one taken at the very
    millisecond the first one lapses. *)
Definition store_at_expiry_instant : Store :=
  mkStore [widget 1]
    [hold "uuid-1" "alice" 1 PENDING 0; hold "uuid-2" "bob" 1 PENDING 60000].

(** One widget; a hold taken at time 0, looked at one millisecond after it
    lapsed and before any sweep. *)
Definition store_with_stale_hold : Store :=
  mkStore [widget 2] [hold "uuid-1" "alice" 2 PENDING 0].

(** One widget with a confirmed and a cancelled reservation. *)
Definition store_with_terminal_rows : Store :=
  mkStore [widget 5]
    [Reservation.mk "uuid-1" "uuid-0" "alice" 1 CONFIRMED 0 60000
       (Some 10) None;
     Reservation.mk "uuid-2" "uuid-0" "bob" 1 CANCELLED 0 60000
       None (Some 20);
     Reservation.mk "uuid-3" "uuid-0" "carol" 1 EXPIRED 0 60000 None None].

(** Another request cancels (or confirms) the row between two steps. *)
Definition concurrently_cancel (rid : string) (at_ : Z) (s : Store) : Store :=
  snd (update_cancelled rid at_ s).

Definition concurrently_confirm (rid : string) (at_ : Z) (s : Store) : Store :=
  snd (update_confirmed rid at_ s).

Definition quiet (dt : Z) : Tick := mkTick dt (fun s => s).

Definition stale_world : World := world_of store_with_stale_hold 60001 2 [].

Definition terminal_world : World :=
  world_of store_with_terminal_rows 100 4 [].

Definition confirmed_row : Reservation.t :=
  Reservation.mk "uuid-1" "uuid-0" "alice" 1 CONFIRMED 0 60000 (Some 10) None.

Definition cancelled_row : Reservation.t :=
  Reservation.mk "uuid-2" "uuid-0" "bob" 1 CANCELLED 0 60000 None (Some 20).

Definition expired_row : Reservation.t :=
  Reservation.mk "uuid-3" "uuid-0" "carol" 1 EXPIRED 0 60000 None None.

(** A confirm request on a live hold, overtaken between its expiry check and
    its guarded write by another request that cancels (or confirms) the
    same reservation at time 7. *)
Definition fresh_hold : Reservation.t := hold "uuid-1" "alice" 2 PENDING 0.

Definition store_with_fresh_hold : Store := mkStore [widget 2] [fresh_hold].

Definition overtaken_by_cancel : World :=
  world_of store_with_fresh_hold 5 2
    [quiet 0; quiet 1; quiet 1;
     mkTick 1 (concurrently_cancel "uuid-1" 7); quiet 1].

Definition overtaken_by_confirm : World :=
  world_of store_with_fresh_hold 5 2
    [quiet 0; quiet 1; quiet 1;
     mkTick 1 (concurrently_confirm "uuid-1" 7); quiet 1].

(** Two holds taken at time 0 and swept at time 70000; in the second world
    another request confirms the first hold between the sweep's selection
    and its bulk update. *)
Definition store_with_two_stale_holds : Store :=
  mkStore [widget 5]
    [hold "uuid-1" "alice" 1 PENDING 0; hold "uuid-2" "bob" 2 PENDING 0].

Definition sweep_world : World :=
  world_of store_with_two_stale_holds 70000 3 [].

Definition sweep_overtaken_world : World :=
  world_of store_with_two_stale_holds 70000 3
    [quiet 0; quiet 0; mkTick 0 (concurrently_confirm "uuid-1" 70000)].

Definition nothing_to_sweep_world : World :=
  world_of store_with_two_stale_holds 60000 3 [].

(** An empty reservations table, and requests for one unit: from a named
    customer, from a customer whose identifier is a single space, and for an
    item that does not exist. *)
Definition store_with_widget_only : Store := mkStore [widget 2] [].

Definition widget_world : World := world_of store_with_widget_only 1000 1 [].

(** The same store on a server in Berlin, one second into the repeated
    hour. *)
Definition repeated_hour_world : World :=
  mkWorld store_with_widget_only (end_of_summer_time_2026 + 1000) gen 1 []
    berlin_autumn_2026.

Definition request_by_alice : CreateReservationInput.t :=
  CreateReservationInput.mk "uuid-0" "alice" 1.

Definition request_for_three : CreateReservationInput.t :=
  CreateReservationInput.mk "uuid-0" "alice" 3.

Definition request_by_blank : CreateReservationInput.t :=
  CreateReservationInput.mk "uuid-0" " " 1.

Definition request_for_unknown_item : CreateReservationInput.t :=
  CreateReservationInput.mk "uuid-9" "alice" 1.

(** A history of validated requests served one after the other: a widget
    with one unit is created, alice holds it at time 0 and, after a pause,
    bob asks for the same unit. *)
Definition start_world : World := mkWorld empty_store 0 gen 0 [] utc.

Definition one_widget : CreateItemInput.t := CreateItemInput.mk "Widget" 1.

Definition bob_after (pause : Z) : World :=
  handle (CreateReservation (CreateReservationInput.mk "uuid-0" "bob" 1))
    (wait pause
       (handle (CreateReservation request_by_alice)
          (handle (CreateItem one_widget) start_world))).

(** Bob asks one millisecond after alice's hold lapsed. *)
Definition oversubscribed_world : World := bob_after 60001.

(** Bob asks at the very millisecond alice's hold lapses. *)
Definition expiry_instant_world : World := bob_after 60000.

(** A confirm request whose expiry check reads the clock one millisecond
    before the hold lapses and whose guarded write lands after another
    request, served at 60001, has been let in on the lapsed hold's unit. *)
Definition concurrently_create (input : CreateReservationInput.t) (at_ : Z)
    (n : nat) (s : Store) : Store :=
  db (snd (createReservation input (world_of s at_ n []))).

Definition confirm_overtaken_by_create : World :=
  world_of (mkStore [widget 1] [hold "uuid-1" "alice" 1 PENDING 0]) 59999 2
    [quiet 0; quiet 0;
     mkTick 2 (concurrently_create
                 (CreateReservationInput.mk "uuid-0" "bob" 1) 60001 2);
     quiet 0].

(** A history with every kind of row: a widget with three units; alice
    holds one and confirms it, bob holds one and cancels it, carol holds one
    and lets it lapse; the sweep runs at 70000 and dave then holds one. *)
Definition three_widgets : CreateItemInput.t := CreateItemInput.mk "Widget" 3.

Definition request_by (customer : string) : CreateReservationInput.t :=
  CreateReservationInput.mk "uuid-0" customer 1.

Definition busy_world : World :=
  handle (CreateReservation (request_by "dave"))
    (handle ExpireReservations
       (wait 69990
          (handle (CancelReservation "uuid-2")
             (handle (ConfirmReservation "uuid-1")
                (wait 10
                   (handle (CreateReservation (request_by "carol"))
                      (handle (CreateReservation (request_by "bob"))
                         (handle (CreateReservation (request_by "alice"))
                            (handle (CreateItem three_widgets)
                               start_world))))))))).

(** * Properties *)

(** ** Basic facts about the monad and the store statements *)

Lemma world_eta (w : World) :
  mkWorld (db w) (clock w) (uuids w) (issued w) (sched w) (zone w) = w.
Proof. destruct w; reflexivity. Qed.

(** Replacing the minute of a time value by its minute plus [m] moves it by
    [m] minutes. *)
Lemma MakeDate_plus_minutes (t m : Z) :
  MakeDate (Day t)
    (MakeTime (HourFromTime t) (MinFromTime t + m) (SecFromTime t)
       (msFromTime t))
  = t + m * 60000.
Proof.
  unfold MakeDate, MakeTime, Day, HourFromTime, MinFromTime, SecFromTime,
    msFromTime, msPerDay.
  assert (E1 : t / 1000 / 60 = t / 60000)
    by (rewrite Z.div_div by lia; reflexivity).
  assert (E2 : t / 60000 / 60 = t / 3600000)
    by (rewrite Z.div_div by lia; reflexivity).
  assert (E3 : t / 3600000 / 24 = t / 86400000)
    by (rewrite Z.div_div by lia; reflexivity).
  pose proof (Z.div_mod t 1000 ltac:(lia)) as H1.
  pose proof (Z.div_mod (t / 1000) 60 ltac:(lia)) as H2.
  pose proof (Z.div_mod (t / 60000) 60 ltac:(lia)) as H3.
  pose proof (Z.div_mod (t / 3600000) 24 ltac:(lia)) as H4.
  rewrite E1 in H2. rewrite E2 in H3. rewrite E3 in H4.
  lia.
Qed.

Lemma setMinutes_plus_local (tz : TimeZone) (d m : Z) :
  setMinutes_plus tz d m = UTC tz (LocalTime tz d + m * 60000).
Proof.
  unfold setMinutes_plus, setMinutes, getMinutes.
  rewrite MakeDate_plus_minutes. reflexivity.
Qed.

(** Where the offset never changes, [setMinutes(getMinutes() + m)] adds
    [m] minutes. *)
Lemma setMinutes_plus_fixed (tz : TimeZone) (d m : Z) :
  fixed_offset tz -> setMinutes_plus tz d m = d + m * 60000.
Proof.
  intros [c Hc]. rewrite setMinutes_plus_local. unfold UTC, LocalTime.
  rewrite (proj1 (Hc d)), (proj2 (Hc (d + c + m * 60000))). lia.
Qed.

Lemma utc_fixed : fixed_offset utc.
Proof. exists 0. intros t. split; reflexivity. Qed.

(** What request validation lets through fits the column. *)
Lemma js_length_fits_varchar255 (s : string) :
  (js_length s <=? 255) = true -> fits_varchar255 s = true.
Proof.
  unfold fits_varchar255, js_length. intros H.
  apply Z.leb_le in H. apply Z.leb_le. lia.
Qed.

Lemma advance_isolated (w : World) : isolated w -> advance w = w.
Proof. unfold isolated, advance; intros ->; reflexivity. Qed.

Lemma newDate_isolated (w : World) :
  isolated w -> newDate w = (Returned (clock w), w).
Proof. intros H; unfold newDate; rewrite (advance_isolated w H); reflexivity. Qed.

Lemma query_isolated {A : Type} (q : Store -> A) (w : World) :
  isolated w -> query q w = (Returned (q (db w)), w).
Proof. intros H; unfold query; rewrite (advance_isolated w H); reflexivity. Qed.

Lemma bind_returned {A B : Type} (m : M A) (k : A -> M B) (w w' : World)
    (a : A) :
  m w = (Returned a, w') -> bind m k w = k a w'.
Proof. intros H; unfold bind; rewrite H; reflexivity. Qed.

Lemma status_eqb_eq (a b : ReservationStatus) :
  status_eqb a b = true <-> a = b.
Proof. destruct a, b; simpl; split; congruence. Qed.

Lemma fold_left_add_shift (l : list Z) (a : Z) :
  fold_left (fun sum quantity => sum + quantity) l a
  = a + fold_left (fun sum quantity => sum + quantity) l 0.
Proof.
  revert a; induction l as [|x l IH]; intros a; simpl.
  - lia.
  - rewrite (IH (a + x)), (IH x); lia.
Qed.

Lemma reduce_quantity_cons (x : Z) (l : list Z) :
  reduce_quantity (x :: l) = x + reduce_quantity l.
Proof. unfold reduce_quantity; simpl; apply fold_left_add_shift. Qed.

(** The code's filter, project and reduce pipeline computes the
    specification's sum. *)
Lemma reduce_quantity_filter (p : Reservation.t -> bool)
    (rows : list Reservation.t) :
  reduce_quantity (map Reservation.quantity (filter p rows))
  = sum_quantity p rows.
Proof.
  induction rows as [|r rows IH]; simpl.
  - reflexivity.
  - destruct (p r); simpl.
    + rewrite reduce_quantity_cons, IH; reflexivity.
    + rewrite IH; reflexivity.
Qed.

Lemma filter_filter {A : Type} (p q : A -> bool) (l : list A) :
  filter q (filter p l) = filter (fun x => p x && q x) l.
Proof.
  induction l as [|x l IH]; simpl; [reflexivity|].
  destruct (p x); simpl; [destruct (q x)|]; rewrite IH; reflexivity.
Qed.

Lemma pending_quantities_sum (itemId : string) (s : Store) :
  select_pending_quantities itemId s
  = Data (map Reservation.quantity
            (filter (is_pending_of itemId) (reservations s))).
Proof. unfold select_pending_quantities; rewrite filter_filter; reflexivity. Qed.

Lemma confirmed_quantities_sum (itemId : string) (s : Store) :
  select_confirmed_quantities itemId s
  = Data (map Reservation.quantity
            (filter (is_confirmed_of itemId) (reservations s))).
Proof.
  unfold select_confirmed_quantities; rewrite filter_filter; reflexivity.
Qed.

Lemma live_pending_quantities_sum (itemId : string) (now : Z) (s : Store) :
  select_live_pending_quantities itemId now s
  = Data (map Reservation.quantity
            (filter (is_live_pending_of itemId now) (reservations s))).
Proof.
  unfold select_live_pending_quantities.
  rewrite !filter_filter.
  f_equal; f_equal. apply filter_ext; intros r.
  unfold is_live_pending_of, gt_expires_at.
  rewrite Z.gtb_ltb, Bool.andb_assoc; reflexivity.
Qed.

(** Pending holds split into live ones and stale ones. *)
Lemma pending_split (itemId : string) (now : Z) (rows : list Reservation.t) :
  sum_quantity (is_pending_of itemId) rows
  = sum_quantity (is_live_pending_of itemId now) rows
    + sum_quantity (is_stale_pending_of itemId now) rows.
Proof.
  induction rows as [|r rows IH]; simpl; [reflexivity|].
  rewrite IH.
  unfold is_pending_of, is_live_pending_of, is_stale_pending_of.
  destruct (eq_item_id itemId r && eq_status PENDING r); simpl; [|lia].
  destruct (Z.ltb_spec now (Reservation.expires_at r));
    destruct (Z.leb_spec (Reservation.expires_at r) now); lia.
Qed.

(** In isolation the status report returns these figures. *)
Lemma getItemStatus_isolated (w : World) (itemId : string) (item : Item.t) :
  isolated w ->
  select_item itemId (db w) = Data item ->
  getItemStatus itemId w
  = (Returned
       (ItemStatus.mk (Item.id item) (Item.name item)
          (Item.total_quantity item)
          (Item.total_quantity item
           - sum_quantity (is_pending_of itemId) (reservations (db w))
           - sum_quantity (is_confirmed_of itemId) (reservations (db w)))
          (sum_quantity (is_pending_of itemId) (reservations (db w)))
          (sum_quantity (is_confirmed_of itemId) (reservations (db w)))
          (Item.created_at item) (Item.updated_at item)), w).
Proof.
  intros Hw Hitem.
  unfold getItemStatus, bind.
  rewrite (query_isolated _ w Hw), Hitem.
  rewrite (query_isolated _ w Hw), pending_quantities_sum.
  rewrite (query_isolated _ w Hw), confirmed_quantities_sum.
  unfold ret. rewrite !reduce_quantity_filter. reflexivity.
Qed.

(** In isolation the admission check returns this figure. *)
Lemma getAvailableQuantity_isolated (w : World) (itemId : string)
    (item : Item.t) :
  isolated w ->
  select_item itemId (db w) = Data item ->
  getAvailableQuantity itemId w
  = (Returned
       (Item.total_quantity item
        - sum_quantity (is_live_pending_of itemId (clock w))
            (reservations (db w))
        - sum_quantity (is_confirmed_of itemId) (reservations (db w))), w).
Proof.
  intros Hw Hitem.
  unfold getAvailableQuantity, bind.
  rewrite (query_isolated _ w Hw), Hitem.
  rewrite (newDate_isolated w Hw).
  rewrite (query_isolated _ w Hw), live_pending_quantities_sum.
  rewrite (query_isolated _ w Hw), confirmed_quantities_sum.
  unfold ret. rewrite !reduce_quantity_filter. reflexivity.
Qed.

(** C2.  For an existing item, the status report's reserved quantity is the
    sum over all of the item's PENDING reservations whatever their expiry,
    the admission check counts only the PENDING ones that expire strictly
    after the current time, and both subtract the reserved and the
    CONFIRMED sums from the total; the two results therefore differ by the
    stale holds. *)
Theorem status_report_and_admission_check
    (w : World) (itemId : string) (item : Item.t) :
  isolated w ->
  select_item itemId (db w) = Data item ->
  let rows := reservations (db w) in
  let total := Item.total_quantity item in
  let confirmed := sum_quantity (is_confirmed_of itemId) rows in
  let all_pending := sum_quantity (is_pending_of itemId) rows in
  let live_pending := sum_quantity (is_live_pending_of itemId (clock w)) rows in
  (exists st,
      getItemStatus itemId w = (Returned st, w)
      /\ ItemStatus.total_quantity st = total
      /\ ItemStatus.reserved_quantity st = all_pending
      /\ ItemStatus.confirmed_quantity st = confirmed
      /\ ItemStatus.available_quantity st = total - all_pending - confirmed)
  /\ getAvailableQuantity itemId w
     = (Returned (total - live_pending - confirmed), w)
  /\ all_pending - live_pending
     = sum_quantity (is_stale_pending_of itemId (clock w)) rows.
Proof.
  intros Hw Hitem rows total confirmed all_pending live_pending.
  split; [|split].
  - eexists; split.
    + apply (getItemStatus_isolated w itemId item Hw Hitem).
    + simpl; repeat split; reflexivity.
  - apply (getAvailableQuantity_isolated w itemId item Hw Hitem).
  - unfold all_pending, live_pending.
    rewrite (pending_split itemId (clock w) rows); lia.
Qed.

Lemma status_report_and_admission_check_witness :
  isolated stale_world
  /\ select_item "uuid-0" (db stale_world) = Data (widget 2)
  /\ (exists st,
        getItemStatus "uuid-0" stale_world = (Returned st, stale_world)
        /\ ItemStatus.reserved_quantity st = 2
        /\ ItemStatus.available_quantity st = 0)
  /\ getAvailableQuantity "uuid-0" stale_world = (Returned 2, stale_world).
Proof.
  assert (Hw : isolated stale_world) by reflexivity.
  assert (Hi : select_item "uuid-0" (db stale_world) = Data (widget 2))
    by reflexivity.
  destruct (status_report_and_admission_check stale_world "uuid-0" (widget 2)
              Hw Hi)
    as [[st [E1 [_ [E2 [_ E3]]]]] [E4 _]].
  split; [exact Hw|]. split; [exact Hi|]. split.
  - exists st. split; [exact E1|]. split; [exact E2 | exact E3].
  - exact E4.
Defined.

(** ** Reading a reservation *)

Lemma single_Data {A : Type} (rows : list A) (x : A) :
  single rows = Data x -> rows = [x].
Proof.
  destruct rows as [|a [|b rest]]; simpl; intros H;
    try discriminate; congruence.
Qed.

Lemma getReservation_found (w : World) (rid : string) (r : Reservation.t) :
  select_reservation rid (db (advance w)) = Data r ->
  getReservation rid w = (Returned r, advance w).
Proof.
  intros H. unfold getReservation, bind, query; simpl.
  rewrite H; reflexivity.
Qed.

(** C5.  A reservation that is already CONFIRMED is returned by confirm
    with its stored fields, its confirmed_at included, and the request
    writes nothing: the world after it is the world the read saw.  The
    same holds for cancel on a CANCELLED reservation.  Served again in
    isolation, the request gives the same answer, and every status report
    (its confirmed quantity included) is what it was before. *)
Theorem confirm_cancel_idempotent
    (w : World) (rid : string) (r : Reservation.t) :
  select_reservation rid (db (advance w)) = Data r ->
  (Reservation.status r = CONFIRMED ->
     (exists resp,
        confirmReservation rid w = (Returned resp, advance w)
        /\ ReservationResponse.id resp = Reservation.id r
        /\ ReservationResponse.item_id resp = Reservation.item_id r
        /\ ReservationResponse.customer_id resp = Reservation.customer_id r
        /\ ReservationResponse.quantity resp = Reservation.quantity r
        /\ ReservationResponse.status resp = CONFIRMED
        /\ ReservationResponse.created_at resp = Reservation.created_at r
        /\ ReservationResponse.expires_at resp = Reservation.expires_at r
        /\ ReservationResponse.confirmed_at resp
           = Some (Reservation.confirmed_at r))
     /\ (isolated w ->
         confirmReservation rid (snd (confirmReservation rid w))
         = confirmReservation rid w
         /\ forall itemId,
              getItemStatus itemId (snd (confirmReservation rid w))
              = getItemStatus itemId w))
  /\
  (Reservation.status r = CANCELLED ->
     (exists resp,
        cancelReservation rid w = (Returned resp, advance w)
        /\ ReservationResponse.id resp = Reservation.id r
        /\ ReservationResponse.item_id resp = Reservation.item_id r
        /\ ReservationResponse.customer_id resp = Reservation.customer_id r
        /\ ReservationResponse.quantity resp = Reservation.quantity r
        /\ ReservationResponse.status resp = CANCELLED
        /\ ReservationResponse.created_at resp = Reservation.created_at r
        /\ ReservationResponse.expires_at resp = Reservation.expires_at r
        /\ ReservationResponse.cancelled_at resp
           = Some (Reservation.cancelled_at r))
     /\ (isolated w ->
         cancelReservation rid (snd (cancelReservation rid w))
         = cancelReservation rid w
         /\ forall itemId,
              getItemStatus itemId (snd (cancelReservation rid w))
              = getItemStatus itemId w)).
Proof.
  intros Hread.
  pose proof (getReservation_found w rid r Hread) as Hget.
  split; intros Hst.
  - assert (E : confirmReservation rid w
                = (Returned
                     (ReservationResponse.mk (Reservation.id r)
                        (Reservation.item_id r) (Reservation.customer_id r)
                        (Reservation.quantity r) (Reservation.status r)
                        (Reservation.created_at r) (Reservation.expires_at r)
                        (Some (Reservation.confirmed_at r)) None),
                   advance w)).
    { unfold confirmReservation, bind. rewrite Hget, Hst. reflexivity. }
    split.
    + eexists; split; [exact E|]. simpl. rewrite Hst. repeat split.
    + intros Hw. rewrite E; cbn [snd].
      rewrite (advance_isolated w Hw). split; [|reflexivity].
      rewrite <- (advance_isolated w Hw) at 2. exact E.
  - assert (E : cancelReservation rid w
                = (Returned
                     (ReservationResponse.mk (Reservation.id r)
                        (Reservation.item_id r) (Reservation.customer_id r)
                        (Reservation.quantity r) (Reservation.status r)
                        (Reservation.created_at r) (Reservation.expires_at r)
                        None (Some (Reservation.cancelled_at r))),
                   advance w)).
    { unfold cancelReservation, bind. rewrite Hget, Hst. reflexivity. }
    split.
    + eexists; split; [exact E|]. simpl. rewrite Hst. repeat split.
    + intros Hw. rewrite E; cbn [snd].
      rewrite (advance_isolated w Hw). split; [|reflexivity].
      rewrite <- (advance_isolated w Hw) at 2. exact E.
Qed.

Lemma confirm_cancel_idempotent_witness :
  (exists resp,
     confirmReservation "uuid-1" terminal_world
     = (Returned resp, advance terminal_world)
     /\ ReservationResponse.confirmed_at resp = Some (Some 10))
  /\ (exists resp,
        cancelReservation "uuid-2" terminal_world
        = (Returned resp, advance terminal_world)
        /\ ReservationResponse.cancelled_at resp = Some (Some 20)).
Proof.
  split.
  - destruct (confirm_cancel_idempotent terminal_world "uuid-1" confirmed_row
                eq_refl) as [H _].
    destruct (H eq_refl) as [[resp [E [_ [_ [_ [_ [_ [_ [_ E']]]]]]]]] _].
    exists resp; split; [exact E | exact E'].
  - destruct (confirm_cancel_idempotent terminal_world "uuid-2" cancelled_row
                eq_refl) as [_ H].
    destruct (H eq_refl) as [[resp [E [_ [_ [_ [_ [_ [_ [_ E']]]]]]]]] _].
    exists resp; split; [exact E | exact E'].
Defined.

(** C6.  Confirm on a CANCELLED reservation fails RESERVATION_CANCELLED and
    on an EXPIRED one RESERVATION_EXPIRED; cancel on an EXPIRED reservation
    fails RESERVATION_EXPIRED and on a CONFIRMED one RESERVATION_CONFIRMED.
    Each failure is a 409 raised right after the read, so the request
    writes nothing. *)
Theorem cross_state_attempts_fail
    (w : World) (rid : string) (r : Reservation.t) :
  select_reservation rid (db (advance w)) = Data r ->
  (Reservation.status r = CANCELLED ->
     confirmReservation rid w
     = (Thrown (mkAppError 409 "Cannot confirm a cancelled reservation"
                  RESERVATION_CANCELLED), advance w))
  /\ (Reservation.status r = EXPIRED ->
        confirmReservation rid w
        = (Thrown (mkAppError 409 "Cannot confirm an expired reservation"
                     RESERVATION_EXPIRED), advance w))
  /\ (Reservation.status r = EXPIRED ->
        cancelReservation rid w
        = (Thrown (mkAppError 409 "Cannot cancel an expired reservation"
                     RESERVATION_EXPIRED), advance w))
  /\ (Reservation.status r = CONFIRMED ->
        cancelReservation rid w
        = (Thrown (mkAppError 409 "Cannot cancel a confirmed reservation"
                     RESERVATION_CONFIRMED), advance w)).
Proof.
  intros Hread.
  pose proof (getReservation_found w rid r Hread) as Hget.
  repeat split; intros Hst;
    unfold confirmReservation, cancelReservation, bind;
    rewrite Hget, Hst; reflexivity.
Qed.

Lemma cross_state_attempts_fail_witness :
  fst (confirmReservation "uuid-2" terminal_world)
  = Thrown (mkAppError 409 "Cannot confirm a cancelled reservation"
              RESERVATION_CANCELLED)
  /\ fst (confirmReservation "uuid-3" terminal_world)
     = Thrown (mkAppError 409 "Cannot confirm an expired reservation"
                 RESERVATION_EXPIRED)
  /\ fst (cancelReservation "uuid-3" terminal_world)
     = Thrown (mkAppError 409 "Cannot cancel an expired reservation"
                 RESERVATION_EXPIRED)
  /\ fst (cancelReservation "uuid-1" terminal_world)
     = Thrown (mkAppError 409 "Cannot cancel a confirmed reservation"
                 RESERVATION_CONFIRMED)
  /\ db (snd (cancelReservation "uuid-1" terminal_world))
     = store_with_terminal_rows.
Proof.
  destruct (cross_state_attempts_fail terminal_world "uuid-2" cancelled_row
              eq_refl) as [H1 _].
  destruct (cross_state_attempts_fail terminal_world "uuid-3" expired_row
              eq_refl) as [_ [H2 [H3 _]]].
  destruct (cross_state_attempts_fail terminal_world "uuid-1" confirmed_row
              eq_refl) as [_ [_ [_ H4]]].
  rewrite (H1 eq_refl), (H2 eq_refl), (H3 eq_refl), (H4 eq_refl).
  repeat split.
Defined.

(** ** The guarded writes *)

Lemma filter_map_commute {A : Type} (p : A -> bool) (f : A -> A)
    (l : list A) :
  (forall x, p (f x) = p x) ->
  filter p (map f l) = map f (filter p l).
Proof.
  intros E; induction l as [|x l IH]; simpl; [reflexivity|].
  rewrite E; destruct (p x); simpl; rewrite IH; reflexivity.
Qed.

Lemma guarded_filter_hit (rid : string) (rows : list Reservation.t)
    (r : Reservation.t) :
  filter (eq_id rid) rows = [r] ->
  Reservation.status r = PENDING ->
  filter (fun x => eq_id rid x && eq_status PENDING x) rows = [r].
Proof.
  intros Hf Hst. rewrite <- filter_filter, Hf. simpl.
  unfold eq_status; rewrite Hst; reflexivity.
Qed.

Lemma guarded_update_select (rid : string) (patch : Reservation.t -> Reservation.t)
    (rows : list Reservation.t) (r : Reservation.t) :
  (forall x, Reservation.id (patch x) = Reservation.id x) ->
  filter (eq_id rid) rows = [r] ->
  Reservation.status r = PENDING ->
  filter (eq_id rid)
    (map (fun x => if eq_id rid x && eq_status PENDING x then patch x else x)
       rows)
  = [patch r].
Proof.
  intros Hid Hf Hst.
  rewrite filter_map_commute.
  - rewrite Hf; simpl.
    assert (E : eq_id rid r = true).
    { assert (In r (filter (eq_id rid) rows)) as Hin by (rewrite Hf; left; reflexivity).
      apply filter_In in Hin; tauto. }
    rewrite E; unfold eq_status; rewrite Hst; reflexivity.
  - intros x. destruct (eq_id rid x && eq_status PENDING x); [|reflexivity].
    unfold eq_id; rewrite Hid; reflexivity.
Qed.

(** C3, as the code has it.  A PENDING reservation whose expiry is strictly
    in the past is refused by confirm with RESERVATION_EXPIRED and left as
    it is.  Cancel has no expiry check: served in isolation it succeeds and
    stores status CANCELLED with cancelled_at set to the current time. *)
Theorem stale_pending_confirm_refused_cancel_accepted
    (w : World) (rid : string) (r : Reservation.t) :
  isolated w ->
  select_reservation rid (db w) = Data r ->
  Reservation.status r = PENDING ->
  Reservation.expires_at r < clock w ->
  confirmReservation rid w
  = (Thrown (mkAppError 409 "Cannot confirm an expired reservation"
               RESERVATION_EXPIRED), w)
  /\ exists w',
       cancelReservation rid w
       = (Returned (as_response (set_cancelled (clock w) r)), w')
       /\ select_reservation rid (db w')
          = Data (set_cancelled (clock w) r)
       /\ items (db w') = items (db w).
Proof.
  intros Hw Hread Hst Hexp.
  assert (Hget : getReservation rid w = (Returned r, w)).
  { rewrite <- (advance_isolated w Hw) at 2.
    apply getReservation_found. rewrite (advance_isolated w Hw); exact Hread. }
  split.
  - unfold confirmReservation, bind. rewrite Hget, Hst.
    rewrite (newDate_isolated w Hw).
    destruct (Z.gtb_spec (clock w) (Reservation.expires_at r)); [reflexivity|lia].
  - apply single_Data in Hread.
    unfold cancelReservation, bind. rewrite Hget, Hst.
    rewrite (newDate_isolated w Hw).
    unfold mutate. rewrite (advance_isolated w Hw).
    unfold update_cancelled, update_single.
    rewrite (guarded_filter_hit rid _ r Hread Hst).
    eexists; split; [reflexivity|]. cbn [db items reservations].
    split; [|reflexivity].
    unfold select_reservation. cbn [reservations].
    rewrite (guarded_update_select rid (set_cancelled (clock w)) _ r);
      auto.
Qed.

Lemma stale_pending_confirm_refused_cancel_accepted_witness :
  confirmReservation "uuid-1" stale_world
  = (Thrown (mkAppError 409 "Cannot confirm an expired reservation"
               RESERVATION_EXPIRED), stale_world)
  /\ fst (cancelReservation "uuid-1" stale_world)
     = Returned (as_response
                   (set_cancelled 60001 (hold "uuid-1" "alice" 2 PENDING 0))).
Proof.
  assert (Hexp : Reservation.expires_at (hold "uuid-1" "alice" 2 PENDING 0)
                 < clock stale_world) by (simpl; lia).
  destruct (stale_pending_confirm_refused_cancel_accepted stale_world "uuid-1"
              (hold "uuid-1" "alice" 2 PENDING 0) eq_refl eq_refl eq_refl Hexp)
    as [Hc [w' [Hx _]]].
  split; [exact Hc|]. rewrite Hx; reflexivity.
Defined.

(** C3 as stated fails for cancel: a PENDING reservation one millisecond
    past its expiry, not yet swept, is cancelled successfully and its row
    is rewritten. *)
Lemma cancel_accepts_stale_pending :
  isolated stale_world
  /\ select_reservation "uuid-1" (db stale_world)
     = Data (hold "uuid-1" "alice" 2 PENDING 0)
  /\ Reservation.expires_at (hold "uuid-1" "alice" 2 PENDING 0)
     < clock stale_world
  /\ (exists resp,
        fst (cancelReservation "uuid-1" stale_world) = Returned resp
        /\ ReservationResponse.status resp = CANCELLED)
  /\ db (snd (cancelReservation "uuid-1" stale_world)) <> db stale_world
  /\ ~ rejects_with ReservationExpired (cancelReservation "uuid-1")
         stale_world.
Proof.
  split; [reflexivity|]. split; [reflexivity|]. split; [simpl; lia|].
  split; [eexists; split; reflexivity|].
  split.
  - cbv. discriminate.
  - intros [e [H _]].
    apply (f_equal fst) in H. cbv in H. discriminate.
Qed.

Lemma update_single_miss (patch : Reservation.t -> Reservation.t)
    (sel : Reservation.t -> bool) (s : Store) :
  filter sel (reservations s) = [] ->
  update_single patch sel s = (Error PGRST116, s).
Proof. intros H; unfold update_single; rewrite H; reflexivity. Qed.

(** C4, as the code has it.  When the guarded update of confirm
    ([status = CONFIRMED] only where the row is still PENDING) matches no
    row, the request reads the reservation again; if it is CONFIRMED by
    then, it is returned as a success; for any other status the request
    fails with a 409 whose code is RESERVATION_EXPIRED and whose message is
    "Reservation state changed".  The request itself has written nothing.

    The steps of confirm under an arbitrary schedule: the read sees
    [after 1 w], the expiry check reads the clock of [after 2 w], the stamp
    that of [after 3 w], the guarded write meets the store of [after 4 w]
    and the second read that of [after 5 w]. *)
Theorem confirm_after_lost_race
    (w : World) (rid : string) (r u : Reservation.t) :
  select_reservation rid (db (after 1 w)) = Data r ->
  Reservation.status r = PENDING ->
  clock (after 2 w) <= Reservation.expires_at r ->
  filter (fun x => eq_id rid x && eq_status PENDING x)
    (reservations (db (after 4 w))) = [] ->
  select_reservation rid (db (after 5 w)) = Data u ->
  (Reservation.status u = CONFIRMED ->
     confirmReservation rid w = (Returned (as_response u), after 5 w))
  /\ (Reservation.status u <> CONFIRMED ->
        confirmReservation rid w
        = (Thrown (mkAppError 409 "Reservation state changed"
                     RESERVATION_EXPIRED), after 5 w)).
Proof.
  intros Hread Hst Hlive Hmiss Hreread.
  assert (E : confirmReservation rid w
              = match Reservation.status u with
                | CONFIRMED => (Returned (as_response u), after 5 w)
                | _ => (Thrown state_changed_on_confirm, after 5 w)
                end).
  { unfold confirmReservation, bind.
    rewrite (getReservation_found w rid r Hread), Hst.
    unfold newDate at 1.
    change (after 2 w) with (advance (advance w)) in Hlive.
    destruct (Z.gtb_spec (clock (advance (advance w)))
                (Reservation.expires_at r)) as [Hgt|_]; [lia|].
    unfold newDate, mutate.
    change (advance (advance (advance (advance w)))) with (after 4 w).
    unfold update_confirmed.
    rewrite (update_single_miss _ _ _ Hmiss).
    rewrite world_eta. cbn [pg_code PGRST116 String.eqb Ascii.eqb Bool.eqb].
    change (after 5 w) with (advance (after 4 w)) in Hreread |- *.
    rewrite (getReservation_found (after 4 w) rid u Hreread).
    destruct (Reservation.status u); reflexivity. }
  split; intros Hu; rewrite E.
  - rewrite Hu; reflexivity.
  - destruct (Reservation.status u); try reflexivity; congruence.
Qed.

Lemma confirm_after_lost_race_witness :
  confirmReservation "uuid-1" overtaken_by_confirm
  = (Returned (as_response (set_confirmed 7 fresh_hold)),
     after 5 overtaken_by_confirm)
  /\ confirmReservation "uuid-1" overtaken_by_cancel
     = (Thrown (mkAppError 409 "Reservation state changed"
                  RESERVATION_EXPIRED), after 5 overtaken_by_cancel).
Proof.
  assert (Hlive : forall w, clock w = 6 ->
                    clock w <= Reservation.expires_at fresh_hold)
    by (intros w ->; simpl; lia).
  assert (Hne : Reservation.status (set_cancelled 7 fresh_hold) <> CONFIRMED)
    by (simpl; discriminate).
  split.
  - destruct (confirm_after_lost_race overtaken_by_confirm "uuid-1" fresh_hold
                (set_confirmed 7 fresh_hold) eq_refl eq_refl
                (Hlive (after 2 overtaken_by_confirm) eq_refl)
                eq_refl eq_refl) as [H _].
    exact (H eq_refl).
  - destruct (confirm_after_lost_race overtaken_by_cancel "uuid-1" fresh_hold
                (set_cancelled 7 fresh_hold) eq_refl eq_refl
                (Hlive (after 2 overtaken_by_cancel) eq_refl)
                eq_refl eq_refl) as [_ H].
    exact (H Hne).
Defined.

(** C4 as stated fails: a confirm that loses the race to a cancel is
    answered with the code RESERVATION_EXPIRED, the code of an expired
    reservation; no error code of the service surfaces a state-changed
    kind. *)
Lemma lost_race_surfaces_as_expired :
  filter (fun x => eq_id "uuid-1" x && eq_status PENDING x)
    (reservations (db (after 4 overtaken_by_cancel))) = []
  /\ (exists e,
        fst (confirmReservation "uuid-1" overtaken_by_cancel) = Thrown e
        /\ code e = RESERVATION_EXPIRED
        /\ kind_of_code (code e) = Some ReservationExpired
        /\ kind_of_code (code e) <> Some ReservationStateChanged)
  /\ (forall c, kind_of_code c <> Some ReservationStateChanged).
Proof.
  split; [reflexivity|]. split.
  - eexists. split; [reflexivity|]. simpl.
    repeat split; discriminate.
  - intros c; destruct c; simpl; discriminate.
Qed.

(** ** The expiry sweep *)

Lemma stale_pending_ids (now : Z) (s : Store) :
  select_stale_pending_ids now s
  = Data (map (fun r => IdRow.mk (Reservation.id r))
            (filter (is_stale_pending now) (reservations s))).
Proof.
  unfold select_stale_pending_ids; rewrite filter_filter; reflexivity.
Qed.

Lemma in_id_In (ids : list string) (r : Reservation.t) :
  in_id ids r = true <-> In (Reservation.id r) ids.
Proof.
  unfold in_id. rewrite existsb_exists. split.
  - intros [i [Hin E]]. apply String.eqb_eq in E. congruence.
  - intros Hin. exists (Reservation.id r). split; [exact Hin|].
    apply String.eqb_refl.
Qed.

Lemma update_where_rows (patch : Reservation.t -> Reservation.t)
    (sel : Reservation.t -> bool) (P : Reservation.t -> Reservation.t -> Prop)
    (rows : list Reservation.t) :
  (forall x, sel x = true -> P x (patch x)) ->
  (forall x, sel x = false -> P x x) ->
  Forall2 P rows (map (fun x => if sel x then patch x else x) rows).
Proof.
  intros Hy Hn; induction rows as [|x rows IH]; simpl; constructor.
  - destruct (sel x) eqn:E; auto.
  - exact IH.
Qed.

Lemma Forall2_In_r {A B : Type} (R : A -> B -> Prop) (l : list A)
    (l' : list B) (y : B) :
  Forall2 R l l' -> In y l' -> exists x, In x l /\ R x y.
Proof.
  induction 1 as [|a b l l' Hab _ IH]; intros Hy; [destruct Hy|].
  destruct Hy as [<-|Hy].
  - exists a. split; [left; reflexivity | exact Hab].
  - destruct (IH Hy) as [x [Hx HR]]. exists x. split; [right|]; assumption.
Defined.

(** C7.  The sweep reads the clock, then selects the identifiers of the
    PENDING reservations whose expiry is strictly before that reading.
    With none selected it returns count 0 and an empty list and writes
    nothing.  Otherwise it returns the length of the selection and the
    selection itself, whatever has happened to those rows since, and its
    bulk update leaves every row as it was except the selected rows still
    PENDING at the time of the write: their status becomes EXPIRED and
    their other fields stay as they were.

    Under an arbitrary schedule the clock is read in [after 1 w], the
    selection is made on the store of [after 2 w] and the bulk update meets
    the store of [after 3 w]. *)
Theorem sweep_reports_its_selection (w : World) :
  let now := clock (after 1 w) in
  let selected :=
    map Reservation.id
      (filter (is_stale_pending now) (reservations (db (after 2 w)))) in
  (selected = [] ->
     expireReservations w
     = (Returned (ExpireReservationsResult.mk 0 []), after 2 w))
  /\ (selected <> [] ->
        exists w',
          expireReservations w
          = (Returned (ExpireReservationsResult.mk
                         (Z.of_nat (List.length selected)) selected), w')
          /\ items (db w') = items (db (after 3 w))
          /\ Forall2
               (fun before after_ =>
                  (Reservation.status before = PENDING
                   /\ In (Reservation.id before) selected
                   /\ Reservation.status after_ = EXPIRED
                   /\ after_
                      = Reservation.mk (Reservation.id before)
                          (Reservation.item_id before)
                          (Reservation.customer_id before)
                          (Reservation.quantity before) EXPIRED
                          (Reservation.created_at before)
                          (Reservation.expires_at before)
                          (Reservation.confirmed_at before)
                          (Reservation.cancelled_at before))
                  \/ ((Reservation.status before <> PENDING
                       \/ ~ In (Reservation.id before) selected)
                      /\ after_ = before))
               (reservations (db (after 3 w))) (reservations (db w'))).
Proof.
  intros now selected.
  assert (Hsel : map (fun reservation => IdRow.id reservation)
                   (map (fun r => IdRow.mk (Reservation.id r))
                      (filter (is_stale_pending now)
                         (reservations (db (after 2 w)))))
                 = selected).
  { unfold selected. rewrite map_map. reflexivity. }
  unfold expireReservations, bind, newDate, query. cbv zeta.
  change (advance (advance w)) with (after 2 w).
  change (clock (advance w)) with now.
  rewrite stale_pending_ids.
  split; intros Hs.
  - unfold selected in Hs. apply map_eq_nil in Hs. rewrite Hs. reflexivity.
  - assert (Hlen : (Z.of_nat
                      (List.length
                         (map (fun r => IdRow.mk (Reservation.id r))
                            (filter (is_stale_pending now)
                               (reservations (db (after 2 w))))))
                    =? 0) = false).
    { apply Z.eqb_neq. rewrite length_map. intros H0. apply Hs.
      unfold selected.
      destruct (filter (is_stale_pending now) (reservations (db (after 2 w))));
        [reflexivity | simpl in H0; lia]. }
    rewrite Hlen.
    rewrite Hsel.
    unfold mutate, update_expired, ret.
    change (advance (after 2 w)) with (after 3 w).
    eexists; split; [reflexivity|].
    cbn [db items reservations update_where]. split; [reflexivity|].
    apply update_where_rows; intros x Hx.
    + apply andb_prop in Hx; destruct Hx as [Hin Hp].
      left. split; [apply status_eqb_eq; exact Hp|].
      split; [apply in_id_In; exact Hin|]. split; reflexivity.
    + right. split; [|reflexivity].
      apply Bool.andb_false_iff in Hx; destruct Hx as [Hx|Hx].
      * right. intros Hin. apply in_id_In in Hin. congruence.
      * left. intros Hp. apply status_eqb_eq in Hp.
        unfold eq_status in Hx. congruence.
Qed.

Lemma sweep_reports_its_selection_witness :
  expireReservations nothing_to_sweep_world
  = (Returned (ExpireReservationsResult.mk 0 []), nothing_to_sweep_world)
  /\ fst (expireReservations sweep_world)
     = Returned (ExpireReservationsResult.mk 2 ["uuid-1"; "uuid-2"])
  /\ Forall (fun r => Reservation.status r = EXPIRED)
       (reservations (db (snd (expireReservations sweep_world)))).
Proof.
  destruct (sweep_reports_its_selection nothing_to_sweep_world) as [H0 _].
  destruct (sweep_reports_its_selection sweep_world) as [_ H1].
  split; [exact (H0 eq_refl)|].
  destruct H1 as [w' [E [_ Hrows]]]; [simpl; discriminate|].
  rewrite E. split; [reflexivity|]. cbn [snd].
  apply Forall_forall. intros r Hr.
  destruct (Forall2_In_r _ _ _ r Hrows Hr) as [before [Hb Hstep]].
  destruct Hstep as [[_ [_ [Hst _]]]|[Hkept _]]; [exact Hst|].
  exfalso. destruct Hb as [<-|[<-|[]]]; destruct Hkept as [Hk|Hk];
    apply Hk; simpl; auto.
Defined.

(** A reservation confirmed by another request between the sweep's
    selection and its update is reported as expired and stays CONFIRMED. *)
Example sweep_reports_a_row_it_did_not_expire :
  fst (expireReservations sweep_overtaken_world)
  = Returned (ExpireReservationsResult.mk 2 ["uuid-1"; "uuid-2"])
  /\ map Reservation.status
       (reservations (db (snd (expireReservations sweep_overtaken_world))))
     = [CONFIRMED; EXPIRED].
Proof. split; reflexivity. Qed.

(** ** Creating a reservation *)

Lemma has_item_false (s : Store) (itemId : string) :
  has_item s itemId = false ->
  select_item itemId s = Error PGRST116.
Proof.
  unfold has_item, select_item. intros H.
  assert (E : filter (fun i => (Item.id i =? itemId)%string) (items s) = []).
  { induction (items s) as [|i l IH]; simpl in *; [reflexivity|].
    apply Bool.orb_false_iff in H; destruct H as [H1 H2].
    rewrite H1; auto. }
  rewrite E; reflexivity.
Qed.

Lemma select_item_has_item (s : Store) (itemId : string) (item : Item.t) :
  select_item itemId s = Data item -> has_item s itemId = true.
Proof.
  unfold select_item, has_item. intros H. apply single_Data in H.
  assert (Hin : In item (filter (fun i => (Item.id i =? itemId)%string)
                           (items s))) by (rewrite H; left; reflexivity).
  apply filter_In in Hin. apply existsb_exists. exists item. exact Hin.
Qed.

Lemma itemExists_isolated (w : World) (itemId : string) :
  isolated w ->
  (has_item (db w) itemId = false -> itemExists itemId w = (Returned false, w))
  /\ (forall item, select_item itemId (db w) = Data item ->
        itemExists itemId w = (Returned true, w)).
Proof.
  intros Hw; split.
  - intros H. unfold itemExists, bind.
    rewrite (query_isolated _ w Hw), (has_item_false _ _ H). reflexivity.
  - intros item H. unfold itemExists, bind.
    rewrite (query_isolated _ w Hw), H. reflexivity.
Qed.

Lemma insert_reservation_cases (uuid : string) (db_now : Z)
    (item customer : string) (qty expires : Z) (s : Store) :
  has_item s item = true ->
  (row_accepted s uuid customer qty = true ->
     insert_reservation uuid db_now item customer qty expires s
     = (Data (Reservation.mk uuid item customer qty PENDING db_now expires
                None None),
        mkStore (items s)
          (reservations s
           ++ [Reservation.mk uuid item customer qty PENDING db_now expires
                 None None])))
  /\ (row_accepted s uuid customer qty = false ->
        exists e,
          insert_reservation uuid db_now item customer qty expires s
          = (Error e, s)).
Proof.
  intros Hitem. unfold row_accepted, insert_reservation. rewrite Hitem.
  destruct (has_reservation s uuid), (fits_varchar255 customer),
    (fits_integer qty), (not_blank customer), (qty >? 0);
    simpl; split; intros H; try discriminate; try reflexivity;
    eexists; reflexivity.
Qed.

(** C8, as the code has it.  Served in isolation on an input that passed
    validation, createReservation fails ITEM_NOT_FOUND when no item has
    the given item_id.  When the item exists and the admission-check
    availability is strictly below the requested quantity, it fails
    INSUFFICIENT_QUANTITY with both amounts in the message and writes
    nothing.  Otherwise, when the reservations table accepts the row (the
    drawn identifier is unused, the customer_id has a character other than
    a space and the quantity fits a 32-bit integer), exactly one row is
    appended: PENDING, with the given quantity and the expires_at that
    [setMinutes(getMinutes() + 1)] makes of the current time, which is one
    reservation window after it on a server whose zone has a fixed offset,
    and that row is returned; when the table rejects the row, the request
    fails DATABASE_ERROR and the table is unchanged. *)
Theorem createReservation_outcomes
    (w : World) (input : CreateReservationInput.t) :
  isolated w ->
  createReservationSchema input = true ->
  let itemId := CreateReservationInput.item_id input in
  let customer := CreateReservationInput.customer_id input in
  let qty := CreateReservationInput.quantity input in
  (has_item (db w) itemId = false ->
     createReservation input w
     = (Thrown (mkAppError 404 "Item not found" ITEM_NOT_FOUND), w))
  /\ (forall item, select_item itemId (db w) = Data item ->
        let available :=
          Item.total_quantity item
          - sum_quantity (is_live_pending_of itemId (clock w))
              (reservations (db w))
          - sum_quantity (is_confirmed_of itemId) (reservations (db w)) in
        let uuid := uuids w (issued w) in
        let expires :=
          setMinutes_plus (zone w) (clock w) RESERVATION_EXPIRY_MINUTES in
        let row :=
          Reservation.mk uuid itemId customer qty PENDING (clock w)
            expires None None in
        (fixed_offset (zone w) ->
           expires = clock w + RESERVATION_EXPIRY_MINUTES * 60000)
        /\ (available < qty ->
           createReservation input w
           = (Thrown (mkAppError 409
                        ("Insufficient available quantity. Available: "
                         ++ show available ++ ", Requested: " ++ show qty)
                        INSUFFICIENT_QUANTITY), w))
        /\ (qty <= available ->
            has_reservation (db w) uuid = false ->
            not_blank customer = true ->
            qty <= 2147483647 ->
            exists w',
              createReservation input w = (Returned (as_response row), w')
              /\ db w'
                 = mkStore (items (db w)) (reservations (db w) ++ [row])
              /\ clock w' = clock w)
        /\ (qty <= available ->
            has_reservation (db w) uuid = true
            \/ not_blank customer = false
            \/ 2147483647 < qty ->
            exists e w',
              createReservation input w = (Thrown e, w')
              /\ statusCode e = 500 /\ code e = DATABASE_ERROR
              /\ db w' = db w /\ clock w' = clock w)).
Proof.
  intros Hw Hvalid itemId customer qty.
  unfold createReservationSchema in Hvalid. fold customer qty in Hvalid.
  apply andb_prop in Hvalid; destruct Hvalid as [Hvalid Hqty].
  apply andb_prop in Hvalid; destruct Hvalid as [_ Hlen].
  apply Z.leb_le in Hqty. apply js_length_fits_varchar255 in Hlen.
  destruct (itemExists_isolated w itemId Hw) as [Hno Hyes].
  split.
  - intros H. unfold createReservation, bind.
    fold itemId. rewrite (Hno H). reflexivity.
  - intros item Hitem available uuid expires row.
    split; [intros Hz; apply setMinutes_plus_fixed; exact Hz|].
    assert (Haccepted :
              has_reservation (db w) uuid = false ->
              not_blank customer = true -> qty <= 2147483647 ->
              row_accepted (db w) uuid customer qty = true).
    { intros Hf Hb Hm. unfold row_accepted, fits_integer.
      rewrite Hf, Hlen, Hb. cbn [negb andb].
      repeat (apply andb_true_intro; split); try reflexivity;
        try (apply Z.leb_le; lia). apply Z.gtb_lt; lia. }
    assert (Hrejected :
              has_reservation (db w) uuid = true
              \/ not_blank customer = false \/ 2147483647 < qty ->
              row_accepted (db w) uuid customer qty = false).
    { unfold row_accepted, fits_integer. intros [H|[H|H]].
      - rewrite H. reflexivity.
      - rewrite H. rewrite !Bool.andb_false_r. reflexivity.
      - assert (Hbig : (qty <=? 2147483647) = false)
          by (apply Z.leb_gt; exact H).
        rewrite Hbig. rewrite !Bool.andb_false_r. reflexivity. }
    unfold createReservation. fold itemId qty customer.
    rewrite (bind_returned _ _ _ _ _ (Hyes item Hitem)). cbn [negb].
    rewrite (bind_returned _ _ _ _ _
               (getAvailableQuantity_isolated w itemId item Hw Hitem)).
    fold available.
    pose proof (insert_reservation_cases uuid (clock w) itemId customer qty
                  expires (db w)
                  (select_item_has_item _ _ _ Hitem)) as [Hacc Hrej].
    split; [|split].
    + intros Hlt. destruct (Z.ltb_spec available qty); [reflexivity|lia].
    + intros Hge Hf Hb Hm. pose proof (Haccepted Hf Hb Hm) as Hok.
      destruct (Z.ltb_spec available qty); [lia|].
      unfold bind. rewrite (newDate_isolated w Hw). unfold timeZone.
      unfold insert. rewrite (advance_isolated w Hw).
      fold expires uuid. rewrite (Hacc Hok).
      eexists; split; [reflexivity|]. split; reflexivity.
    + intros Hge Hcause. pose proof (Hrejected Hcause) as Hbad.
      destruct (Z.ltb_spec available qty); [lia|].
      unfold bind. rewrite (newDate_isolated w Hw). unfold timeZone.
      unfold insert. rewrite (advance_isolated w Hw).
      fold expires uuid.
      destruct (Hrej Hbad) as [e He]. rewrite He.
      eexists; eexists; split; [reflexivity|]. repeat split.
Qed.

Lemma createReservation_outcomes_witness :
  createReservation request_for_unknown_item widget_world
  = (Thrown (mkAppError 404 "Item not found" ITEM_NOT_FOUND), widget_world)
  /\ createReservation request_for_three widget_world
     = (Thrown (mkAppError 409
                  "Insufficient available quantity. Available: 2, Requested: 3"
                  INSUFFICIENT_QUANTITY), widget_world)
  /\ (exists w',
        createReservation request_by_alice widget_world
        = (Returned (as_response (hold "uuid-1" "alice" 1 PENDING 1000)), w')
        /\ db w'
           = mkStore [widget 2] [hold "uuid-1" "alice" 1 PENDING 1000])
  /\ (exists e w',
        createReservation request_by_blank widget_world = (Thrown e, w')
        /\ code e = DATABASE_ERROR /\ db w' = db widget_world).
Proof.
  assert (Hlt : 2 < 3) by lia.
  assert (Hle : 1 <= 2) by lia.
  assert (Hmax : 1 <= 2147483647) by lia.
  destruct (createReservation_outcomes widget_world request_for_unknown_item
              eq_refl eq_refl) as [H1 _].
  destruct (createReservation_outcomes widget_world request_for_three
              eq_refl eq_refl) as [_ H2].
  destruct (H2 (widget 2) eq_refl) as [_ [H2' _]].
  destruct (createReservation_outcomes widget_world request_by_alice
              eq_refl eq_refl) as [_ H3].
  destruct (H3 (widget 2) eq_refl) as [_ [_ [H3' _]]].
  destruct (createReservation_outcomes widget_world request_by_blank
              eq_refl eq_refl) as [_ H4].
  destruct (H4 (widget 2) eq_refl) as [_ [_ [_ H4']]].
  split; [exact (H1 eq_refl)|].
  split; [exact (H2' Hlt)|].
  split.
  { destruct (H3' Hle eq_refl eq_refl Hmax) as [w' [E [Hd _]]].
    exists w'. split; [exact E | exact Hd]. }
  destruct (H4' Hle (or_intror (or_introl eq_refl)))
    as [e [w' [E [_ [Hc [Hd _]]]]]].
  exists e, w'. split; [exact E|]. split; [exact Hc | exact Hd].
Defined.

(** C8 as stated fails: the request validation admits a customer_id made
    of one space, the availability suffices, and yet nothing is inserted:
    the table's CHECK on customer_id rejects the row and the request fails
    DATABASE_ERROR. *)
Lemma blank_customer_is_not_inserted :
  isolated widget_world
  /\ createReservationSchema request_by_blank = true
  /\ select_item "uuid-0" (db widget_world) = Data (widget 2)
  /\ fst (getAvailableQuantity "uuid-0" widget_world) = Returned 2
  /\ fst (createReservation request_by_blank widget_world)
     = Thrown (mkAppError 500 "Failed to create reservation" DATABASE_ERROR)
  /\ reservations (db (snd (createReservation request_by_blank widget_world)))
     = [].
Proof. repeat split. Qed.

Lemma insert_reservation_Data (uuid : string) (db_now : Z)
    (item customer : string) (qty expires : Z) (s s' : Store)
    (row : Reservation.t) :
  insert_reservation uuid db_now item customer qty expires s = (Data row, s') ->
  row = Reservation.mk uuid item customer qty PENDING db_now expires None None
  /\ s' = mkStore (items s) (reservations s ++ [row]).
Proof.
  unfold insert_reservation.
  destruct (has_reservation s uuid), (fits_varchar255 customer),
    (fits_integer qty), (has_item s item), (not_blank customer), (qty >? 0);
    simpl; intros H; inversion H; subst; split; reflexivity.
Qed.

Lemma itemExists_world (itemId : string) (w w0 : World) (o : Outcome bool) :
  itemExists itemId w = (o, w0) -> w0 = after 1 w.
Proof.
  unfold itemExists, bind, query. cbv zeta.
  destruct (select_item itemId (db (advance w))) as [i|e].
  - unfold ret; intros H; inversion H; reflexivity.
  - destruct (pg_code e =? "PGRST116")%string; unfold ret, throw;
      intros H; inversion H; reflexivity.
Qed.

Lemma getAvailableQuantity_world (itemId : string) (w w1 : World) (a : Z) :
  getAvailableQuantity itemId w = (Returned a, w1) -> w1 = after 4 w.
Proof.
  unfold getAvailableQuantity, bind, query, newDate,
    select_live_pending_quantities, select_confirmed_quantities.
  cbv zeta.
  destruct (select_item itemId (db (advance w))) as [i|e].
  - unfold ret; intros H; inversion H; reflexivity.
  - unfold throw; intros H; discriminate H.
Qed.

Lemma zone_advance (w : World) : zone (advance w) = zone w.
Proof. unfold advance. destruct (sched w); reflexivity. Qed.

Lemma zone_after (n : nat) (w : World) : zone (after n w) = zone w.
Proof.
  induction n as [|n IH]; [reflexivity|].
  change (after (S n) w) with (advance (after n w)).
  rewrite zone_advance. exact IH.
Qed.

(** Whenever createReservation returns a reservation, under any schedule,
    its expires_at is what [setMinutes(getMinutes() + 1)] makes of the clock
    reading taken just before the insert, and the stored row carries the
    same expires_at.  On a server whose zone has a fixed offset this is the
    reading plus 60000 milliseconds, and not the ten minutes of the README.

    Five steps precede that reading (the existence check, and the item
    read, clock reading and two sums of the admission check), so it is the
    clock of [after 6 w]. *)
Theorem reservation_window_is_one_minute
    (w w' : World) (input : CreateReservationInput.t)
    (resp : ReservationResponse.t) :
  createReservation input w = (Returned resp, w') ->
  RESERVATION_EXPIRY_MINUTES = 1
  /\ ReservationResponse.expires_at resp
     = setMinutes_plus (zone w) (clock (after 6 w)) 1
  /\ ReservationResponse.status resp = PENDING
  /\ (exists row,
        In row (reservations (db w'))
        /\ as_response row = resp
        /\ Reservation.expires_at row = ReservationResponse.expires_at resp)
  /\ (fixed_offset (zone w) ->
      ReservationResponse.expires_at resp = clock (after 6 w) + 1 * 60000
      /\ ReservationResponse.expires_at resp
         <> clock (after 6 w) + 10 * 60000).
Proof.
  intros H. unfold createReservation in H.
  unfold bind at 1 in H.
  destruct (itemExists (CreateReservationInput.item_id input) w)
    as [[found|e] w0] eqn:E0; [|discriminate H].
  apply itemExists_world in E0.
  destruct (negb found); [discriminate H|].
  unfold bind at 1 in H.
  destruct (getAvailableQuantity (CreateReservationInput.item_id input) w0)
    as [[availableQty|e] w1] eqn:E1; [|discriminate H].
  apply getAvailableQuantity_world in E1.
  destruct (availableQty <? CreateReservationInput.quantity input);
    [discriminate H|].
  unfold bind, newDate, timeZone, insert in H. cbv zeta in H.
  destruct (insert_reservation (uuids (advance (advance w1))
                                  (issued (advance (advance w1))))
              (clock (advance (advance w1)))
              (CreateReservationInput.item_id input)
              (CreateReservationInput.customer_id input)
              (CreateReservationInput.quantity input)
              (setMinutes_plus (zone (advance w1)) (clock (advance w1))
                 RESERVATION_EXPIRY_MINUTES)
              (db (advance (advance w1)))) as [[data|err] s] eqn:E2;
    [|discriminate H].
  apply insert_reservation_Data in E2; destruct E2 as [Erow Es].
  unfold ret in H. inversion H; subst resp w'; clear H.
  subst w1 w0.
  change (advance (after 4 (after 1 w))) with (after 6 w) in *.
  rewrite (zone_after 6 w) in Erow.
  subst. unfold RESERVATION_EXPIRY_MINUTES.
  cbn [as_response ReservationResponse.expires_at ReservationResponse.status
       ReservationResponse.created_at Reservation.expires_at
       Reservation.status Reservation.created_at db reservations].
  split; [reflexivity|]. split; [reflexivity|].
  split; [reflexivity|]. split.
  - eexists. split; [apply in_or_app; right; left; reflexivity|].
    split; reflexivity.
  - intros Hz. rewrite (setMinutes_plus_fixed _ _ _ Hz). split; lia.
Qed.

Lemma reservation_window_is_one_minute_witness :
  exists resp w',
    createReservation request_by_alice widget_world = (Returned resp, w')
    /\ ReservationResponse.expires_at resp = 1000 + 1 * 60000
    /\ ReservationResponse.expires_at resp <> 1000 + 10 * 60000.
Proof.
  eexists; eexists.
  assert (E : createReservation request_by_alice widget_world
              = (Returned (as_response (hold "uuid-1" "alice" 1 PENDING 1000)),
                 snd (createReservation request_by_alice widget_world)))
    by reflexivity.
  destruct (reservation_window_is_one_minute _ _ _ _ E)
    as [_ [_ [_ [_ H]]]].
  split; [exact E|]. exact (H utc_fixed).
Defined.

(** C9 fails on the code.  On a server in a zone with daylight saving, a
    validated request served one second into the repeated hour is accepted
    and answered with a hold whose expires_at lies 59 minutes before its
    creation instead of one minute after it: [setMinutes] works on the
    local wall-clock time, and reads the repeated local time back with the
    summer offset.  The hold is refused as expired when confirmed at once,
    and the admission check does not count it. *)
Theorem hold_created_in_repeated_hour_is_expired :
  let now := end_of_summer_time_2026 + 1000 in
  isolated repeated_hour_world
  /\ clock repeated_hour_world = now
  /\ createReservationSchema request_by_alice = true
  /\ fst (getAvailableQuantity "uuid-0" repeated_hour_world) = Returned 2
  /\ fst (createReservation request_by_alice repeated_hour_world)
     = Returned
         (as_response
            (Reservation.mk "uuid-1" "uuid-0" "alice" 1 PENDING now
               (now - 3540000) None None))
  /\ now - 3540000 <> now + 1 * 60000
  /\ reservations
       (db (snd (createReservation request_by_alice repeated_hour_world)))
     = [Reservation.mk "uuid-1" "uuid-0" "alice" 1 PENDING now
          (now - 3540000) None None]
  /\ fst (confirmReservation "uuid-1"
            (snd (createReservation request_by_alice repeated_hour_world)))
     = Thrown (mkAppError 409 "Cannot confirm an expired reservation"
                 RESERVATION_EXPIRED)
  /\ fst (getAvailableQuantity "uuid-0"
            (snd (createReservation request_by_alice repeated_hour_world)))
     = Returned 2.
Proof. vm_compute. repeat split; discriminate. Qed.

(** ** The status report is not clamped *)

Lemma bob_after_reachable (pause : Z) : 0 <= pause -> reachable (bob_after pause).
Proof.
  intros Hp. unfold bob_after.
  apply reach_request; [|reflexivity].
  apply reach_wait; [|exact Hp].
  apply reach_request; [|reflexivity].
  apply reach_request; [|reflexivity].
  apply reach_start.
Qed.

(** C10.  The status report does not clamp at zero.  After a widget with one
    unit is created, held at time 0, and held again one millisecond after
    the first hold lapsed (the admission check lets the second hold in),
    the report counts both PENDING rows and shows an available quantity of
    -1, while the admission check at the same instant computes 0. *)
Theorem status_report_can_go_negative :
  exists w st,
    reachable w
    /\ getItemStatus "uuid-0" w = (Returned st, w)
    /\ ItemStatus.total_quantity st = 1
    /\ ItemStatus.reserved_quantity st = 2
    /\ ItemStatus.confirmed_quantity st = 0
    /\ ItemStatus.available_quantity st = -1
    /\ ItemStatus.available_quantity st < 0
    /\ sum_quantity (is_stale_pending_of "uuid-0" (clock w))
         (reservations (db w)) = 1
    /\ getAvailableQuantity "uuid-0" w = (Returned 0, w).
Proof.
  exists oversubscribed_world.
  eexists. split; [apply bob_after_reachable; lia|].
  split; [vm_compute; reflexivity|].
  repeat split; vm_compute; reflexivity.
Qed.

(** ** The accounting contract *)

Lemma accounting_invariantb_spec (s : Store) (now : Z) :
  accounting_invariantb s now = true <-> accounting_invariant s now.
Proof.
  unfold accounting_invariantb, accounting_invariant.
  rewrite forallb_forall. split; intros H i Hi.
  - apply H in Hi. apply Z.geb_le in Hi. lia.
  - apply Z.geb_le. apply H in Hi. lia.
Qed.

(** C1 fails on the code.  A hold that lapses at millisecond 60000 is no
    longer counted by the admission check at 60000 (it counts expiries
    strictly after the reading), so a second hold on the only unit is
    admitted; yet confirm at 60000 still accepts the first hold (it refuses
    only readings strictly after the expiry).  The contract holds before
    the confirm and is broken after it: one unit in stock, one live hold
    and one confirmed reservation. *)
Theorem confirm_at_expiry_instant_breaks_accounting :
  reachable expiry_instant_world
  /\ isolated expiry_instant_world
  /\ db expiry_instant_world = store_at_expiry_instant
  /\ clock expiry_instant_world = 60000
  /\ quantities_positive (db expiry_instant_world)
  /\ accounting_invariant (db expiry_instant_world)
       (clock expiry_instant_world)
  /\ (exists resp,
        fst (confirmReservation "uuid-1" expiry_instant_world) = Returned resp
        /\ ReservationResponse.status resp = CONFIRMED)
  /\ clock (snd (confirmReservation "uuid-1" expiry_instant_world)) = 60000
  /\ committed_quantity "uuid-0" 60000
       (db (snd (confirmReservation "uuid-1" expiry_instant_world))) = 2
  /\ ~ accounting_invariant
         (db (snd (confirmReservation "uuid-1" expiry_instant_world)))
         (clock (snd (confirmReservation "uuid-1" expiry_instant_world))).
Proof.
  assert (Hdb : db expiry_instant_world = store_at_expiry_instant)
    by (vm_compute; reflexivity).
  split; [apply bob_after_reachable; lia|].
  split; [vm_compute; reflexivity|]. split; [exact Hdb|].
  split; [vm_compute; reflexivity|].
  split.
  { rewrite Hdb. intros r Hr. simpl in Hr.
    destruct Hr as [<-|[<-|[]]]; simpl; lia. }
  split; [apply accounting_invariantb_spec; vm_compute; reflexivity|].
  split; [eexists; split; vm_compute; reflexivity|].
  split; [vm_compute; reflexivity|]. split; [vm_compute; reflexivity|].
  intros H. apply accounting_invariantb_spec in H.
  vm_compute in H. discriminate H.
Qed.

(** The same oversell without any coincidence of clock readings: the
    guarded write of confirm checks the status only, so a reservation that
    passed the expiry check just before lapsing is confirmed after its
    unit has been handed to a new hold. *)
Example confirm_write_lands_after_expiry :
  accounting_invariant (db confirm_overtaken_by_create)
    (clock confirm_overtaken_by_create)
  /\ clock (after 2 confirm_overtaken_by_create) = 59999
  /\ accounting_invariant (db (after 3 confirm_overtaken_by_create))
       (clock (after 3 confirm_overtaken_by_create))
  /\ (exists resp,
        fst (confirmReservation "uuid-1" confirm_overtaken_by_create)
        = Returned resp
        /\ ReservationResponse.status resp = CONFIRMED)
  /\ map Reservation.status
       (reservations
          (db (snd (confirmReservation "uuid-1" confirm_overtaken_by_create))))
     = [CONFIRMED; PENDING]
  /\ ~ accounting_invariant
         (db (snd (confirmReservation "uuid-1" confirm_overtaken_by_create)))
         (clock (snd (confirmReservation "uuid-1"
                        confirm_overtaken_by_create))).
Proof.
  split; [apply accounting_invariantb_spec; vm_compute; reflexivity|].
  split; [vm_compute; reflexivity|].
  split; [apply accounting_invariantb_spec; vm_compute; reflexivity|].
  split; [eexists; split; vm_compute; reflexivity|].
  split; [vm_compute; reflexivity|].
  intros H. apply accounting_invariantb_spec in H.
  vm_compute in H. discriminate H.
Qed.

(** *** What does preserve the contract

    The remaining lemmas show that the instant of expiry is the only gap:
    time passing, create, cancel and the sweep preserve the contract, and
    so does confirm on any reservation that does not expire at the very
    millisecond of the request. *)

Lemma committed_cons (item : string) (now : Z) (s_items : list Item.t)
    (r : Reservation.t) (rows : list Reservation.t) :
  committed_quantity item now (mkStore s_items (r :: rows))
  = contribution item now r
    + committed_quantity item now (mkStore s_items rows).
Proof. unfold committed_quantity, contribution; simpl; lia. Qed.

Lemma committed_nil (item : string) (now : Z) (s_items : list Item.t) :
  committed_quantity item now (mkStore s_items []) = 0.
Proof. reflexivity. Qed.

Lemma committed_app (item : string) (now : Z) (s_items : list Item.t)
    (rows : list Reservation.t) (row : Reservation.t) :
  committed_quantity item now (mkStore s_items (rows ++ [row]))
  = committed_quantity item now (mkStore s_items rows)
    + contribution item now row.
Proof.
  induction rows as [|r rows IH]; simpl app.
  - rewrite committed_cons, !(committed_nil item now); lia.
  - rewrite !committed_cons, IH; lia.
Qed.

Lemma committed_map_le (item : string) (now now' : Z)
    (s_items : list Item.t) (g : Reservation.t -> Reservation.t)
    (rows : list Reservation.t) :
  (forall r, In r rows ->
     contribution item now' (g r) <= contribution item now r) ->
  committed_quantity item now' (mkStore s_items (map g rows))
  <= committed_quantity item now (mkStore s_items rows).
Proof.
  induction rows as [|r rows IH]; intros H; simpl map.
  - rewrite (committed_nil item now), (committed_nil item now'); lia.
  - rewrite !committed_cons.
    assert (contribution item now' (g r) <= contribution item now r)
      by (apply H; left; reflexivity).
    assert (committed_quantity item now' (mkStore s_items (map g rows))
            <= committed_quantity item now (mkStore s_items rows))
      by (apply IH; intros x Hx; apply H; right; exact Hx).
    lia.
Qed.

Lemma contribution_nonneg (item : string) (now : Z) (r : Reservation.t) :
  0 < Reservation.quantity r -> 0 <= contribution item now r.
Proof.
  intros H. unfold contribution.
  destruct (is_live_pending_of item now r), (is_confirmed_of item r); lia.
Qed.

(** A hold only stops counting as time goes by. *)
Lemma contribution_antitone (item : string) (now now' : Z)
    (r : Reservation.t) :
  now <= now' -> 0 < Reservation.quantity r ->
  contribution item now' r <= contribution item now r.
Proof.
  intros Ht Hq. unfold contribution, is_live_pending_of.
  destruct (eq_item_id item r && eq_status PENDING r); simpl;
    destruct (is_confirmed_of item r);
    destruct (Z.ltb_spec now' (Reservation.expires_at r));
    destruct (Z.ltb_spec now (Reservation.expires_at r)); lia.
Qed.

Lemma contribution_cancelled (item : string) (now at_ : Z)
    (r : Reservation.t) :
  contribution item now (set_cancelled at_ r) = 0.
Proof.
  unfold contribution, is_live_pending_of, is_confirmed_of, eq_status; simpl.
  rewrite !Bool.andb_false_r; reflexivity.
Qed.

Lemma contribution_expired (item : string) (now : Z) (r : Reservation.t) :
  contribution item now (set_expired r) = 0.
Proof.
  unfold contribution, is_live_pending_of, is_confirmed_of, eq_status; simpl.
  rewrite !Bool.andb_false_r; reflexivity.
Qed.

(** Confirming a live hold moves its quantity from the held to the
    confirmed side. *)
Lemma contribution_confirmed_live (item : string) (now at_ : Z)
    (r : Reservation.t) :
  Reservation.status r = PENDING ->
  now < Reservation.expires_at r ->
  contribution item now (set_confirmed at_ r) = contribution item now r.
Proof.
  intros Hst Hlive.
  unfold contribution, is_live_pending_of, is_confirmed_of, eq_status,
    eq_item_id; simpl.
  rewrite Hst; simpl.
  destruct (Reservation.item_id r =? item)%string; simpl; [|reflexivity].
  destruct (Z.ltb_spec now (Reservation.expires_at r)); lia.
Qed.

Lemma store_eta (s : Store) : mkStore (items s) (reservations s) = s.
Proof. destruct s; reflexivity. Qed.

(** The contract survives any rewriting of rows that does not raise what a
    row contributes, and any passing of time. *)
Lemma accounting_invariant_map (s : Store) (now now' : Z)
    (g : Reservation.t -> Reservation.t) :
  accounting_invariant s now ->
  (forall item r, In r (reservations s) ->
     contribution item now' (g r) <= contribution item now r) ->
  accounting_invariant (mkStore (items s) (map g (reservations s))) now'.
Proof.
  intros Hinv Hg i Hi. simpl in Hi.
  specialize (Hinv i Hi).
  pose proof (committed_map_le (Item.id i) now now' (items s) g
                (reservations s) (fun r Hr => Hg (Item.id i) r Hr)) as Hle.
  rewrite store_eta in Hle. lia.
Qed.

Lemma accounting_invariant_wait (s : Store) (now dt : Z) :
  0 <= dt -> quantities_positive s ->
  accounting_invariant s now -> accounting_invariant s (now + dt).
Proof.
  intros Hdt Hq Hinv.
  pose proof (accounting_invariant_map s now (now + dt) (fun r => r) Hinv)
    as H.
  rewrite map_id, store_eta in H. apply H.
  intros item r Hr. apply contribution_antitone; [lia | apply Hq; exact Hr].
Qed.

(** The world [w] with its reservation rows rewritten by [g]. *)
Lemma rows_unchanged (w : World) (P : Reservation.t -> Reservation.t -> Prop) :
  (forall x, P x x) ->
  exists g,
    w = mkWorld (mkStore (items (db w)) (map g (reservations (db w))))
          (clock w) (uuids w) (issued w) (sched w) (zone w)
    /\ forall x, In x (reservations (db w)) -> P x (g x).
Proof.
  intros HP. exists (fun x => x). split.
  - rewrite map_id, store_eta, world_eta; reflexivity.
  - intros x _; apply HP.
Qed.

Lemma getReservation_isolated (w : World) (rid : string) :
  isolated w ->
  getReservation rid w
  = match select_reservation rid (db w) with
    | Data data => (Returned data, w)
    | Error error =>
        if (pg_code error =? "PGRST116")%string
        then (Thrown (mkAppError 404 "Reservation not found"
                        RESERVATION_NOT_FOUND), w)
        else (Thrown (mkAppError 500 "Failed to fetch reservation"
                        DATABASE_ERROR), w)
    end.
Proof.
  intros Hw. unfold getReservation, bind.
  rewrite (query_isolated _ w Hw).
  destruct (select_reservation rid (db w)) as [r|e]; [reflexivity|].
  destruct (pg_code e =? "PGRST116")%string; reflexivity.
Qed.

Lemma getReservation_isolated_world (w : World) (rid : string) :
  isolated w -> snd (getReservation rid w) = w.
Proof.
  intros Hw. rewrite (getReservation_isolated w rid Hw).
  destruct (select_reservation rid (db w)) as [r|e]; [reflexivity|].
  destruct (pg_code e =? "PGRST116")%string; reflexivity.
Qed.

(** Served in isolation, cancel leaves the clock and the items alone and
    rewrites rows, if any, by marking them cancelled. *)
Lemma cancelReservation_rows (w : World) (rid : string) :
  isolated w ->
  exists g,
    snd (cancelReservation rid w)
    = mkWorld (mkStore (items (db w)) (map g (reservations (db w))))
        (clock w) (uuids w) (issued w) (sched w) (zone w)
    /\ forall x, In x (reservations (db w)) ->
         g x = x \/ g x = set_cancelled (clock w) x.
Proof.
  intros Hw.
  pose proof (rows_unchanged w
                (fun x y => y = x \/ y = set_cancelled (clock w) x)
                (fun x => or_introl eq_refl)) as Hsame.
  unfold cancelReservation, bind.
  rewrite (getReservation_isolated w rid Hw).
  destruct (select_reservation rid (db w)) as [r|e].
  2:{ destruct (pg_code e =? "PGRST116")%string; exact Hsame. }
  destruct (Reservation.status r); try exact Hsame.
  rewrite (newDate_isolated w Hw).
  unfold mutate. rewrite (advance_isolated w Hw).
  unfold update_cancelled, update_single.
  destruct (filter (fun x => eq_id rid x && eq_status PENDING x)
              (reservations (db w))) as [|r1 [|r2 rest]].
  - rewrite world_eta. cbn [pg_code PGRST116 String.eqb Ascii.eqb Bool.eqb].
    pose proof (getReservation_isolated_world w rid Hw) as Hre.
    destruct (getReservation rid w) as [[u|e] w1]; simpl in Hre; subst w1;
      [destruct (Reservation.status u)|]; exact Hsame.
  - exists (fun x => if eq_id rid x && eq_status PENDING x
                     then set_cancelled (clock w) x else x).
    split; [reflexivity|].
    intros x _. destruct (eq_id rid x && eq_status PENDING x); auto.
  - rewrite world_eta. cbn [pg_code PGRST116 String.eqb Ascii.eqb Bool.eqb].
    pose proof (getReservation_isolated_world w rid Hw) as Hre.
    destruct (getReservation rid w) as [[u|e] w1]; simpl in Hre; subst w1;
      [destruct (Reservation.status u)|]; exact Hsame.
Qed.

(** Served in isolation, confirm rewrites at most the reservation it read,
    which was PENDING and, at the reading of the clock, not past its
    expiry. *)
Lemma confirmReservation_rows (w : World) (rid : string) :
  isolated w ->
  exists g,
    snd (confirmReservation rid w)
    = mkWorld (mkStore (items (db w)) (map g (reservations (db w))))
        (clock w) (uuids w) (issued w) (sched w) (zone w)
    /\ forall x, In x (reservations (db w)) ->
         g x = x
         \/ (g x = set_confirmed (clock w) x
             /\ Reservation.id x = rid
             /\ Reservation.status x = PENDING
             /\ clock w <= Reservation.expires_at x).
Proof.
  intros Hw.
  pose proof (rows_unchanged w
                (fun x y => y = x
                            \/ (y = set_confirmed (clock w) x
                                /\ Reservation.id x = rid
                                /\ Reservation.status x = PENDING
                                /\ clock w <= Reservation.expires_at x))
                (fun x => or_introl eq_refl)) as Hsame.
  unfold confirmReservation, bind.
  rewrite (getReservation_isolated w rid Hw).
  destruct (select_reservation rid (db w)) as [r|e] eqn:Hread.
  2:{ destruct (pg_code e =? "PGRST116")%string; exact Hsame. }
  destruct (Reservation.status r) eqn:Hst; try exact Hsame.
  rewrite (newDate_isolated w Hw).
  destruct (Z.gtb_spec (clock w) (Reservation.expires_at r)) as [|Hlive];
    [exact Hsame|].
  rewrite (newDate_isolated w Hw).
  unfold mutate. rewrite (advance_isolated w Hw).
  unfold update_confirmed, update_single.
  destruct (filter (fun x => eq_id rid x && eq_status PENDING x)
              (reservations (db w))) as [|r1 [|r2 rest]] eqn:Hsel.
  - rewrite world_eta. cbn [pg_code PGRST116 String.eqb Ascii.eqb Bool.eqb].
    pose proof (getReservation_isolated_world w rid Hw) as Hre.
    destruct (getReservation rid w) as [[u|e] w1]; simpl in Hre; subst w1;
      [destruct (Reservation.status u)|]; exact Hsame.
  - exists (fun x => if eq_id rid x && eq_status PENDING x
                     then set_confirmed (clock w) x else x).
    split; [reflexivity|].
    intros x Hx. destruct (eq_id rid x && eq_status PENDING x) eqn:Ex; auto.
    right. split; [reflexivity|].
    apply andb_prop in Ex; destruct Ex as [Eid Epend].
    assert (x = r).
    { apply single_Data in Hread.
      assert (Hin : In x (filter (eq_id rid) (reservations (db w))))
        by (apply filter_In; split; assumption).
      rewrite Hread in Hin. destruct Hin as [<-|[]]; reflexivity. }
    subst x. split; [apply String.eqb_eq; exact Eid|].
    split; [exact Hst | exact Hlive].
  - rewrite world_eta. cbn [pg_code PGRST116 String.eqb Ascii.eqb Bool.eqb].
    pose proof (getReservation_isolated_world w rid Hw) as Hre.
    destruct (getReservation rid w) as [[u|e] w1]; simpl in Hre; subst w1;
      [destruct (Reservation.status u)|]; exact Hsame.
Qed.

(** Served in isolation, the sweep rewrites rows, if any, by marking them
    expired. *)
Lemma expireReservations_rows (w : World) :
  isolated w ->
  exists g,
    snd (expireReservations w)
    = mkWorld (mkStore (items (db w)) (map g (reservations (db w))))
        (clock w) (uuids w) (issued w) (sched w) (zone w)
    /\ forall x, In x (reservations (db w)) ->
         g x = x \/ g x = set_expired x.
Proof.
  intros Hw.
  pose proof (rows_unchanged w (fun x y => y = x \/ y = set_expired x)
                (fun x => or_introl eq_refl)) as Hsame.
  unfold expireReservations, bind.
  rewrite (newDate_isolated w Hw), (query_isolated _ w Hw).
  unfold select_stale_pending_ids.
  destruct (Z.of_nat _ =? 0); [exact Hsame|].
  unfold mutate. rewrite (advance_isolated w Hw).
  unfold update_expired, update_where. cbn [ret snd].
  eexists. split; [reflexivity|].
  intros x _. cbv beta.
  match goal with |- context [if ?c then _ else _] => destruct c end; auto.
Qed.

(** What the insert statement answers for a row whose item exists. *)
Lemma insert_reservation_run (uuid : string) (db_now : Z)
    (item customer : string) (qty expires : Z) (s : Store) :
  has_item s item = true ->
  insert_reservation uuid db_now item customer qty expires s
  = if row_accepted s uuid customer qty
    then (Data (Reservation.mk uuid item customer qty PENDING db_now expires
                  None None),
          mkStore (items s)
            (reservations s
             ++ [Reservation.mk uuid item customer qty PENDING db_now expires
                   None None]))
    else (Error (if has_reservation s uuid then unique_violation
                 else if negb (fits_varchar255 customer)
                 then string_data_right_truncation
                 else if negb (fits_integer qty)
                 then numeric_value_out_of_range
                 else check_violation), s).
Proof.
  intros Hitem. unfold row_accepted, insert_reservation. rewrite Hitem.
  destruct (has_reservation s uuid), (fits_varchar255 customer),
    (fits_integer qty), (not_blank customer), (qty >? 0); reflexivity.
Qed.

(** Served in isolation, create runs to one of five ends. *)
Lemma createReservation_isolated_run (w : World)
    (input : CreateReservationInput.t) :
  isolated w ->
  createReservation input w
  = match select_item (CreateReservationInput.item_id input) (db w) with
    | Error e =>
        if (pg_code e =? "PGRST116")%string
        then (Thrown (mkAppError 404 "Item not found" ITEM_NOT_FOUND), w)
        else (Thrown (mkAppError 500 "Failed to check item existence"
                        DATABASE_ERROR), w)
    | Data item =>
        let available :=
          Item.total_quantity item
          - committed_quantity (CreateReservationInput.item_id input)
              (clock w) (db w) in
        if available <? CreateReservationInput.quantity input
        then (Thrown (mkAppError 409
                        (insufficient_quantity_message available
                           (CreateReservationInput.quantity input))
                        INSUFFICIENT_QUANTITY), w)
        else
          let row :=
            Reservation.mk (uuids w (issued w))
              (CreateReservationInput.item_id input)
              (CreateReservationInput.customer_id input)
              (CreateReservationInput.quantity input) PENDING (clock w)
              (setMinutes_plus (zone w) (clock w) RESERVATION_EXPIRY_MINUTES)
        None None in
          if row_accepted (db w) (uuids w (issued w))
               (CreateReservationInput.customer_id input)
               (CreateReservationInput.quantity input)
          then (Returned (as_response row),
                mkWorld (mkStore (items (db w)) (reservations (db w) ++ [row]))
                  (clock w) (uuids w) (S (issued w)) (sched w) (zone w))
          else (Thrown (mkAppError 500 "Failed to create reservation"
                          DATABASE_ERROR),
                mkWorld (db w) (clock w) (uuids w) (S (issued w)) (sched w) (zone w))
    end.
Proof.
  intros Hw. unfold createReservation, itemExists.
  unfold bind at 1. unfold bind at 1.
  rewrite (query_isolated _ w Hw).
  destruct (select_item (CreateReservationInput.item_id input) (db w))
    as [item|e] eqn:Hitem.
  2:{ destruct (pg_code e =? "PGRST116")%string; reflexivity. }
  cbn [ret negb].
  rewrite (bind_returned _ _ _ _ _
             (getAvailableQuantity_isolated w _ item Hw Hitem)).
  cbv zeta. unfold committed_quantity.
  replace (Item.total_quantity item
           - (sum_quantity
                (is_live_pending_of (CreateReservationInput.item_id input)
                   (clock w)) (reservations (db w))
              + sum_quantity
                  (is_confirmed_of (CreateReservationInput.item_id input))
                  (reservations (db w))))
    with (Item.total_quantity item
          - sum_quantity
              (is_live_pending_of (CreateReservationInput.item_id input)
                 (clock w)) (reservations (db w))
          - sum_quantity
              (is_confirmed_of (CreateReservationInput.item_id input))
              (reservations (db w))) by lia.
  destruct (_ <? CreateReservationInput.quantity input); [reflexivity|].
  unfold bind. rewrite (newDate_isolated w Hw). unfold timeZone.
  unfold insert. rewrite (advance_isolated w Hw).
  rewrite (insert_reservation_run _ _ _ _ _ _ _
             (select_item_has_item _ _ _ Hitem)).
  destruct (row_accepted (db w) (uuids w (issued w))
              (CreateReservationInput.customer_id input)
              (CreateReservationInput.quantity input)); reflexivity.
Qed.

(** Served in isolation, create leaves the store alone or appends one row
    that the admission check has let in. *)
Lemma createReservation_store (w : World) (input : CreateReservationInput.t) :
  isolated w ->
  let itemId := CreateReservationInput.item_id input in
  let qty := CreateReservationInput.quantity input in
  clock (snd (createReservation input w)) = clock w
  /\ (db (snd (createReservation input w)) = db w
      \/ exists item row,
           select_item itemId (db w) = Data item
           /\ qty <= Item.total_quantity item
                     - committed_quantity itemId (clock w) (db w)
           /\ 0 < qty
           /\ Reservation.quantity row = qty
           /\ Reservation.item_id row = itemId
           /\ db (snd (createReservation input w))
              = mkStore (items (db w)) (reservations (db w) ++ [row])).
Proof.
  intros Hw itemId qty.
  rewrite (createReservation_isolated_run w input Hw). fold itemId qty.
  destruct (select_item itemId (db w)) as [item|e] eqn:Hitem.
  2:{ destruct (pg_code e =? "PGRST116")%string;
        (split; [reflexivity | left; reflexivity]). }
  cbv zeta.
  destruct (Z.ltb_spec
              (Item.total_quantity item
               - committed_quantity itemId (clock w) (db w)) qty) as [|Hge];
    [split; [reflexivity | left; reflexivity]|].
  destruct (row_accepted (db w) (uuids w (issued w))
              (CreateReservationInput.customer_id input) qty) eqn:Hrow;
    [|split; [reflexivity | left; reflexivity]].
  split; [reflexivity|]. right.
  exists item,
    (Reservation.mk (uuids w (issued w)) itemId
       (CreateReservationInput.customer_id input) qty PENDING (clock w)
       (setMinutes_plus (zone w) (clock w) RESERVATION_EXPIRY_MINUTES) None None).
  split; [reflexivity|]. split; [exact Hge|].
  split.
  { unfold row_accepted in Hrow.
    apply andb_prop in Hrow; destruct Hrow as [_ Hpos].
    apply Z.gtb_lt in Hpos. lia. }
  repeat split.
Qed.

Lemma contribution_le_quantity (item : string) (now : Z) (r : Reservation.t) :
  0 < Reservation.quantity r ->
  contribution item now r <= Reservation.quantity r.
Proof.
  intros Hq. unfold contribution, is_live_pending_of, is_confirmed_of,
    eq_status.
  destruct (eq_item_id item r); simpl; [|lia].
  destruct (Reservation.status r); simpl;
    try destruct (now <? Reservation.expires_at r); lia.
Qed.

Lemma contribution_other_item (item : string) (now : Z) (r : Reservation.t) :
  Reservation.item_id r <> item -> contribution item now r = 0.
Proof.
  intros Hne. unfold contribution, is_live_pending_of, is_confirmed_of,
    eq_item_id.
  destruct (String.eqb_spec (Reservation.item_id r) item); [contradiction|].
  reflexivity.
Qed.

Lemma quantities_positive_map (s_items : list Item.t)
    (rows : list Reservation.t) (g : Reservation.t -> Reservation.t) :
  quantities_positive (mkStore s_items rows) ->
  (forall x, In x rows -> Reservation.quantity (g x) = Reservation.quantity x) ->
  quantities_positive (mkStore s_items (map g rows)).
Proof.
  intros Hq Hg r Hr. simpl in Hr. apply in_map_iff in Hr.
  destruct Hr as [x [<- Hx]]. rewrite (Hg x Hx). apply Hq; exact Hx.
Qed.

(** The rows of a request that only rewrites rows, each either kept or
    replaced by one that contributes no more and has the same quantity. *)
Lemma rewriting_preserves_contract (w w' : World)
    (g : Reservation.t -> Reservation.t) :
  quantities_positive (db w) ->
  accounting_invariant (db w) (clock w) ->
  w' = mkWorld (mkStore (items (db w)) (map g (reservations (db w))))
         (clock w) (uuids w) (issued w) (sched w) (zone w) ->
  (forall x, In x (reservations (db w)) ->
     Reservation.quantity (g x) = Reservation.quantity x
     /\ forall item,
          contribution item (clock w) (g x) <= contribution item (clock w) x) ->
  accounting_invariant (db w') (clock w') /\ quantities_positive (db w').
Proof.
  intros Hq Hinv -> Hg. cbn [db clock]. split.
  - apply (accounting_invariant_map (db w) (clock w) (clock w) g Hinv).
    intros item r Hr. apply (Hg r Hr).
  - apply quantities_positive_map.
    + rewrite store_eta; exact Hq.
    + intros x Hx. apply (Hg x Hx).
Qed.

(** Away from the instant of expiry the contract is preserved: by create,
    by cancel, by the sweep, by the passing of time, and by confirm on a
    reservation whose expiry is not the current millisecond. *)
Theorem accounting_contract_preserved_off_expiry_instant (w : World) :
  isolated w ->
  quantities_positive (db w) ->
  accounting_invariant (db w) (clock w) ->
  (forall input,
     accounting_invariant (db (snd (createReservation input w)))
       (clock (snd (createReservation input w)))
     /\ quantities_positive (db (snd (createReservation input w))))
  /\ (forall rid,
        accounting_invariant (db (snd (cancelReservation rid w)))
          (clock (snd (cancelReservation rid w)))
        /\ quantities_positive (db (snd (cancelReservation rid w))))
  /\ (accounting_invariant (db (snd (expireReservations w)))
        (clock (snd (expireReservations w)))
      /\ quantities_positive (db (snd (expireReservations w))))
  /\ (forall rid,
        (forall r, In r (reservations (db w)) -> Reservation.id r = rid ->
           Reservation.expires_at r <> clock w) ->
        accounting_invariant (db (snd (confirmReservation rid w)))
          (clock (snd (confirmReservation rid w)))
        /\ quantities_positive (db (snd (confirmReservation rid w))))
  /\ (forall dt, 0 <= dt ->
        accounting_invariant (db (wait dt w)) (clock (wait dt w))).
Proof.
  intros Hw Hq Hinv.
  split; [|split; [|split; [|split]]].
  - intros input.
    destruct (createReservation_store w input Hw) as [Hclock [Hdb|Hnew]].
    + rewrite Hclock, Hdb. split; assumption.
    + destruct Hnew as [item [row [Hitem [Hroom [Hpos [Hqty [Hrow Hdb]]]]]]].
      rewrite Hclock, Hdb. split.
      * intros i Hi. cbn [items] in Hi.
        rewrite committed_app, store_eta.
        pose proof (Hinv i Hi) as Hi'.
        destruct (String.eqb_spec (Item.id i)
                    (CreateReservationInput.item_id input)) as [Heq|Hne].
        -- assert (i = item).
           { apply single_Data in Hitem.
             assert (Hin : In i (filter
                                   (fun x => (Item.id x
                                              =? CreateReservationInput.item_id
                                                   input)%string)
                                   (items (db w)))).
             { apply filter_In. split; [exact Hi|].
               apply String.eqb_eq; exact Heq. }
             rewrite Hitem in Hin. destruct Hin as [<-|[]]; reflexivity. }
           subst i. rewrite Heq.
           assert (contribution (CreateReservationInput.item_id input)
                     (clock w) row <= Reservation.quantity row)
             by (apply contribution_le_quantity; lia).
           lia.
        -- rewrite (contribution_other_item (Item.id i) (clock w) row); [lia|].
           rewrite Hrow. congruence.
      * intros r Hr. cbn [reservations] in Hr.
        apply in_app_or in Hr. destruct Hr as [Hr|[<-|[]]].
        -- apply Hq; exact Hr.
        -- lia.
  - intros rid.
    destruct (cancelReservation_rows w rid Hw) as [g [Hw' Hg]].
    apply (rewriting_preserves_contract w _ g Hq Hinv Hw').
    intros x Hx. destruct (Hg x Hx) as [->| ->].
    + split; [reflexivity | intros; lia].
    + split; [reflexivity|]. intros item.
      rewrite contribution_cancelled.
      apply contribution_nonneg. apply Hq; exact Hx.
  - destruct (expireReservations_rows w Hw) as [g [Hw' Hg]].
    apply (rewriting_preserves_contract w _ g Hq Hinv Hw').
    intros x Hx. destruct (Hg x Hx) as [->| ->].
    + split; [reflexivity | intros; lia].
    + split; [reflexivity|]. intros item.
      rewrite contribution_expired.
      apply contribution_nonneg. apply Hq; exact Hx.
  - intros rid Hoff.
    destruct (confirmReservation_rows w rid Hw) as [g [Hw' Hg]].
    apply (rewriting_preserves_contract w _ g Hq Hinv Hw').
    intros x Hx. destruct (Hg x Hx) as [->|[-> [Hid [Hst Hlive]]]].
    + split; [reflexivity | intros; lia].
    + split; [reflexivity|]. intros item.
      rewrite contribution_confirmed_live; [lia | exact Hst |].
      pose proof (Hoff x Hx Hid). lia.
  - intros dt Hdt. unfold wait; cbn [db clock].
    apply accounting_invariant_wait; assumption.
Qed.

Lemma accounting_contract_preserved_off_expiry_instant_witness :
  accounting_invariant (db (snd (createReservation request_by_alice widget_world)))
    (clock (snd (createReservation request_by_alice widget_world)))
  /\ accounting_invariant (db (snd (expireReservations widget_world)))
       (clock (snd (expireReservations widget_world))).
Proof.
  assert (Hq : quantities_positive (db widget_world))
    by (intros r Hr; destruct Hr).
  assert (Hinv : accounting_invariant (db widget_world) (clock widget_world))
    by (apply accounting_invariantb_spec; reflexivity).
  destruct (accounting_contract_preserved_off_expiry_instant widget_world
              eq_refl Hq Hinv) as [H1 [_ [H3 _]]].
  split; [apply (H1 request_by_alice) | apply H3].
Defined.

(** * Further properties of the services *)

(** ** Requests served in isolation, end to end *)

Lemma select_reservation_filter (rid : string) (s : Store)
    (r : Reservation.t) :
  select_reservation rid s = Data r ->
  filter (eq_id rid) (reservations s) = [r] /\ Reservation.id r = rid.
Proof.
  intros H. apply single_Data in H. split; [exact H|].
  assert (Hin : In r (filter (eq_id rid) (reservations s)))
    by (rewrite H; left; reflexivity).
  apply filter_In in Hin. apply String.eqb_eq. exact (proj2 Hin).
Qed.

(** The rows of [rows] with the guarded patch of [rid] applied. *)
Lemma mutate_isolated {A : Type} (stmt : Store -> A * Store) (w : World) :
  isolated w ->
  mutate stmt w
  = (Returned (fst (stmt (db w))),
     mkWorld (snd (stmt (db w))) (clock w) (uuids w) (issued w) (sched w) (zone w)).
Proof.
  intros Hw. unfold mutate. rewrite (advance_isolated w Hw).
  destruct (stmt (db w)); reflexivity.
Qed.

Lemma update_single_hit (patch : Reservation.t -> Reservation.t)
    (sel : Reservation.t -> bool) (s : Store) (r : Reservation.t) :
  filter sel (reservations s) = [r] ->
  update_single patch sel s
  = (Data (patch r),
     mkStore (items s)
       (map (fun x => if sel x then patch x else x) (reservations s))).
Proof. intros H; unfold update_single; rewrite H; reflexivity. Qed.

(** Served in isolation, confirm runs to one of these ends. *)
Lemma confirmReservation_isolated_run (w : World) (rid : string) :
  isolated w ->
  confirmReservation rid w
  = match select_reservation rid (db w) with
    | Error e =>
        if (pg_code e =? "PGRST116")%string
        then (Thrown (mkAppError 404 "Reservation not found"
                        RESERVATION_NOT_FOUND), w)
        else (Thrown (mkAppError 500 "Failed to fetch reservation"
                        DATABASE_ERROR), w)
    | Data r =>
        match Reservation.status r with
        | CONFIRMED =>
            (Returned
               (ReservationResponse.mk (Reservation.id r)
                  (Reservation.item_id r) (Reservation.customer_id r)
                  (Reservation.quantity r) (Reservation.status r)
                  (Reservation.created_at r) (Reservation.expires_at r)
                  (Some (Reservation.confirmed_at r)) None), w)
        | CANCELLED =>
            (Thrown (mkAppError 409 "Cannot confirm a cancelled reservation"
                       RESERVATION_CANCELLED), w)
        | EXPIRED =>
            (Thrown (mkAppError 409 "Cannot confirm an expired reservation"
                       RESERVATION_EXPIRED), w)
        | PENDING =>
            if clock w >? Reservation.expires_at r
            then (Thrown (mkAppError 409
                            "Cannot confirm an expired reservation"
                            RESERVATION_EXPIRED), w)
            else (Returned (as_response (set_confirmed (clock w) r)),
                  mkWorld
                    (mkStore (items (db w))
                       (map (fun x => if eq_id rid x && eq_status PENDING x
                                      then set_confirmed (clock w) x else x)
                          (reservations (db w))))
                    (clock w) (uuids w) (issued w) (sched w) (zone w))
        end
    end.
Proof.
  intros Hw. unfold confirmReservation. unfold bind at 1.
  rewrite (getReservation_isolated w rid Hw).
  destruct (select_reservation rid (db w)) as [r|e] eqn:Hread.
  2:{ destruct (pg_code e =? "PGRST116")%string; reflexivity. }
  destruct (Reservation.status r) eqn:Hst; try reflexivity.
  unfold bind at 1. rewrite (newDate_isolated w Hw).
  destruct (clock w >? Reservation.expires_at r); [reflexivity|].
  unfold bind at 1. rewrite (newDate_isolated w Hw).
  unfold bind at 1. rewrite (mutate_isolated _ w Hw).
  unfold update_confirmed.
  destruct (select_reservation_filter rid (db w) r Hread) as [Hf _].
  rewrite (update_single_hit _ _ _ r (guarded_filter_hit rid _ r Hf Hst)).
  reflexivity.
Qed.

(** Served in isolation, cancel runs to one of these ends. *)
Lemma cancelReservation_isolated_run (w : World) (rid : string) :
  isolated w ->
  cancelReservation rid w
  = match select_reservation rid (db w) with
    | Error e =>
        if (pg_code e =? "PGRST116")%string
        then (Thrown (mkAppError 404 "Reservation not found"
                        RESERVATION_NOT_FOUND), w)
        else (Thrown (mkAppError 500 "Failed to fetch reservation"
                        DATABASE_ERROR), w)
    | Data r =>
        match Reservation.status r with
        | CANCELLED =>
            (Returned
               (ReservationResponse.mk (Reservation.id r)
                  (Reservation.item_id r) (Reservation.customer_id r)
                  (Reservation.quantity r) (Reservation.status r)
                  (Reservation.created_at r) (Reservation.expires_at r)
                  None (Some (Reservation.cancelled_at r))), w)
        | EXPIRED =>
            (Thrown (mkAppError 409 "Cannot cancel an expired reservation"
                       RESERVATION_EXPIRED), w)
        | CONFIRMED =>
            (Thrown (mkAppError 409 "Cannot cancel a confirmed reservation"
                       RESERVATION_CONFIRMED), w)
        | PENDING =>
            (Returned (as_response (set_cancelled (clock w) r)),
             mkWorld
               (mkStore (items (db w))
                  (map (fun x => if eq_id rid x && eq_status PENDING x
                                 then set_cancelled (clock w) x else x)
                     (reservations (db w))))
               (clock w) (uuids w) (issued w) (sched w) (zone w))
        end
    end.
Proof.
  intros Hw. unfold cancelReservation. unfold bind at 1.
  rewrite (getReservation_isolated w rid Hw).
  destruct (select_reservation rid (db w)) as [r|e] eqn:Hread.
  2:{ destruct (pg_code e =? "PGRST116")%string; reflexivity. }
  destruct (Reservation.status r) eqn:Hst; try reflexivity.
  unfold bind at 1. rewrite (newDate_isolated w Hw).
  unfold bind at 1. rewrite (mutate_isolated _ w Hw).
  unfold update_cancelled.
  destruct (select_reservation_filter rid (db w) r Hread) as [Hf _].
  rewrite (update_single_hit _ _ _ r (guarded_filter_hit rid _ r Hf Hst)).
  reflexivity.
Qed.

(** Served in isolation, the sweep runs to one of two ends. *)
Lemma expireReservations_isolated_run (w : World) :
  isolated w ->
  let stale :=
    map Reservation.id
      (filter (is_stale_pending (clock w)) (reservations (db w))) in
  expireReservations w
  = match stale with
    | [] => (Returned (ExpireReservationsResult.mk 0 []), w)
    | _ :: _ =>
        (Returned (ExpireReservationsResult.mk
                     (Z.of_nat (List.length stale)) stale),
         mkWorld
           (mkStore (items (db w))
              (map (fun x => if in_id stale x && eq_status PENDING x
                             then set_expired x else x)
                 (reservations (db w))))
           (clock w) (uuids w) (issued w) (sched w) (zone w))
    end.
Proof.
  intros Hw stale.
  unfold expireReservations. unfold bind at 1.
  rewrite (newDate_isolated w Hw).
  unfold bind at 1. rewrite (query_isolated _ w Hw), stale_pending_ids.
  subst stale.
  destruct (filter (is_stale_pending (clock w)) (reservations (db w)))
    as [|r0 rest]; [reflexivity|].
  cbn [map List.length]. rewrite Nat2Z.inj_succ.
  destruct (Z.eqb_spec (Z.succ (Z.of_nat (List.length
              (map (fun r => IdRow.mk (Reservation.id r)) rest)))) 0)
    as [Hz|_]; [lia|].
  unfold bind. rewrite (mutate_isolated _ w Hw).
  unfold update_expired. cbn [fst snd IdRow.id].
  rewrite !map_map, !length_map. cbn [IdRow.id].
  rewrite Nat2Z.inj_succ. reflexivity.
Qed.

Lemma insert_isolated {A : Type} (stmt : string -> Z -> Store -> A * Store)
    (w : World) :
  isolated w ->
  insert stmt w
  = (Returned (fst (stmt (uuids w (issued w)) (clock w) (db w))),
     mkWorld (snd (stmt (uuids w (issued w)) (clock w) (db w)))
       (clock w) (uuids w) (S (issued w)) (sched w) (zone w)).
Proof.
  intros Hw. unfold insert. rewrite (advance_isolated w Hw).
  destruct (stmt (uuids w (issued w)) (clock w) (db w)); reflexivity.
Qed.

(** The items table takes a new row. *)
Lemma insert_item_run (uuid : string) (db_now : Z) (name : string)
    (total : Z) (s : Store) :
  (exists e, insert_item uuid db_now name total s = (Error e, s))
  \/ (insert_item uuid db_now name total s
      = (Data (Item.mk uuid name total db_now db_now),
         mkStore (items s ++ [Item.mk uuid name total db_now db_now])
           (reservations s))
      /\ has_item s uuid = false
      /\ not_blank name = true
      /\ 0 <= total).
Proof.
  unfold insert_item.
  destruct (has_item s uuid); [left; eexists; reflexivity|].
  destruct (fits_varchar255 name); [|left; eexists; reflexivity].
  destruct (fits_integer total); [|left; eexists; reflexivity].
  destruct (not_blank name); [|left; eexists; reflexivity].
  destruct (Z.geb_spec total 0); [|left; eexists; reflexivity].
  right. repeat split; simpl; lia.
Qed.

(** ** What a request does to the stored rows *)

Lemma rows_kept (w : World) :
  exists g,
    w = mkWorld (mkStore (items (db w)) (map g (reservations (db w))))
          (clock w) (uuids w) (issued w) (sched w) (zone w)
    /\ forall x, In x (reservations (db w)) -> row_step (clock w) x (g x).
Proof.
  exists (fun x => x). split.
  - rewrite map_id, store_eta, world_eta; reflexivity.
  - intros x _; apply row_kept.
Qed.

Lemma NoDup_map_eq {A B : Type} (f : A -> B) (l : list A) (x y : A) :
  NoDup (map f l) -> In x l -> In y l -> f x = f y -> x = y.
Proof.
  induction l as [|a l IH]; simpl; intros Hnd Hx Hy E; [contradiction|].
  inversion Hnd as [|? ? Hnot Hnd']; subst.
  destruct Hx as [->|Hx], Hy as [->|Hy].
  - reflexivity.
  - exfalso; apply Hnot. rewrite E. apply in_map; exact Hy.
  - exfalso; apply Hnot. rewrite <- E. apply in_map; exact Hx.
  - apply IH; assumption.
Qed.

Lemma confirmReservation_row_steps (w : World) (rid : string) :
  isolated w ->
  exists g,
    snd (confirmReservation rid w)
    = mkWorld (mkStore (items (db w)) (map g (reservations (db w))))
        (clock w) (uuids w) (issued w) (sched w) (zone w)
    /\ forall x, In x (reservations (db w)) -> row_step (clock w) x (g x).
Proof.
  intros Hw. rewrite (confirmReservation_isolated_run w rid Hw).
  destruct (select_reservation rid (db w)) as [r|e] eqn:Hread.
  2:{ destruct (pg_code e =? "PGRST116")%string; apply rows_kept. }
  destruct (Reservation.status r) eqn:Hst; try apply rows_kept.
  destruct (Z.gtb_spec (clock w) (Reservation.expires_at r)) as [|Hlive];
    [apply rows_kept|].
  eexists. split; [reflexivity|].
  intros x Hx. cbv beta.
  destruct (eq_id rid x && eq_status PENDING x) eqn:Ex; [|apply row_kept].
  apply andb_prop in Ex; destruct Ex as [Eid Epend].
  destruct (select_reservation_filter rid (db w) r Hread) as [Hf _].
  assert (Hin : In x (filter (eq_id rid) (reservations (db w))))
    by (apply filter_In; split; assumption).
  rewrite Hf in Hin. destruct Hin as [<-|[]].
  apply row_confirmed; assumption.
Qed.

Lemma cancelReservation_row_steps (w : World) (rid : string) :
  isolated w ->
  exists g,
    snd (cancelReservation rid w)
    = mkWorld (mkStore (items (db w)) (map g (reservations (db w))))
        (clock w) (uuids w) (issued w) (sched w) (zone w)
    /\ forall x, In x (reservations (db w)) -> row_step (clock w) x (g x).
Proof.
  intros Hw. rewrite (cancelReservation_isolated_run w rid Hw).
  destruct (select_reservation rid (db w)) as [r|e] eqn:Hread.
  2:{ destruct (pg_code e =? "PGRST116")%string; apply rows_kept. }
  destruct (Reservation.status r) eqn:Hst; try apply rows_kept.
  eexists. split; [reflexivity|].
  intros x Hx. cbv beta.
  destruct (eq_id rid x && eq_status PENDING x) eqn:Ex; [|apply row_kept].
  apply andb_prop in Ex; destruct Ex as [_ Epend].
  apply row_cancelled. apply status_eqb_eq; exact Epend.
Qed.

Lemma stale_id_is_stale (now : Z) (rows : list Reservation.t)
    (x : Reservation.t) :
  NoDup (map Reservation.id rows) ->
  In x rows ->
  in_id (map Reservation.id (filter (is_stale_pending now) rows)) x = true ->
  is_stale_pending now x = true.
Proof.
  intros Hnd Hx Hin. apply in_id_In in Hin. apply in_map_iff in Hin.
  destruct Hin as [y [Eid Hy]]. apply filter_In in Hy.
  destruct Hy as [Hy Hstale].
  rewrite <- (NoDup_map_eq Reservation.id rows y x Hnd Hy Hx Eid).
  exact Hstale.
Qed.

Lemma expireReservations_row_steps (w : World) :
  isolated w ->
  NoDup (map Reservation.id (reservations (db w))) ->
  exists g,
    snd (expireReservations w)
    = mkWorld (mkStore (items (db w)) (map g (reservations (db w))))
        (clock w) (uuids w) (issued w) (sched w) (zone w)
    /\ forall x, In x (reservations (db w)) -> row_step (clock w) x (g x).
Proof.
  intros Hw Hnd. rewrite (expireReservations_isolated_run w Hw).
  destruct (map Reservation.id
              (filter (is_stale_pending (clock w)) (reservations (db w))))
    as [|i rest] eqn:Hs; [apply rows_kept|].
  eexists. split; [reflexivity|].
  intros x Hx. cbv beta.
  destruct (in_id (i :: rest) x && eq_status PENDING x) eqn:Ex;
    [|apply row_kept].
  apply andb_prop in Ex; destruct Ex as [Hin Epend].
  rewrite <- Hs in Hin.
  pose proof (stale_id_is_stale (clock w) _ x Hnd Hx Hin) as Hstale.
  unfold is_stale_pending in Hstale.
  apply andb_prop in Hstale; destruct Hstale as [_ Hlt].
  apply row_expired; [apply status_eqb_eq; exact Epend|].
  apply Z.ltb_lt; exact Hlt.
Qed.

(** Served in isolation, the creation of an item fails and writes nothing
    or appends the item. *)
Lemma createItem_isolated_run (w : World) (input : CreateItemInput.t) :
  isolated w ->
  (createItem input w
   = (Thrown (mkAppError 500 "Failed to create item" DATABASE_ERROR),
      mkWorld (db w) (clock w) (uuids w) (S (issued w)) (sched w) (zone w)))
  \/ (createItem input w
      = (Returned (Item.mk (uuids w (issued w)) (CreateItemInput.name input)
                     (CreateItemInput.initial_quantity input)
                     (clock w) (clock w)),
         mkWorld
           (mkStore
              (items (db w)
               ++ [Item.mk (uuids w (issued w)) (CreateItemInput.name input)
                     (CreateItemInput.initial_quantity input)
                     (clock w) (clock w)])
              (reservations (db w)))
           (clock w) (uuids w) (S (issued w)) (sched w) (zone w))
      /\ has_item (db w) (uuids w (issued w)) = false
      /\ not_blank (CreateItemInput.name input) = true
      /\ 0 <= CreateItemInput.initial_quantity input).
Proof.
  intros Hw. unfold createItem, bind. rewrite (insert_isolated _ w Hw).
  destruct (insert_item_run (uuids w (issued w)) (clock w)
              (CreateItemInput.name input)
              (CreateItemInput.initial_quantity input) (db w))
    as [[e He]|[He Hrest]]; rewrite He; cbn [fst snd].
  - left. reflexivity.
  - right. split; [reflexivity | exact Hrest].
Qed.

(** Every request served in isolation rewrites the stored rows by steps of
    their life cycle and appends at most one item or one reservation. *)
Lemma handle_effect (w : World) (q : Request) :
  isolated w ->
  NoDup (map Reservation.id (reservations (db w))) ->
  effect_of q w (handle q w).
Proof.
  intros Hw Hnd.
  assert (Hsame : forall n,
             effect_of q w (mkWorld (db w) (clock w) (uuids w) n (sched w) (zone w))).
  { intros n. exists (fun x => x), [], [], n.
    rewrite map_id, !app_nil_r, store_eta.
    split; [reflexivity|]. split; [intros x _; apply row_kept|].
    split; left; reflexivity. }
  assert (Hsame' : effect_of q w w).
  { pose proof (Hsame (issued w)) as H. rewrite world_eta in H. exact H. }
  assert (Hrows : forall w',
             (exists g,
                w' = mkWorld (mkStore (items (db w))
                                (map g (reservations (db w))))
                       (clock w) (uuids w) (issued w) (sched w) (zone w)
                /\ forall x, In x (reservations (db w)) ->
                     row_step (clock w) x (g x)) ->
             effect_of q w w').
  { intros w' [g [-> Hg]]. exists g, [], [], (issued w).
    rewrite !app_nil_r. split; [reflexivity|]. split; [exact Hg|].
    split; left; reflexivity. }
  destruct q as [input|input|rid|rid|]; cbn [handle].
  - destruct (createItem_isolated_run w input Hw) as [E|[E [Hfresh _]]];
      rewrite E; cbn [snd].
    + apply Hsame.
    + exists (fun x => x),
        [Item.mk (uuids w (issued w)) (CreateItemInput.name input)
           (CreateItemInput.initial_quantity input) (clock w) (clock w)],
        [], (S (issued w)).
      rewrite map_id, app_nil_r.
      split; [reflexivity|]. split; [intros x _; apply row_kept|].
      split; [right; exists input; repeat split; exact Hfresh
             | left; reflexivity].
  - rewrite (createReservation_isolated_run w input Hw).
    destruct (select_item (CreateReservationInput.item_id input) (db w))
      as [item|e] eqn:Hitem.
    2:{ destruct (pg_code e =? "PGRST116")%string; exact Hsame'. }
    cbv zeta.
    destruct (Z.ltb_spec
                (Item.total_quantity item
                 - committed_quantity (CreateReservationInput.item_id input)
                     (clock w) (db w))
                (CreateReservationInput.quantity input)) as [|Hge];
      [exact Hsame'|].
    destruct (row_accepted (db w) (uuids w (issued w))
                (CreateReservationInput.customer_id input)
                (CreateReservationInput.quantity input)) eqn:Hrow;
      cbn [snd]; [|apply Hsame].
    exists (fun x => x), [],
      [Reservation.mk (uuids w (issued w))
         (CreateReservationInput.item_id input)
         (CreateReservationInput.customer_id input)
         (CreateReservationInput.quantity input) PENDING (clock w)
         (setMinutes_plus (zone w) (clock w) RESERVATION_EXPIRY_MINUTES) None None],
      (S (issued w)).
    rewrite map_id, app_nil_r.
    split; [reflexivity|]. split; [intros x _; apply row_kept|].
    split; [left; reflexivity|].
    right. exists input, item. repeat split; assumption.
  - apply Hrows. apply (confirmReservation_row_steps w rid Hw).
  - apply Hrows. apply (cancelReservation_row_steps w rid Hw).
  - apply Hrows. apply (expireReservations_row_steps w Hw Hnd).
Qed.

(** ** Well-formed worlds *)

Lemma row_step_fields (now : Z) (x y : Reservation.t) :
  row_step now x y ->
  Reservation.id y = Reservation.id x
  /\ Reservation.item_id y = Reservation.item_id x
  /\ Reservation.customer_id y = Reservation.customer_id x
  /\ Reservation.quantity y = Reservation.quantity x
  /\ Reservation.created_at y = Reservation.created_at x
  /\ Reservation.expires_at y = Reservation.expires_at x.
Proof. intros H; destruct H; repeat split. Qed.

Lemma row_step_status (now : Z) (x y : Reservation.t) :
  row_step now x y ->
  y = x \/ Reservation.status x = PENDING.
Proof. intros H; destruct H; auto. Qed.

Lemma row_step_ok (now : Z) (x y : Reservation.t) :
  row_ok x -> row_step now x y -> row_ok y.
Proof.
  intros [Hq Hts] Hstep.
  destruct Hstep as [r|r Hst Hlive|r Hst|r Hst Hstale];
    [split; assumption| | |];
    unfold timestamps_ok in Hts; rewrite Hst in Hts; destruct Hts as [Hc Hx];
    (split; [exact Hq|]);
    unfold timestamps_ok; simpl.
  - split; [exact Hx|]. exists now. reflexivity.
  - split; [exact Hc|]. exists now. reflexivity.
  - split; assumption.
Qed.

Lemma has_item_In (s : Store) (item : string) :
  has_item s item = true <-> In item (map Item.id (items s)).
Proof.
  unfold has_item. rewrite existsb_exists, in_map_iff. split.
  - intros [i [Hi E]]. exists i. apply String.eqb_eq in E. auto.
  - intros [i [E Hi]]. exists i. split; [exact Hi|].
    apply String.eqb_eq; exact E.
Qed.

Lemma has_reservation_In (s : Store) (rid : string) :
  has_reservation s rid = true <-> In rid (map Reservation.id (reservations s)).
Proof.
  unfold has_reservation. rewrite existsb_exists, in_map_iff. split.
  - intros [r [Hr E]]. exists r. apply String.eqb_eq in E. auto.
  - intros [r [E Hr]]. exists r. split; [exact Hr|].
    apply String.eqb_eq; exact E.
Qed.

Lemma not_true_false_iff (b : bool) : b = false <-> ~ b = true.
Proof. destruct b; split; intros; congruence. Qed.

Lemma has_item_grows (s : Store) (new_items : list Item.t)
    (rows' : list Reservation.t) (item : string) :
  has_item s item = true ->
  has_item (mkStore (items s ++ new_items) rows') item = true.
Proof.
  rewrite !has_item_In. cbn [items]. rewrite map_app, in_app_iff. auto.
Qed.

Lemma map_id_row_steps (now : Z) (g : Reservation.t -> Reservation.t)
    (rows : list Reservation.t) :
  (forall x, In x rows -> row_step now x (g x)) ->
  map Reservation.id (map g rows) = map Reservation.id rows.
Proof.
  intros Hg. rewrite map_map. apply map_ext_in.
  intros x Hx. apply (row_step_fields now x (g x) (Hg x Hx)).
Qed.

Lemma row_accepted_facts (s : Store) (uuid customer : string) (qty : Z) :
  row_accepted s uuid customer qty = true ->
  has_reservation s uuid = false /\ 0 < qty.
Proof.
  unfold row_accepted. intros H.
  repeat (apply andb_prop in H; destruct H as [H ?]).
  split.
  - destruct (has_reservation s uuid); [discriminate | reflexivity].
  - apply Z.gtb_lt; assumption.
Qed.

Lemma effect_keeps_world_ok (q : Request) (w w' : World) :
  world_ok w -> valid_request q = true -> effect_of q w w' -> world_ok w'.
Proof.
  intros [Hw [[Hni [Hnr Hfk]] [Hrows Hitems]]] Hvalid
         [g [new_items [added [n [-> [Hg [Hnew Hadd]]]]]]].
  assert (Hids : map Reservation.id (map g (reservations (db w)))
                 = map Reservation.id (reservations (db w)))
    by (apply (map_id_row_steps (clock w)); exact Hg).
  split; [exact Hw|]. cbn [db clock items reservations].
  split; [split; [|split]|split].
  - (* item keys *)
    cbn [items]. rewrite map_app.
    destruct Hnew as [->|[input [_ [-> Hfresh]]]].
    + rewrite app_nil_r; exact Hni.
    + apply NoDup_app; [exact Hni | constructor; [intros [] | constructor]|].
      intros x Hx [<-|[]]. cbn [Item.id] in Hx.
      apply has_item_In in Hx. congruence.
  - (* reservation keys *)
    cbn [reservations]. rewrite map_app, Hids.
    destruct Hadd as [->|[input [item [_ [-> [_ [_ Hacc]]]]]]].
    + rewrite app_nil_r; exact Hnr.
    + apply NoDup_app; [exact Hnr | constructor; [intros [] | constructor]|].
      intros x Hx [<-|[]]. cbn [Reservation.id] in Hx.
      apply has_reservation_In in Hx.
      destruct (row_accepted_facts _ _ _ _ Hacc) as [Hf _]. congruence.
  - (* references *)
    intros r Hr. cbn [reservations] in Hr. apply in_app_or in Hr.
    destruct Hr as [Hr|Hr].
    + apply in_map_iff in Hr. destruct Hr as [x [<- Hx]].
      destruct (row_step_fields _ _ _ (Hg x Hx)) as [_ [-> _]].
      apply has_item_grows. apply Hfk. exact Hx.
    + destruct Hadd as [->|[input [item [_ [-> [Hitem _]]]]]];
        [destruct Hr|].
      destruct Hr as [<-|[]]. cbn [Reservation.item_id].
      apply select_item_has_item in Hitem.
      apply has_item_grows. exact Hitem.
  - (* rows *)
    intros r Hr. apply in_app_or in Hr. destruct Hr as [Hr|Hr].
    + apply in_map_iff in Hr. destruct Hr as [x [<- Hx]].
      apply (row_step_ok (clock w) x); [apply Hrows; exact Hx|].
      apply Hg; exact Hx.
    + destruct Hadd as [->|[input [item [_ [-> [_ [_ Hacc]]]]]]];
        [destruct Hr|].
      destruct Hr as [<-|[]].
      destruct (row_accepted_facts _ _ _ _ Hacc) as [_ Hpos].
      split; [exact Hpos|].
      unfold timestamps_ok; simpl. split; reflexivity.
  - (* items *)
    intros i Hi. apply in_app_or in Hi. destruct Hi as [Hi|Hi].
    + apply Hitems; exact Hi.
    + destruct Hnew as [->|[input [-> [-> _]]]]; [destruct Hi|].
      destruct Hi as [<-|[]]. cbn [Item.total_quantity].
      cbn [valid_request] in Hvalid. unfold createItemSchema in Hvalid.
      apply andb_prop in Hvalid; destruct Hvalid as [_ H1].
      apply Z.leb_le in H1. exact H1.
Qed.

Lemma world_ok_handle (w : World) (q : Request) :
  world_ok w -> valid_request q = true -> world_ok (handle q w).
Proof.
  intros Hok Hvalid.
  apply (effect_keeps_world_ok q w _ Hok Hvalid).
  destruct Hok as [Hw [[_ [Hnr _]] _]].
  apply handle_effect; assumption.
Qed.

Lemma world_ok_wait (w : World) (dt : Z) :
  world_ok w -> 0 <= dt -> world_ok (wait dt w).
Proof.
  intros [Hw [Hk [Hrows Hitems]]] Hdt.
  split; [exact Hw|]. split; [exact Hk|]. split; [exact Hrows|exact Hitems].
Qed.

Lemma reachable_world_ok (w : World) : reachable w -> world_ok w.
Proof.
  induction 1 as [gen0 t0|w dt _ IH Hdt|w q _ IH Hvalid].
  - split; [reflexivity|]. split; [|split; intros ? []].
    split; [constructor|]. split; [constructor | intros ? []].
  - apply world_ok_wait; assumption.
  - apply world_ok_handle; assumption.
Qed.

Lemma evolves_world_ok (w w' : World) :
  world_ok w -> evolves w w' -> world_ok w'.
Proof.
  intros Hok; induction 1 as [|w' dt _ IH Hdt|w' q _ IH Hvalid].
  - exact Hok.
  - apply world_ok_wait; assumption.
  - apply world_ok_handle; assumption.
Qed.

Lemma busy_world_reachable : reachable busy_world.
Proof.
  unfold busy_world.
  apply reach_request; [|reflexivity].
  apply reach_request; [|reflexivity].
  apply reach_wait; [|lia].
  apply reach_request; [|reflexivity].
  apply reach_request; [|reflexivity].
  apply reach_wait; [|lia].
  apply reach_request; [|reflexivity].
  apply reach_request; [|reflexivity].
  apply reach_request; [|reflexivity].
  apply reach_request; [|reflexivity].
  apply reach_start.
Qed.

Lemma busy_world_rows :
  map Reservation.status (reservations (db busy_world))
  = [CONFIRMED; CANCELLED; EXPIRED; PENDING]
  /\ clock busy_world = 70000.
Proof. vm_compute. split; reflexivity. Qed.

(** ** The life cycle of a reservation *)

(** A request served in isolation deletes no reservation and adds at most
    one, which is PENDING; every stored reservation keeps its identifier,
    item, customer, quantity, creation and expiry times; one that is not
    PENDING is left exactly as it is; a PENDING one stays or becomes
    CONFIRMED (only up to its expiry, stamped with the current time),
    CANCELLED (stamped likewise) or EXPIRED (only past its expiry). *)
Theorem requests_follow_the_life_cycle (w : World) (q : Request) :
  isolated w ->
  NoDup (map Reservation.id (reservations (db w))) ->
  exists g added,
    reservations (db (handle q w)) = map g (reservations (db w)) ++ added
    /\ (added = []
        \/ exists row, added = [row]
                       /\ Reservation.status row = PENDING
                       /\ Reservation.created_at row = clock w)
    /\ forall x, In x (reservations (db w)) ->
         row_step (clock w) x (g x)
         /\ Reservation.id (g x) = Reservation.id x
         /\ Reservation.item_id (g x) = Reservation.item_id x
         /\ Reservation.customer_id (g x) = Reservation.customer_id x
         /\ Reservation.quantity (g x) = Reservation.quantity x
         /\ Reservation.created_at (g x) = Reservation.created_at x
         /\ Reservation.expires_at (g x) = Reservation.expires_at x
         /\ (Reservation.status x <> PENDING -> g x = x).
Proof.
  intros Hw Hnd.
  destruct (handle_effect w q Hw Hnd)
    as [g [new_items [added [n [E [Hg [_ Hadd]]]]]]].
  exists g, added. rewrite E. cbn [db reservations].
  split; [reflexivity|]. split.
  - destruct Hadd as [->|[input [item [_ [-> _]]]]]; [left; reflexivity|].
    right. eexists. split; [reflexivity|]. split; reflexivity.
  - intros x Hx. pose proof (Hg x Hx) as Hstep.
    split; [exact Hstep|].
    destruct (row_step_fields _ _ _ Hstep) as [H1 [H2 [H3 [H4 [H5 H6]]]]].
    repeat (split; [assumption|]).
    intros Hne. destruct (row_step_status _ _ _ Hstep); [assumption|].
    contradiction.
Qed.

Lemma requests_follow_the_life_cycle_witness :
  exists g added,
    reservations (db (handle (ConfirmReservation "uuid-4") busy_world))
    = map g (reservations (db busy_world)) ++ added
    /\ forall x, In x (reservations (db busy_world)) ->
         Reservation.status x <> PENDING -> g x = x.
Proof.
  assert (Hiso : isolated busy_world) by (vm_compute; reflexivity).
  assert (Hnd : NoDup (map Reservation.id (reservations (db busy_world)))).
  { vm_compute. repeat constructor; simpl; intuition discriminate. }
  destruct (requests_follow_the_life_cycle busy_world
              (ConfirmReservation "uuid-4") Hiso Hnd)
    as [g [added [E [_ Hg]]]].
  exists g, added. split; [exact E|].
  intros x Hx. apply (Hg x Hx).
Defined.

(** In every world reached by validated requests served one after the
    other, identifiers are unique in both tables and every reservation
    refers to an existing item. *)
Theorem reachable_keys_are_sound (w : World) :
  reachable w ->
  NoDup (map Item.id (items (db w)))
  /\ NoDup (map Reservation.id (reservations (db w)))
  /\ (forall r, In r (reservations (db w)) ->
        exists i, In i (items (db w))
                  /\ Item.id i = Reservation.item_id r).
Proof.
  intros Hr. destruct (reachable_world_ok w Hr) as [_ [[Hni [Hnr Hfk]] _]].
  split; [exact Hni|]. split; [exact Hnr|].
  intros r Hin. specialize (Hfk r Hin).
  apply has_item_In in Hfk. apply in_map_iff in Hfk.
  destruct Hfk as [i [E Hi]]. exists i. split; assumption.
Qed.

Lemma reachable_keys_are_sound_witness :
  NoDup (map Reservation.id (reservations (db busy_world))).
Proof.
  exact (proj1 (proj2 (reachable_keys_are_sound busy_world
                         busy_world_reachable))).
Defined.

(** In every such world each reservation has a positive quantity and
    carries the timestamps of its status: none while PENDING or EXPIRED;
    when CONFIRMED a confirmed_at and no cancelled_at; when CANCELLED a
    cancelled_at and no confirmed_at.  Every item holds at least one
    unit. *)
Theorem reachable_rows_are_sound (w : World) :
  reachable w ->
  (forall r, In r (reservations (db w)) ->
     0 < Reservation.quantity r
     /\ match Reservation.status r with
        | PENDING | EXPIRED =>
            Reservation.confirmed_at r = None
            /\ Reservation.cancelled_at r = None
        | CONFIRMED =>
            Reservation.cancelled_at r = None
            /\ exists t, Reservation.confirmed_at r = Some t
        | CANCELLED =>
            Reservation.confirmed_at r = None
            /\ exists t, Reservation.cancelled_at r = Some t
        end)
  /\ (forall i, In i (items (db w)) -> 1 <= Item.total_quantity i).
Proof.
  intros Hr. destruct (reachable_world_ok w Hr) as [_ [_ [Hrows Hitems]]].
  split; [|exact Hitems].
  intros r Hin. exact (Hrows r Hin).
Qed.

Lemma reachable_rows_are_sound_witness :
  Forall
    (fun r =>
       0 < Reservation.quantity r
       /\ (Reservation.status r = CONFIRMED ->
           Reservation.cancelled_at r = None
           /\ exists t, Reservation.confirmed_at r = Some t))
    (reservations (db busy_world)).
Proof.
  apply Forall_forall. intros r Hin.
  destruct (proj1 (reachable_rows_are_sound busy_world busy_world_reachable)
              r Hin) as [Hq Hts].
  split; [exact Hq|]. intros Hst. rewrite Hst in Hts. exact Hts.
Defined.

(** ** What the guarded writes do to the accounting *)

Lemma sum_quantity_update (p sel : Reservation.t -> bool)
    (patch : Reservation.t -> Reservation.t) (rows : list Reservation.t) :
  sum_quantity p (map (fun x => if sel x then patch x else x) rows)
  = sum_quantity p rows
    + fold_right
        (fun x acc =>
           (if p (patch x) then Reservation.quantity (patch x) else 0)
           - (if p x then Reservation.quantity x else 0) + acc)
        0 (filter sel rows).
Proof.
  induction rows as [|x rows IH]; simpl; [reflexivity|].
  rewrite IH. destruct (sel x); simpl; lia.
Qed.

Lemma sum_quantity_update_one (p sel : Reservation.t -> bool)
    (patch : Reservation.t -> Reservation.t) (rows : list Reservation.t)
    (r : Reservation.t) :
  filter sel rows = [r] ->
  sum_quantity p (map (fun x => if sel x then patch x else x) rows)
  = sum_quantity p rows
    + (if p (patch r) then Reservation.quantity (patch r) else 0)
    - (if p r then Reservation.quantity r else 0).
Proof.
  intros H. rewrite sum_quantity_update, H. simpl. lia.
Qed.

Lemma sum_quantity_app (p : Reservation.t -> bool)
    (rows more : list Reservation.t) :
  sum_quantity p (rows ++ more) = sum_quantity p rows + sum_quantity p more.
Proof.
  induction rows as [|x rows IH]; simpl; [reflexivity|]. rewrite IH; lia.
Qed.

Lemma eq_item_id_own (r : Reservation.t) :
  eq_item_id (Reservation.item_id r) r = true.
Proof. unfold eq_item_id. apply String.eqb_refl. Qed.

Lemma eq_item_id_other (item : string) (r : Reservation.t) :
  item <> Reservation.item_id r -> eq_item_id item r = false.
Proof.
  intros Hne. unfold eq_item_id.
  destruct (String.eqb_spec (Reservation.item_id r) item); congruence.
Qed.

(** The three sums of an item after one PENDING row of identifier [rid]
    has been patched by [patch], which keeps item and quantity. *)
Lemma sums_after_guarded_update (rid : string) (now : Z)
    (patch : Reservation.t -> Reservation.t) (rows : list Reservation.t)
    (r : Reservation.t) (item : string) :
  filter (eq_id rid) rows = [r] ->
  Reservation.status r = PENDING ->
  Reservation.item_id (patch r) = Reservation.item_id r ->
  Reservation.quantity (patch r) = Reservation.quantity r ->
  Reservation.expires_at (patch r) = Reservation.expires_at r ->
  let rows' := map (fun x => if eq_id rid x && eq_status PENDING x
                             then patch x else x) rows in
  let mine := eq_item_id item r in
  let q := Reservation.quantity r in
  sum_quantity (is_pending_of item) rows'
  = sum_quantity (is_pending_of item) rows
    + (if mine && eq_status PENDING (patch r) then q else 0)
    - (if mine then q else 0)
  /\ sum_quantity (is_live_pending_of item now) rows'
     = sum_quantity (is_live_pending_of item now) rows
       + (if mine && eq_status PENDING (patch r)
             && (now <? Reservation.expires_at r) then q else 0)
       - (if mine && (now <? Reservation.expires_at r) then q else 0)
  /\ sum_quantity (is_confirmed_of item) rows'
     = sum_quantity (is_confirmed_of item) rows
       + (if mine && eq_status CONFIRMED (patch r) then q else 0).
Proof.
  intros Hf Hst Hitem Hqty Hexp rows' mine q.
  pose proof (guarded_filter_hit rid rows r Hf Hst) as Hsel.
  unfold rows'.
  rewrite !(sum_quantity_update_one _ _ patch rows r Hsel).
  unfold is_pending_of, is_live_pending_of, is_confirmed_of, eq_item_id,
    eq_status.
  rewrite Hitem, Hqty, Hexp, Hst. fold (eq_item_id item r). fold mine.
  fold q. cbn [status_eqb]. rewrite !Bool.andb_true_r, !Bool.andb_false_r.
  repeat split; try lia.
Qed.

Lemma select_item_after_rows (itemId : string) (s : Store)
    (rows' : list Reservation.t) :
  select_item itemId (mkStore (items s) rows') = select_item itemId s.
Proof. reflexivity. Qed.

(** Cancelling a PENDING reservation, served in isolation, gives its
    quantity back: the admission check of its item rises by the quantity
    when the hold was still live and is unchanged when it had lapsed; the
    status report's reserved quantity falls and its available quantity
    rises by the quantity in either case; other items are unaffected. *)
Theorem cancel_releases_the_hold
    (w : World) (rid : string) (r : Reservation.t) (item : Item.t) :
  isolated w ->
  select_reservation rid (db w) = Data r ->
  Reservation.status r = PENDING ->
  select_item (Reservation.item_id r) (db w) = Data item ->
  exists before st w' st',
    getAvailableQuantity (Reservation.item_id r) w = (Returned before, w)
    /\ getItemStatus (Reservation.item_id r) w = (Returned st, w)
    /\ cancelReservation rid w
       = (Returned (as_response (set_cancelled (clock w) r)), w')
    /\ getAvailableQuantity (Reservation.item_id r) w'
       = (Returned (before
                    + (if clock w <? Reservation.expires_at r
                       then Reservation.quantity r else 0)), w')
    /\ getItemStatus (Reservation.item_id r) w' = (Returned st', w')
    /\ ItemStatus.reserved_quantity st'
       = ItemStatus.reserved_quantity st - Reservation.quantity r
    /\ ItemStatus.confirmed_quantity st' = ItemStatus.confirmed_quantity st
    /\ ItemStatus.available_quantity st'
       = ItemStatus.available_quantity st + Reservation.quantity r
    /\ forall other i,
         other <> Reservation.item_id r ->
         select_item other (db w) = Data i ->
         fst (getAvailableQuantity other w')
         = fst (getAvailableQuantity other w).
Proof.
  intros Hw Hread Hst Hitem.
  destruct (select_reservation_filter rid (db w) r Hread) as [Hf _].
  pose proof (cancelReservation_isolated_run w rid Hw) as Hrun.
  rewrite Hread, Hst in Hrun.
  set (w' := mkWorld
               (mkStore (items (db w))
                  (map (fun x => if eq_id rid x && eq_status PENDING x
                                 then set_cancelled (clock w) x else x)
                     (reservations (db w))))
               (clock w) (uuids w) (issued w) (sched w) (zone w)) in *.
  assert (Hw' : isolated w') by exact Hw.
  eexists _, _, w', _.
  split; [apply (getAvailableQuantity_isolated w _ item Hw Hitem)|].
  split; [apply (getItemStatus_isolated w _ item Hw Hitem)|].
  split; [exact Hrun|].
  assert (Hsums : forall it,
             let rows' := reservations (db w') in
             sum_quantity (is_pending_of it) rows'
             = sum_quantity (is_pending_of it) (reservations (db w))
               - (if eq_item_id it r then Reservation.quantity r else 0)
             /\ sum_quantity (is_live_pending_of it (clock w)) rows'
                = sum_quantity (is_live_pending_of it (clock w))
                    (reservations (db w))
                  - (if eq_item_id it r
                        && (clock w <? Reservation.expires_at r)
                     then Reservation.quantity r else 0)
             /\ sum_quantity (is_confirmed_of it) rows'
                = sum_quantity (is_confirmed_of it) (reservations (db w))).
  { intros it.
    destruct (sums_after_guarded_update rid (clock w)
                (set_cancelled (clock w)) (reservations (db w)) r it
                Hf Hst eq_refl eq_refl eq_refl) as [H1 [H2 H3]].
    change (eq_status PENDING (set_cancelled (clock w) r)) with false
      in H1, H2.
    change (eq_status CONFIRMED (set_cancelled (clock w) r)) with false
      in H3.
    cbv zeta. unfold w'; cbn [db reservations].
    destruct (eq_item_id it r), (clock w <? Reservation.expires_at r);
      cbn [andb] in *; repeat split; lia. }
  destruct (Hsums (Reservation.item_id r)) as [Hp [Hl Hc]].
  rewrite eq_item_id_own in Hp, Hl. cbn [andb] in Hl.
  split.
  { rewrite (getAvailableQuantity_isolated w' _ item Hw' Hitem).
    change (clock w') with (clock w).
    f_equal. f_equal. rewrite Hl, Hc.
    destruct (clock w <? Reservation.expires_at r); lia. }
  split; [apply (getItemStatus_isolated w' _ item Hw' Hitem)|].
  cbn [ItemStatus.reserved_quantity ItemStatus.confirmed_quantity
       ItemStatus.available_quantity].
  split; [exact Hp|]. split; [exact Hc|]. split; [rewrite Hp, Hc; lia|].
  intros other i Hne Hi.
  rewrite (getAvailableQuantity_isolated w' other i Hw' Hi).
  rewrite (getAvailableQuantity_isolated w other i Hw Hi).
  cbn [fst]. f_equal.
  destruct (Hsums other) as [_ [Hl' Hc']].
  rewrite (eq_item_id_other other r Hne) in Hl'. cbn [andb] in Hl'.
  change (clock w') with (clock w). rewrite Hl', Hc'. lia.
Qed.

Lemma cancel_releases_the_hold_witness :
  exists before w',
    getAvailableQuantity "uuid-0" stale_world = (Returned before, stale_world)
    /\ cancelReservation "uuid-1" stale_world
       = (Returned (as_response
                      (set_cancelled 60001
                         (hold "uuid-1" "alice" 2 PENDING 0))), w')
    /\ fst (getAvailableQuantity "uuid-0" w') = Returned (before + 0).
Proof.
  destruct (cancel_releases_the_hold stale_world "uuid-1"
              (hold "uuid-1" "alice" 2 PENDING 0) (widget 2)
              eq_refl eq_refl eq_refl eq_refl)
    as [before [st [w' [st' [Hb [_ [Hc [Ha _]]]]]]]].
  exists before, w'. split; [exact Hb|]. split; [exact Hc|].
  exact (f_equal fst Ha).
Defined.

(** Confirming a PENDING reservation, served in isolation up to its expiry,
    moves its quantity from the reserved to the confirmed side of the
    status report and leaves the report's available quantity as it was.
    The admission check is unchanged when the hold is still live, and
    falls by the quantity at the very instant of expiry, when the hold was
    no longer counted. *)
Theorem confirm_moves_the_hold
    (w : World) (rid : string) (r : Reservation.t) (item : Item.t) :
  isolated w ->
  select_reservation rid (db w) = Data r ->
  Reservation.status r = PENDING ->
  clock w <= Reservation.expires_at r ->
  select_item (Reservation.item_id r) (db w) = Data item ->
  exists before st w' st',
    getAvailableQuantity (Reservation.item_id r) w = (Returned before, w)
    /\ getItemStatus (Reservation.item_id r) w = (Returned st, w)
    /\ confirmReservation rid w
       = (Returned (as_response (set_confirmed (clock w) r)), w')
    /\ getAvailableQuantity (Reservation.item_id r) w'
       = (Returned (before
                    - (if clock w <? Reservation.expires_at r
                       then 0 else Reservation.quantity r)), w')
    /\ getItemStatus (Reservation.item_id r) w' = (Returned st', w')
    /\ ItemStatus.reserved_quantity st'
       = ItemStatus.reserved_quantity st - Reservation.quantity r
    /\ ItemStatus.confirmed_quantity st'
       = ItemStatus.confirmed_quantity st + Reservation.quantity r
    /\ ItemStatus.available_quantity st' = ItemStatus.available_quantity st
    /\ forall other i,
         other <> Reservation.item_id r ->
         select_item other (db w) = Data i ->
         fst (getAvailableQuantity other w')
         = fst (getAvailableQuantity other w).
Proof.
  intros Hw Hread Hst Hlive Hitem.
  destruct (select_reservation_filter rid (db w) r Hread) as [Hf _].
  pose proof (confirmReservation_isolated_run w rid Hw) as Hrun.
  rewrite Hread, Hst in Hrun.
  destruct (Z.gtb_spec (clock w) (Reservation.expires_at r)) as [|_];
    [lia|].
  set (w' := mkWorld
               (mkStore (items (db w))
                  (map (fun x => if eq_id rid x && eq_status PENDING x
                                 then set_confirmed (clock w) x else x)
                     (reservations (db w))))
               (clock w) (uuids w) (issued w) (sched w) (zone w)) in *.
  assert (Hw' : isolated w') by exact Hw.
  eexists _, _, w', _.
  split; [apply (getAvailableQuantity_isolated w _ item Hw Hitem)|].
  split; [apply (getItemStatus_isolated w _ item Hw Hitem)|].
  split; [exact Hrun|].
  assert (Hsums : forall it,
             let rows' := reservations (db w') in
             sum_quantity (is_pending_of it) rows'
             = sum_quantity (is_pending_of it) (reservations (db w))
               - (if eq_item_id it r then Reservation.quantity r else 0)
             /\ sum_quantity (is_live_pending_of it (clock w)) rows'
                = sum_quantity (is_live_pending_of it (clock w))
                    (reservations (db w))
                  - (if eq_item_id it r
                        && (clock w <? Reservation.expires_at r)
                     then Reservation.quantity r else 0)
             /\ sum_quantity (is_confirmed_of it) rows'
                = sum_quantity (is_confirmed_of it) (reservations (db w))
                  + (if eq_item_id it r then Reservation.quantity r else 0)).
  { intros it.
    destruct (sums_after_guarded_update rid (clock w)
                (set_confirmed (clock w)) (reservations (db w)) r it
                Hf Hst eq_refl eq_refl eq_refl) as [H1 [H2 H3]].
    change (eq_status PENDING (set_confirmed (clock w) r)) with false
      in H1, H2.
    change (eq_status CONFIRMED (set_confirmed (clock w) r)) with true
      in H3.
    cbv zeta. unfold w'; cbn [db reservations].
    destruct (eq_item_id it r), (clock w <? Reservation.expires_at r);
      cbn [andb] in *; repeat split; lia. }
  destruct (Hsums (Reservation.item_id r)) as [Hp [Hl Hc]].
  rewrite eq_item_id_own in Hp, Hl, Hc. cbn [andb] in Hl.
  split.
  { rewrite (getAvailableQuantity_isolated w' _ item Hw' Hitem).
    change (clock w') with (clock w).
    f_equal. f_equal. rewrite Hl, Hc.
    destruct (clock w <? Reservation.expires_at r); lia. }
  split; [apply (getItemStatus_isolated w' _ item Hw' Hitem)|].
  cbn [ItemStatus.reserved_quantity ItemStatus.confirmed_quantity
       ItemStatus.available_quantity].
  split; [exact Hp|]. split; [exact Hc|]. split; [rewrite Hp, Hc; lia|].
  intros other i Hne Hi.
  rewrite (getAvailableQuantity_isolated w' other i Hw' Hi).
  rewrite (getAvailableQuantity_isolated w other i Hw Hi).
  cbn [fst]. f_equal.
  destruct (Hsums other) as [_ [Hl' Hc']].
  rewrite (eq_item_id_other other r Hne) in Hl', Hc'. cbn [andb] in Hl'.
  change (clock w') with (clock w). rewrite Hl', Hc'. lia.
Qed.

Lemma confirm_moves_the_hold_witness :
  exists before w',
    getAvailableQuantity "uuid-0" (world_of store_with_fresh_hold 5 2 [])
    = (Returned before, world_of store_with_fresh_hold 5 2 [])
    /\ confirmReservation "uuid-1" (world_of store_with_fresh_hold 5 2 [])
       = (Returned (as_response (set_confirmed 5 fresh_hold)), w')
    /\ fst (getAvailableQuantity "uuid-0" w') = Returned (before - 0).
Proof.
  assert (Hlive : clock (world_of store_with_fresh_hold 5 2 [])
                  <= Reservation.expires_at fresh_hold) by (simpl; lia).
  destruct (confirm_moves_the_hold (world_of store_with_fresh_hold 5 2 [])
              "uuid-1" fresh_hold (widget 2)
              eq_refl eq_refl eq_refl Hlive eq_refl)
    as [before [st [w' [st' [Hb [_ [Hc [Ha _]]]]]]]].
  exists before, w'. split; [exact Hb|]. split; [exact Hc|].
  exact (f_equal fst Ha).
Defined.

(** ** Creating and reading back *)

(** The only way create returns, in isolation. *)
Lemma createReservation_returned (w w' : World)
    (input : CreateReservationInput.t) (resp : ReservationResponse.t) :
  isolated w ->
  createReservation input w = (Returned resp, w') ->
  exists item,
    let row :=
      Reservation.mk (uuids w (issued w))
        (CreateReservationInput.item_id input)
        (CreateReservationInput.customer_id input)
        (CreateReservationInput.quantity input) PENDING (clock w)
        (setMinutes_plus (zone w) (clock w) RESERVATION_EXPIRY_MINUTES)
        None None in
    select_item (CreateReservationInput.item_id input) (db w) = Data item
    /\ CreateReservationInput.quantity input
       <= Item.total_quantity item
          - committed_quantity (CreateReservationInput.item_id input)
              (clock w) (db w)
    /\ row_accepted (db w) (uuids w (issued w))
         (CreateReservationInput.customer_id input)
         (CreateReservationInput.quantity input) = true
    /\ resp = as_response row
    /\ w' = mkWorld (mkStore (items (db w)) (reservations (db w) ++ [row]))
              (clock w) (uuids w) (S (issued w)) (sched w) (zone w).
Proof.
  intros Hw H. rewrite (createReservation_isolated_run w input Hw) in H.
  destruct (select_item (CreateReservationInput.item_id input) (db w))
    as [item|e].
  2:{ destruct (pg_code e =? "PGRST116")%string; discriminate H. }
  cbv zeta in H.
  destruct (Z.ltb_spec
              (Item.total_quantity item
               - committed_quantity (CreateReservationInput.item_id input)
                   (clock w) (db w))
              (CreateReservationInput.quantity input)) as [|Hge];
    [discriminate H|].
  destruct (row_accepted (db w) (uuids w (issued w))
              (CreateReservationInput.customer_id input)
              (CreateReservationInput.quantity input)) eqn:Hrow;
    [|discriminate H].
  inversion H; subst. exists item. cbv zeta.
  repeat split; try reflexivity; assumption.
Qed.

Lemma filter_eq_id_fresh (s : Store) (uuid : string) :
  has_reservation s uuid = false ->
  filter (eq_id uuid) (reservations s) = [].
Proof.
  unfold has_reservation. intros H.
  induction (reservations s) as [|r rows IH]; simpl in *; [reflexivity|].
  apply Bool.orb_false_iff in H; destruct H as [H1 H2].
  unfold eq_id at 1. rewrite H1. auto.
Qed.

(** A reservation returned by create, served in isolation, is the one a
    read of its identifier returns next, field for field.  On a server
    whose zone has a fixed offset, confirm on it then succeeds and cancel
    after that is refused. *)
Theorem created_reservation_reads_back
    (w w' : World) (input : CreateReservationInput.t)
    (resp : ReservationResponse.t) :
  isolated w ->
  createReservation input w = (Returned resp, w') ->
  exists row,
    getReservation (ReservationResponse.id resp) w' = (Returned row, w')
    /\ as_response row = resp
    /\ Reservation.item_id row = CreateReservationInput.item_id input
    /\ Reservation.customer_id row = CreateReservationInput.customer_id input
    /\ Reservation.quantity row = CreateReservationInput.quantity input
    /\ Reservation.status row = PENDING
    /\ (fixed_offset (zone w) ->
        exists w'',
          confirmReservation (ReservationResponse.id resp) w'
          = (Returned (as_response (set_confirmed (clock w) row)), w'')
          /\ cancelReservation (ReservationResponse.id resp) w''
             = (Thrown (mkAppError 409
                          "Cannot cancel a confirmed reservation"
                          RESERVATION_CONFIRMED), w'')).
Proof.
  intros Hw H.
  destruct (createReservation_returned w w' input resp Hw H)
    as [item [_ [_ [Hacc [-> ->]]]]].
  cbv zeta.
  set (row := Reservation.mk (uuids w (issued w))
                (CreateReservationInput.item_id input)
                (CreateReservationInput.customer_id input)
                (CreateReservationInput.quantity input) PENDING (clock w)
                (setMinutes_plus (zone w) (clock w)
                   RESERVATION_EXPIRY_MINUTES) None None).
  set (w' := mkWorld (mkStore (items (db w)) (reservations (db w) ++ [row]))
               (clock w) (uuids w) (S (issued w)) (sched w) (zone w)).
  assert (Hw' : isolated w') by exact Hw.
  destruct (row_accepted_facts _ _ _ _ Hacc) as [Hfresh _].
  assert (Hsel : select_reservation (uuids w (issued w)) (db w') = Data row).
  { unfold select_reservation, w'. cbn [db reservations].
    rewrite filter_app, (filter_eq_id_fresh _ _ Hfresh). simpl.
    unfold eq_id, row. cbn [Reservation.id]. rewrite String.eqb_refl.
    reflexivity. }
  exists row. cbn [as_response ReservationResponse.id Reservation.id row].
  split.
  { rewrite (getReservation_isolated w' _ Hw'), Hsel. reflexivity. }
  repeat (split; [reflexivity|]).
  intros Hz.
  pose proof (confirmReservation_isolated_run w' (uuids w (issued w)) Hw')
    as Hc.
  rewrite Hsel in Hc. cbn [Reservation.status row] in Hc.
  change (clock w') with (clock w) in Hc.
  replace (clock w >? Reservation.expires_at row) with false in Hc.
  2:{ symmetry. rewrite Z.gtb_ltb. apply Z.ltb_ge. unfold row.
      cbn [Reservation.expires_at].
      rewrite (setMinutes_plus_fixed _ _ _ Hz).
      unfold RESERVATION_EXPIRY_MINUTES. lia. }
  eexists. split; [exact Hc|].
  match goal with
  | |- cancelReservation _ ?w2 = _ =>
      assert (Hw2 : isolated w2) by exact Hw;
      rewrite (cancelReservation_isolated_run w2 _ Hw2)
  end.
  unfold select_reservation. cbn [db reservations].
  destruct (select_reservation_filter _ _ _ Hsel) as [Hf _].
  rewrite (guarded_update_select (uuids w (issued w))
             (set_confirmed (clock w)) _ row); auto.
Qed.

Lemma created_reservation_reads_back_witness :
  exists row w',
    getReservation "uuid-1" w' = (Returned row, w')
    /\ as_response row = as_response (hold "uuid-1" "alice" 1 PENDING 1000)
    /\ exists w'',
         confirmReservation "uuid-1" w'
         = (Returned (as_response (set_confirmed 1000 row)), w'').
Proof.
  assert (E : createReservation request_by_alice widget_world
              = (Returned (as_response (hold "uuid-1" "alice" 1 PENDING 1000)),
                 snd (createReservation request_by_alice widget_world)))
    by (vm_compute; reflexivity).
  assert (Hw : isolated widget_world) by reflexivity.
  destruct (created_reservation_reads_back _ _ _ _ Hw E)
    as [row [Hget [Hresp [_ [_ [_ [_ Hnext]]]]]]].
  destruct (Hnext utc_fixed) as [w'' [Hconfirm _]].
  exists row, (snd (createReservation request_by_alice widget_world)).
  split; [exact Hget|]. split; [exact Hresp|].
  exists w''. exact Hconfirm.
Defined.

(** On a server whose zone has a fixed offset, a successful create, served
    in isolation, lowers the admission check of its item by exactly the
    requested quantity, which stays non-negative; a request for more than
    what is left is refused next with INSUFFICIENT_QUANTITY, naming what is
    left and what was asked. *)
Theorem create_takes_the_quantity
    (w w' : World) (input : CreateReservationInput.t)
    (resp : ReservationResponse.t) :
  isolated w ->
  fixed_offset (zone w) ->
  createReservation input w = (Returned resp, w') ->
  let itemId := CreateReservationInput.item_id input in
  let qty := CreateReservationInput.quantity input in
  exists before,
    getAvailableQuantity itemId w = (Returned before, w)
    /\ 0 < qty <= before
    /\ getAvailableQuantity itemId w' = (Returned (before - qty), w')
    /\ forall more,
         CreateReservationInput.item_id more = itemId ->
         before - qty < CreateReservationInput.quantity more ->
         createReservation more w'
         = (Thrown (mkAppError 409
                      ("Insufficient available quantity. Available: "
                       ++ show (before - qty) ++ ", Requested: "
                       ++ show (CreateReservationInput.quantity more))
                      INSUFFICIENT_QUANTITY), w').
Proof.
  intros Hw Hz H itemId qty.
  destruct (createReservation_returned w w' input resp Hw H)
    as [item [Hitem [Hroom [Hacc [_ ->]]]]].
  fold itemId qty in Hitem, Hroom, Hacc |- *.
  set (row := Reservation.mk (uuids w (issued w)) itemId
                (CreateReservationInput.customer_id input) qty PENDING
                (clock w)
                (setMinutes_plus (zone w) (clock w)
                   RESERVATION_EXPIRY_MINUTES)
                None None).
  set (w' := mkWorld (mkStore (items (db w)) (reservations (db w) ++ [row]))
               (clock w) (uuids w) (S (issued w)) (sched w) (zone w)).
  assert (Hw' : isolated w') by exact Hw.
  destruct (row_accepted_facts _ _ _ _ Hacc) as [_ Hpos].
  assert (Hitem' : select_item itemId (db w') = Data item) by exact Hitem.
  assert (Hlive : sum_quantity (is_live_pending_of itemId (clock w))
                    (reservations (db w'))
                  = sum_quantity (is_live_pending_of itemId (clock w))
                      (reservations (db w)) + qty).
  { unfold w'; cbn [db reservations]. rewrite sum_quantity_app. simpl.
    unfold is_live_pending_of, eq_item_id, eq_status, row.
    cbn [Reservation.item_id Reservation.status Reservation.expires_at
         Reservation.quantity status_eqb].
    rewrite String.eqb_refl. cbn [andb].
    rewrite (setMinutes_plus_fixed _ _ _ Hz).
    destruct (Z.ltb_spec (clock w)
                (clock w + RESERVATION_EXPIRY_MINUTES * 60000)) as [_|Hc];
      [lia | unfold RESERVATION_EXPIRY_MINUTES in Hc; lia]. }
  assert (Hconf : sum_quantity (is_confirmed_of itemId)
                    (reservations (db w'))
                  = sum_quantity (is_confirmed_of itemId)
                      (reservations (db w))).
  { unfold w'; cbn [db reservations]. rewrite sum_quantity_app. simpl.
    unfold is_confirmed_of, eq_status, row.
    cbn [Reservation.status status_eqb]. rewrite Bool.andb_false_r. lia. }
  exists (Item.total_quantity item
          - sum_quantity (is_live_pending_of itemId (clock w))
              (reservations (db w))
          - sum_quantity (is_confirmed_of itemId) (reservations (db w))).
  split; [apply (getAvailableQuantity_isolated w itemId item Hw Hitem)|].
  split; [unfold committed_quantity in Hroom; lia|].
  assert (Hafter : getAvailableQuantity itemId w'
                   = (Returned
                        (Item.total_quantity item
                         - sum_quantity (is_live_pending_of itemId (clock w))
                             (reservations (db w))
                         - sum_quantity (is_confirmed_of itemId)
                             (reservations (db w)) - qty), w')).
  { rewrite (getAvailableQuantity_isolated w' itemId item Hw' Hitem').
    change (clock w') with (clock w). rewrite Hlive, Hconf.
    f_equal. f_equal. lia. }
  split; [exact Hafter|].
  intros more Hsame Hmore.
  rewrite (createReservation_isolated_run w' more Hw'), Hsame, Hitem'.
  cbv zeta. change (clock w') with (clock w).
  unfold committed_quantity. rewrite Hlive, Hconf.
  replace (Item.total_quantity item
           - (sum_quantity (is_live_pending_of itemId (clock w))
                (reservations (db w)) + qty
              + sum_quantity (is_confirmed_of itemId) (reservations (db w))))
    with (Item.total_quantity item
          - sum_quantity (is_live_pending_of itemId (clock w))
              (reservations (db w))
          - sum_quantity (is_confirmed_of itemId) (reservations (db w))
          - qty) by lia.
  destruct (Z.ltb_spec
              (Item.total_quantity item
               - sum_quantity (is_live_pending_of itemId (clock w))
                   (reservations (db w))
               - sum_quantity (is_confirmed_of itemId) (reservations (db w))
               - qty)
              (CreateReservationInput.quantity more)); [reflexivity | lia].
Qed.

Lemma create_takes_the_quantity_witness :
  exists before w',
    getAvailableQuantity "uuid-0" widget_world = (Returned before, widget_world)
    /\ getAvailableQuantity "uuid-0" w' = (Returned (before - 1), w').
Proof.
  assert (Hw : isolated widget_world) by reflexivity.
  assert (E : createReservation request_by_alice widget_world
              = (Returned (as_response (hold "uuid-1" "alice" 1 PENDING 1000)),
                 snd (createReservation request_by_alice widget_world)))
    by (vm_compute; reflexivity).
  destruct (create_takes_the_quantity _ _ _ _ Hw utc_fixed E)
    as [before [Hb [_ [Ha _]]]].
  exists before, (snd (createReservation request_by_alice widget_world)).
  split; [exact Hb | exact Ha].
Defined.

Lemma sum_quantity_none (p : Reservation.t -> bool)
    (rows : list Reservation.t) :
  (forall r, In r rows -> p r = false) -> sum_quantity p rows = 0.
Proof.
  induction rows as [|r rows IH]; intros H; simpl; [reflexivity|].
  rewrite (H r (or_introl eq_refl)), IH; [reflexivity|].
  intros x Hx; apply H; right; exact Hx.
Qed.

Lemma filter_item_fresh (s : Store) (uuid : string) :
  has_item s uuid = false ->
  filter (fun i => (Item.id i =? uuid)%string) (items s) = [].
Proof.
  unfold has_item. intros H.
  induction (items s) as [|i its IH]; simpl in *; [reflexivity|].
  apply Bool.orb_false_iff in H; destruct H as [H1 H2].
  rewrite H1. auto.
Qed.

(** An item returned by createItem, served in isolation on a store whose
    reservations all refer to existing items, carries the requested name
    and quantity, and its status report right after shows the whole stock
    available, nothing reserved and nothing confirmed; the admission check
    agrees. *)
Theorem created_item_reports_its_stock
    (w w' : World) (input : CreateItemInput.t) (item : Item.t) :
  isolated w ->
  (forall r, In r (reservations (db w)) ->
     has_item (db w) (Reservation.item_id r) = true) ->
  createItem input w = (Returned item, w') ->
  Item.name item = CreateItemInput.name input
  /\ Item.total_quantity item = CreateItemInput.initial_quantity input
  /\ getItemStatus (Item.id item) w'
     = (Returned
          (ItemStatus.mk (Item.id item) (CreateItemInput.name input)
             (CreateItemInput.initial_quantity input)
             (CreateItemInput.initial_quantity input) 0 0
             (clock w) (clock w)), w')
  /\ getAvailableQuantity (Item.id item) w'
     = (Returned (CreateItemInput.initial_quantity input), w')
  /\ reservations (db w') = reservations (db w).
Proof.
  intros Hw Hfk H.
  destruct (createItem_isolated_run w input Hw) as [E|[E [Hfresh _]]];
    rewrite E in H; [discriminate H|].
  inversion H; subst item w'; clear H E.
  set (item := Item.mk (uuids w (issued w)) (CreateItemInput.name input)
                 (CreateItemInput.initial_quantity input) (clock w) (clock w)).
  set (w' := mkWorld (mkStore (items (db w) ++ [item]) (reservations (db w)))
               (clock w) (uuids w) (S (issued w)) (sched w) (zone w)).
  assert (Hw' : isolated w') by exact Hw.
  assert (Hsel : select_item (uuids w (issued w)) (db w') = Data item).
  { unfold select_item, w'. cbn [db items].
    rewrite filter_app, (filter_item_fresh _ _ Hfresh). simpl.
    unfold item at 1. cbn [Item.id]. rewrite String.eqb_refl. reflexivity. }
  assert (Hnone : forall r, In r (reservations (db w)) ->
                    eq_item_id (uuids w (issued w)) r = false).
  { intros r Hr. apply eq_item_id_other. intros Heq.
    specialize (Hfk r Hr). rewrite <- Heq in Hfk. congruence. }
  assert (Hzero : forall p : Reservation.t -> bool,
             sum_quantity
               (fun r => eq_item_id (uuids w (issued w)) r && p r)
               (reservations (db w)) = 0).
  { intros p. apply sum_quantity_none. intros r Hr.
    rewrite (Hnone r Hr). reflexivity. }
  cbn [Item.name Item.total_quantity Item.id item].
  split; [reflexivity|]. split; [reflexivity|].
  split; [|split; [|reflexivity]].
  - rewrite (getItemStatus_isolated w' _ item Hw' Hsel).
    unfold is_pending_of, is_confirmed_of, w'. cbn [db reservations].
    rewrite !Hzero. cbn [Item.id Item.name Item.total_quantity
      Item.created_at Item.updated_at item].
    rewrite !Z.sub_0_r. reflexivity.
  - rewrite (getAvailableQuantity_isolated w' _ item Hw' Hsel).
    unfold is_confirmed_of, w'. cbn [db reservations clock].
    rewrite Hzero.
    rewrite (sum_quantity_none
               (is_live_pending_of (uuids w (issued w)) (clock w))).
    + cbn [Item.total_quantity item]. f_equal. f_equal. lia.
    + intros r Hr. unfold is_live_pending_of. rewrite (Hnone r Hr).
      reflexivity.
Qed.

Lemma created_item_reports_its_stock_witness :
  exists w',
    createItem one_widget start_world
    = (Returned (Item.mk "uuid-0" "Widget" 1 0 0), w')
    /\ fst (getAvailableQuantity "uuid-0" w') = Returned 1.
Proof.
  assert (Hw : isolated start_world) by reflexivity.
  assert (Hfk : forall r, In r (reservations (db start_world)) ->
                  has_item (db start_world) (Reservation.item_id r) = true)
    by (intros r []).
  assert (E : createItem one_widget start_world
              = (Returned (Item.mk "uuid-0" "Widget" 1 0 0),
                 snd (createItem one_widget start_world)))
    by (vm_compute; reflexivity).
  destruct (created_item_reports_its_stock _ _ _ _ Hw Hfk E)
    as [_ [_ [_ [Ha _]]]].
  exists (snd (createItem one_widget start_world)).
  split; [exact E | exact (f_equal fst Ha)].
Defined.

(** ** The sweep, served in isolation *)

Lemma filter_none {A : Type} (p : A -> bool) (l : list A) :
  (forall x, In x l -> p x = false) -> filter p l = [].
Proof.
  induction l as [|x l IH]; intros H; simpl; [reflexivity|].
  rewrite (H x (or_introl eq_refl)). apply IH.
  intros y Hy; apply H; right; exact Hy.
Qed.

Lemma stale_row_is_selected (now : Z) (rows : list Reservation.t)
    (x : Reservation.t) :
  In x rows -> is_stale_pending now x = true ->
  in_id (map Reservation.id (filter (is_stale_pending now) rows)) x
  && eq_status PENDING x = true.
Proof.
  intros Hx Hstale. apply andb_true_intro. split.
  - apply in_id_In. apply in_map. apply filter_In. split; assumption.
  - unfold is_stale_pending in Hstale. apply andb_prop in Hstale. tauto.
Qed.

(** The rows after a sweep served in isolation. *)
Lemma expireReservations_rows_after (w : World) :
  isolated w ->
  let stale :=
    map Reservation.id
      (filter (is_stale_pending (clock w)) (reservations (db w))) in
  snd (expireReservations w)
  = mkWorld
      (mkStore (items (db w))
         (map (fun x => if in_id stale x && eq_status PENDING x
                        then set_expired x else x)
            (reservations (db w))))
      (clock w) (uuids w) (issued w) (sched w) (zone w).
Proof.
  intros Hw stale. rewrite (expireReservations_isolated_run w Hw).
  fold stale. destruct stale as [|i rest] eqn:Hs; [|reflexivity].
  cbn [snd in_id existsb andb]. rewrite map_id, store_eta, world_eta.
  reflexivity.
Qed.

(** With unique identifiers the sweep expires exactly the stale holds. *)
Lemma sweep_rows_exact (w : World) :
  isolated w ->
  NoDup (map Reservation.id (reservations (db w))) ->
  reservations (db (snd (expireReservations w)))
  = map (fun x => if is_stale_pending (clock w) x then set_expired x else x)
      (reservations (db w))
  /\ items (db (snd (expireReservations w))) = items (db w)
  /\ clock (snd (expireReservations w)) = clock w
  /\ isolated (snd (expireReservations w)).
Proof.
  intros Hw Hnd.
  pose proof (expireReservations_rows_after w Hw) as Hafter.
  cbv zeta in Hafter. rewrite Hafter. cbn [db reservations items clock].
  split; [|split; [reflexivity | split; [reflexivity | exact Hw]]].
  apply map_ext_in. intros x Hx.
  destruct (is_stale_pending (clock w) x) eqn:Est.
  - rewrite (stale_row_is_selected (clock w) _ x Hx Est). reflexivity.
  - match goal with |- (if ?c then _ else _) = _ => destruct c eqn:Esel end;
      [|reflexivity].
    apply andb_prop in Esel; destruct Esel as [Hin _].
    pose proof (stale_id_is_stale (clock w) _ x Hnd Hx Hin). congruence.
Qed.

(** After a sweep served in isolation no PENDING reservation is left whose
    expiry lies strictly before the sweep's clock reading, and sweeping
    again at once finds nothing: count 0, no identifier, no write.  When
    identifiers are unique the sweep has expired exactly those
    reservations, and its count is their number. *)
Theorem sweep_is_thorough_and_idempotent (w : World) :
  isolated w ->
  (forall x, In x (reservations (db (snd (expireReservations w)))) ->
     ~ (Reservation.status x = PENDING
        /\ Reservation.expires_at x < clock w))
  /\ expireReservations (snd (expireReservations w))
     = (Returned (ExpireReservationsResult.mk 0 []),
        snd (expireReservations w))
  /\ (NoDup (map Reservation.id (reservations (db w))) ->
      reservations (db (snd (expireReservations w)))
      = map (fun x => if is_stale_pending (clock w) x
                      then set_expired x else x)
          (reservations (db w))
      /\ exists result,
           fst (expireReservations w) = Returned result
           /\ ExpireReservationsResult.expired_count result
              = Z.of_nat (List.length
                            (filter (is_stale_pending (clock w))
                               (reservations (db w))))).
Proof.
  intros Hw.
  pose proof (expireReservations_rows_after w Hw) as Hafter.
  cbv zeta in Hafter.
  set (stale := map Reservation.id
                  (filter (is_stale_pending (clock w))
                     (reservations (db w)))) in *.
  assert (Hclean : forall x,
             In x (reservations (db (snd (expireReservations w)))) ->
             is_stale_pending (clock w) x = false).
  { intros y Hy. rewrite Hafter in Hy. cbn [db reservations] in Hy.
    apply in_map_iff in Hy. destruct Hy as [x [<- Hx]].
    destruct (in_id stale x && eq_status PENDING x) eqn:Esel.
    - unfold is_stale_pending, eq_status. reflexivity.
    - destruct (is_stale_pending (clock w) x) eqn:Est; [|reflexivity].
      pose proof (stale_row_is_selected (clock w) _ x Hx Est) as Hsel.
      fold stale in Hsel. congruence. }
  split; [|split].
  - intros x Hx [Hst Hexp]. specialize (Hclean x Hx).
    unfold is_stale_pending, eq_status in Hclean. rewrite Hst in Hclean.
    cbn [status_eqb andb] in Hclean. apply Z.ltb_ge in Hclean. lia.
  - assert (Hw' : isolated (snd (expireReservations w)))
      by (rewrite Hafter; exact Hw).
    rewrite (expireReservations_isolated_run _ Hw').
    assert (Hclock : clock (snd (expireReservations w)) = clock w)
      by (rewrite Hafter; reflexivity).
    rewrite Hclock, (filter_none _ _ Hclean). reflexivity.
  - intros Hnd. split.
    + apply (sweep_rows_exact w Hw Hnd).
    + rewrite (expireReservations_isolated_run w Hw). fold stale.
      assert (Hlen : List.length stale
                     = List.length (filter (is_stale_pending (clock w))
                                      (reservations (db w))))
        by (unfold stale; apply length_map).
      destruct stale as [|i rest]; eexists; (split; [reflexivity|]);
        cbn [ExpireReservationsResult.expired_count];
        rewrite <- Hlen; reflexivity.
Qed.

Lemma sweep_is_thorough_and_idempotent_witness :
  expireReservations (snd (expireReservations sweep_world))
  = (Returned (ExpireReservationsResult.mk 0 []),
     snd (expireReservations sweep_world)).
Proof.
  exact (proj1 (proj2 (sweep_is_thorough_and_idempotent sweep_world
                         eq_refl))).
Defined.

Lemma sums_after_sweep (item : string) (now : Z)
    (rows : list Reservation.t) :
  let rows' := map (fun x => if is_stale_pending now x
                             then set_expired x else x) rows in
  sum_quantity (is_pending_of item) rows'
  = sum_quantity (is_pending_of item) rows
    - sum_quantity (fun r => eq_item_id item r && is_stale_pending now r) rows
  /\ sum_quantity (is_live_pending_of item now) rows'
     = sum_quantity (is_live_pending_of item now) rows
  /\ sum_quantity (is_confirmed_of item) rows'
     = sum_quantity (is_confirmed_of item) rows.
Proof.
  cbv zeta. induction rows as [|x rows [IH1 [IH2 IH3]]];
    [repeat split|].
  cbn [map sum_quantity]. rewrite IH1, IH2, IH3.
  destruct (is_stale_pending now x) eqn:Est.
  - unfold is_stale_pending in Est. apply andb_prop in Est.
    destruct Est as [Hp Hlt]. apply Z.ltb_lt in Hlt.
    unfold is_pending_of, is_live_pending_of, is_confirmed_of.
    change (eq_status PENDING (set_expired x)) with false.
    change (eq_status CONFIRMED (set_expired x)) with false.
    change (eq_item_id item (set_expired x)) with (eq_item_id item x).
    change (Reservation.quantity (set_expired x))
      with (Reservation.quantity x).
    rewrite Hp.
    assert (Hc : eq_status CONFIRMED x = false).
    { unfold eq_status in *. destruct (Reservation.status x);
        simpl in *; congruence. }
    rewrite Hc.
    destruct (Z.ltb_spec now (Reservation.expires_at x)); [lia|].
    rewrite !Bool.andb_false_r, !Bool.andb_true_r.
    destruct (eq_item_id item x); repeat split; lia.
  - rewrite Bool.andb_false_r. repeat split; lia.
Qed.

(** A sweep served in isolation on a store with unique identifiers never
    changes what the admission check computes for an item; in the status
    report it lowers the reserved quantity by the holds it expired and
    raises the available quantity by as much, the confirmed quantity
    staying as it was. *)
Theorem sweep_settles_the_report
    (w : World) (itemId : string) (item : Item.t) :
  isolated w ->
  NoDup (map Reservation.id (reservations (db w))) ->
  select_item itemId (db w) = Data item ->
  let w' := snd (expireReservations w) in
  let swept :=
    sum_quantity (fun r => eq_item_id itemId r
                           && is_stale_pending (clock w) r)
      (reservations (db w)) in
  exists available st st',
    getAvailableQuantity itemId w = (Returned available, w)
    /\ getAvailableQuantity itemId w' = (Returned available, w')
    /\ getItemStatus itemId w = (Returned st, w)
    /\ getItemStatus itemId w' = (Returned st', w')
    /\ ItemStatus.reserved_quantity st'
       = ItemStatus.reserved_quantity st - swept
    /\ ItemStatus.confirmed_quantity st' = ItemStatus.confirmed_quantity st
    /\ ItemStatus.available_quantity st'
       = ItemStatus.available_quantity st + swept.
Proof.
  intros Hw Hnd Hitem w' swept.
  destruct (sweep_rows_exact w Hw Hnd) as [Hrows [Hitems [Hclock Hw']]].
  fold w' in Hrows, Hitems, Hclock, Hw'.
  assert (Hitem' : select_item itemId (db w') = Data item)
    by (unfold select_item; rewrite Hitems; exact Hitem).
  destruct (sums_after_sweep itemId (clock w) (reservations (db w)))
    as [H1 [H2 H3]]. rewrite <- Hrows in H1, H2, H3.
  eexists _, _, _.
  split; [apply (getAvailableQuantity_isolated w itemId item Hw Hitem)|].
  split.
  { rewrite (getAvailableQuantity_isolated w' itemId item Hw' Hitem').
    rewrite Hclock, H2, H3. reflexivity. }
  split; [apply (getItemStatus_isolated w itemId item Hw Hitem)|].
  split; [apply (getItemStatus_isolated w' itemId item Hw' Hitem')|].
  cbn [ItemStatus.reserved_quantity ItemStatus.confirmed_quantity
       ItemStatus.available_quantity].
  fold swept in H1. rewrite H1, H3. repeat split; lia.
Qed.

Lemma sweep_settles_the_report_witness :
  exists available st',
    getAvailableQuantity "uuid-0" sweep_world
    = (Returned available, sweep_world)
    /\ getAvailableQuantity "uuid-0" (snd (expireReservations sweep_world))
       = (Returned available, snd (expireReservations sweep_world))
    /\ getItemStatus "uuid-0" (snd (expireReservations sweep_world))
       = (Returned st', snd (expireReservations sweep_world)).
Proof.
  assert (Hnd : NoDup (map Reservation.id (reservations (db sweep_world)))).
  { simpl. repeat constructor; simpl; intuition discriminate. }
  destruct (sweep_settles_the_report sweep_world "uuid-0" (widget 5)
              eq_refl Hnd eq_refl)
    as [available [st [st' [H1 [H2 [_ [H4 _]]]]]]].
  exists available, st'. split; [exact H1|]. split; [exact H2 | exact H4].
Defined.

(** ** Errors *)

Lemma throws_only_ret {A : Type} (P : AppError -> Prop) (a : A) :
  throws_only P (ret a).
Proof. intros w e w' H; discriminate H. Qed.

Lemma throws_only_throw {A : Type} (P : AppError -> Prop) (e : AppError) :
  P e -> throws_only P (@throw A e).
Proof. intros He w e' w' H; inversion H; subst; exact He. Qed.

Lemma throws_only_bind {A B : Type} (P : AppError -> Prop)
    (m : M A) (k : A -> M B) :
  throws_only P m -> (forall a, throws_only P (k a)) ->
  throws_only P (bind m k).
Proof.
  intros Hm Hk w e w' H. unfold bind in H.
  destruct (m w) as [[a|e0] w0] eqn:E.
  - apply (Hk a w0 e w' H).
  - inversion H; subst. apply (Hm w e w' E).
Qed.

Lemma throws_only_newDate (P : AppError -> Prop) : throws_only P newDate.
Proof. intros w e w' H; discriminate H. Qed.

Lemma throws_only_timeZone (P : AppError -> Prop) : throws_only P timeZone.
Proof. intros w e w' H; discriminate H. Qed.

Lemma throws_only_query {A : Type} (P : AppError -> Prop) (q : Store -> A) :
  throws_only P (query q).
Proof. intros w e w' H; discriminate H. Qed.

Lemma throws_only_mutate {A : Type} (P : AppError -> Prop)
    (stmt : Store -> A * Store) :
  throws_only P (mutate stmt).
Proof.
  intros w e w' H. unfold mutate in H.
  destruct (stmt (db (advance w))); discriminate H.
Qed.

Lemma throws_only_insert {A : Type} (P : AppError -> Prop)
    (stmt : string -> Z -> Store -> A * Store) :
  throws_only P (insert stmt).
Proof.
  intros w e w' H. unfold insert in H.
  destruct (stmt _ _ _); discriminate H.
Qed.

Lemma as_documented_intro (codes : list ErrorCode) (status : Z)
    (msg : string) (c : ErrorCode) :
  In c codes -> status = documented_status c ->
  as_documented codes (mkAppError status msg c).
Proof.
  intros Hin ->. split; [exact Hin|]. split; reflexivity.
Qed.

Ltac documented :=
  apply throws_only_throw; apply as_documented_intro;
  [simpl; tauto | reflexivity].

Ltac throws_step :=
  first
    [ apply throws_only_ret
    | apply throws_only_newDate
    | apply throws_only_timeZone
    | apply throws_only_query
    | apply throws_only_mutate
    | apply throws_only_insert
    | documented
    | apply throws_only_bind; [|intros ?]
    | match goal with
      | |- throws_only _ (match ?x with _ => _ end) => destruct x
      | |- throws_only _ (if ?c then _ else _) => destruct c
      end ].

Lemma getReservation_throws :
  forall rid,
    throws_only (as_documented [RESERVATION_NOT_FOUND; DATABASE_ERROR])
      (getReservation rid).
Proof. intros rid. unfold getReservation. repeat throws_step. Qed.

Lemma throws_only_weaken {A : Type} (P Q : AppError -> Prop) (m : M A) :
  (forall e, P e -> Q e) -> throws_only P m -> throws_only Q m.
Proof. intros HPQ Hm w e w' H. apply HPQ. apply (Hm w e w' H). Qed.

Lemma as_documented_more (codes codes' : list ErrorCode) (e : AppError) :
  incl codes codes' -> as_documented codes e -> as_documented codes' e.
Proof. intros Hin [H1 H2]. split; [apply Hin; exact H1 | exact H2]. Qed.

Lemma services_throw_documented :
  (forall input,
     throws_only (as_documented [DATABASE_ERROR]) (createItem input))
  /\ (forall itemId,
        throws_only (as_documented [ITEM_NOT_FOUND; DATABASE_ERROR])
          (getItemStatus itemId))
  /\ (forall input,
        throws_only
          (as_documented [ITEM_NOT_FOUND; INSUFFICIENT_QUANTITY;
                          DATABASE_ERROR])
          (createReservation input))
  /\ (forall rid,
        throws_only (as_documented [RESERVATION_NOT_FOUND; DATABASE_ERROR])
          (getReservation rid))
  /\ (forall rid,
        throws_only
          (as_documented [RESERVATION_NOT_FOUND; RESERVATION_CANCELLED;
                          RESERVATION_EXPIRED; DATABASE_ERROR])
          (confirmReservation rid))
  /\ (forall rid,
        throws_only
          (as_documented [RESERVATION_NOT_FOUND; RESERVATION_EXPIRED;
                          RESERVATION_CONFIRMED; DATABASE_ERROR])
          (cancelReservation rid)).
Proof.
  assert (Hget : forall rid codes,
             In RESERVATION_NOT_FOUND codes -> In DATABASE_ERROR codes ->
             throws_only (as_documented codes) (getReservation rid)).
  { intros rid codes H1 H2.
    apply (throws_only_weaken
             (as_documented [RESERVATION_NOT_FOUND; DATABASE_ERROR])).
    - intros e. apply as_documented_more.
      intros c [<-|[<-|[]]]; assumption.
    - apply getReservation_throws. }
  split; [|split; [|split; [|split; [|split]]]].
  - intros input. unfold createItem. repeat throws_step.
  - intros itemId. unfold getItemStatus. repeat throws_step.
  - intros input. unfold createReservation, itemExists, getAvailableQuantity.
    repeat throws_step.
  - intros rid. apply getReservation_throws.
  - intros rid. unfold confirmReservation.
    apply throws_only_bind; [apply Hget; simpl; tauto | intros r].
    destruct (Reservation.status r); repeat throws_step;
      try (apply Hget; simpl; tauto).
  - intros rid. unfold cancelReservation.
    apply throws_only_bind; [apply Hget; simpl; tauto | intros r].
    destruct (Reservation.status r); repeat throws_step;
      try (apply Hget; simpl; tauto).
Qed.

Lemma rejects_only_intro {A : Type}
    (createClient : string -> string -> option string)
    (codes : list ErrorCode) (m : M A) :
  throws_only (as_documented codes) m -> rejects_only createClient codes m.
Proof.
  intros Hm p w reason p' w' H. unfold with_client, getSupabaseClient in H.
  destruct (supabase p) eqn:Hc.
  - destruct (m w) as [[a|e] w0] eqn:E; inversion H; subst.
    apply (Hm w e w' E).
  - destruct (falsy (SUPABASE_URL p) || falsy (SUPABASE_SERVICE_KEY p)).
    + inversion H; subst. repeat split.
    + destruct (createClient (text (SUPABASE_URL p))
                  (text (SUPABASE_SERVICE_KEY p))) as [thrown|].
      * inversion H; subst. repeat split.
      * destruct (m w) as [[a|e] w0] eqn:E; inversion H; subst.
        apply (Hm w e w' E).
Qed.

(** Whatever the process environment, the schedule and the behaviour of
    the client library, a service function that is rejected is rejected
    with an [AppError] carrying one of the codes listed for it and the HTTP
    status the README documents for that code (404 for the not-found
    codes, 409 for the conflicts, 500 for a database error), which the
    error handler answers with that status and an envelope
    [{ success: false, error: { code, message } }] carrying the code and
    message unchanged; or, when no client has been created yet and the
    credentials are missing or the library refuses them, with another
    [Error] raised before anything is read or written, which the error
    handler answers as 500 INTERNAL_SERVER_ERROR. *)
Theorem service_errors_are_documented
    (createClient : string -> string -> option string) :
  (forall input,
     rejects_only createClient [DATABASE_ERROR] (createItem input))
  /\ (forall itemId,
        rejects_only createClient [ITEM_NOT_FOUND; DATABASE_ERROR]
          (getItemStatus itemId))
  /\ (forall input,
        rejects_only createClient
          [ITEM_NOT_FOUND; INSUFFICIENT_QUANTITY; DATABASE_ERROR]
          (createReservation input))
  /\ (forall rid,
        rejects_only createClient [RESERVATION_NOT_FOUND; DATABASE_ERROR]
          (getReservation rid))
  /\ (forall rid,
        rejects_only createClient
          [RESERVATION_NOT_FOUND; RESERVATION_CANCELLED;
           RESERVATION_EXPIRED; DATABASE_ERROR]
          (confirmReservation rid))
  /\ (forall rid,
        rejects_only createClient
          [RESERVATION_NOT_FOUND; RESERVATION_EXPIRED;
           RESERVATION_CONFIRMED; DATABASE_ERROR]
          (cancelReservation rid)).
Proof.
  destruct services_throw_documented as [H1 [H2 [H3 [H4 [H5 H6]]]]].
  split; [|split; [|split; [|split; [|split]]]]; intros x;
    apply rejects_only_intro; auto.
Qed.

(** A process started without credentials, and one that has its client. *)
Lemma service_errors_are_documented_witness :
  (exists reason,
     with_client (fun _ _ => None) (confirmReservation "uuid-2")
       (mkProcess None None false) terminal_world
     = (Rejected reason, mkProcess None None false, terminal_world)
     /\ http_status (errorHandler reason) = 500
     /\ ErrorDetail.code (ErrorResponse.error (json (errorHandler reason)))
        = INTERNAL_SERVER_ERROR)
  /\ (exists e,
        with_client (fun _ _ => None) (confirmReservation "uuid-2")
          (mkProcess (Some "http://localhost") (Some "key") true)
          terminal_world
        = (Rejected (AnAppError e),
           mkProcess (Some "http://localhost") (Some "key") true,
           terminal_world)
        /\ as_documented [RESERVATION_NOT_FOUND; RESERVATION_CANCELLED;
                          RESERVATION_EXPIRED; DATABASE_ERROR] e).
Proof.
  pose proof (proj1 (proj2 (proj2 (proj2 (proj2
                (service_errors_are_documented (fun _ _ => None))))))
                "uuid-2") as Hconfirm.
  split.
  - exists (AnotherError missing_credentials).
    assert (Hrun : with_client (fun _ _ => None) (confirmReservation "uuid-2")
                     (mkProcess None None false) terminal_world
                   = (Rejected (AnotherError missing_credentials),
                      mkProcess None None false, terminal_world))
      by (vm_compute; reflexivity).
    split; [exact Hrun|].
    destruct (Hconfirm _ _ _ _ _ Hrun) as [_ [_ [_ Hreply]]].
    rewrite Hreply. split; reflexivity.
  - exists (mkAppError 409 "Cannot confirm a cancelled reservation"
              RESERVATION_CANCELLED).
    assert (Hrun : with_client (fun _ _ => None) (confirmReservation "uuid-2")
                     (mkProcess (Some "http://localhost") (Some "key") true)
                     terminal_world
                   = (Rejected
                        (AnAppError
                           (mkAppError 409
                              "Cannot confirm a cancelled reservation"
                              RESERVATION_CANCELLED)),
                      mkProcess (Some "http://localhost") (Some "key") true,
                      terminal_world))
      by (vm_compute; reflexivity).
    split; [exact Hrun|]. exact (Hconfirm _ _ _ _ _ Hrun).
Defined.

(** ** Unknown identifiers *)

Lemma select_reservation_unknown (s : Store) (rid : string) :
  has_reservation s rid = false -> select_reservation rid s = Error PGRST116.
Proof.
  intros H. unfold select_reservation.
  rewrite (filter_none (eq_id rid) (reservations s)); [reflexivity|].
  intros x Hx. unfold has_reservation in H.
  destruct (eq_id rid x) eqn:E; [|reflexivity].
  assert (Hex : existsb (fun r => (Reservation.id r =? rid)%string)
                  (reservations s) = true)
    by (apply existsb_exists; exists x; split; assumption).
  congruence.
Qed.

Lemma select_item_unknown (s : Store) (itemId : string) :
  has_item s itemId = false -> select_item itemId s = Error PGRST116.
Proof.
  intros H. unfold select_item.
  rewrite (filter_none (fun i => (Item.id i =? itemId)%string) (items s));
    [reflexivity|].
  intros x Hx. unfold has_item in H.
  destruct (Item.id x =? itemId)%string eqn:E; [|reflexivity].
  assert (Hex : existsb (fun i => (Item.id i =? itemId)%string) (items s)
                = true)
    by (apply existsb_exists; exists x; split; assumption).
  congruence.
Qed.

(** Whatever the schedule, a reservation identifier that is not in the table
    when the request reads it makes get, confirm and cancel fail alike with
    404 RESERVATION_NOT_FOUND, after that single read and without any
    write. *)
Theorem unknown_reservation_is_not_found (w : World) (rid : string) :
  has_reservation (db (advance w)) rid = false ->
  let not_found :=
    (@Thrown Reservation.t
       (mkAppError 404 "Reservation not found" RESERVATION_NOT_FOUND),
     advance w) in
  getReservation rid w = not_found
  /\ confirmReservation rid w
     = (Thrown (mkAppError 404 "Reservation not found" RESERVATION_NOT_FOUND),
        advance w)
  /\ cancelReservation rid w
     = (Thrown (mkAppError 404 "Reservation not found" RESERVATION_NOT_FOUND),
        advance w).
Proof.
  intros H not_found.
  assert (Hget : getReservation rid w = not_found).
  { unfold getReservation, bind, query.
    rewrite (select_reservation_unknown _ _ H). reflexivity. }
  split; [exact Hget|]. split.
  - unfold confirmReservation, bind. rewrite Hget. reflexivity.
  - unfold cancelReservation, bind. rewrite Hget. reflexivity.
Qed.

Lemma unknown_reservation_is_not_found_witness :
  has_reservation (db (advance terminal_world)) "uuid-9" = false
  /\ fst (confirmReservation "uuid-9" terminal_world)
     = Thrown (mkAppError 404 "Reservation not found" RESERVATION_NOT_FOUND).
Proof.
  split; [reflexivity|].
  exact (f_equal fst
           (proj1 (proj2 (unknown_reservation_is_not_found terminal_world
                            "uuid-9" eq_refl)))).
Defined.

(** Whatever the schedule, an item identifier that is not in the table when
    the request reads it makes the status report and the creation of a
    reservation fail with 404 ITEM_NOT_FOUND after that single read, nothing
    being written; the admission computation on its own answers 500
    DATABASE_ERROR instead. *)
Theorem unknown_item_is_not_found (w : World) (itemId : string) :
  has_item (db (advance w)) itemId = false ->
  getItemStatus itemId w
  = (Thrown (mkAppError 404 "Item not found" ITEM_NOT_FOUND), advance w)
  /\ (forall customer qty,
        createReservation (CreateReservationInput.mk itemId customer qty) w
        = (Thrown (mkAppError 404 "Item not found" ITEM_NOT_FOUND),
           advance w))
  /\ itemExists itemId w = (Returned false, advance w)
  /\ getAvailableQuantity itemId w
     = (Thrown (mkAppError 500 "Failed to fetch item" DATABASE_ERROR),
        advance w).
Proof.
  intros H. pose proof (select_item_unknown _ _ H) as Hsel.
  assert (Hex : itemExists itemId w = (Returned false, advance w)).
  { unfold itemExists, bind, query. rewrite Hsel. reflexivity. }
  split; [|split; [|split]].
  - unfold getItemStatus, bind, query. rewrite Hsel. reflexivity.
  - intros customer qty. unfold createReservation, bind.
    cbn [CreateReservationInput.item_id]. rewrite Hex. reflexivity.
  - exact Hex.
  - unfold getAvailableQuantity, bind, query. rewrite Hsel. reflexivity.
Qed.

Lemma unknown_item_is_not_found_witness :
  has_item (db (advance widget_world)) "uuid-9" = false
  /\ createReservation request_for_unknown_item widget_world
     = (Thrown (mkAppError 404 "Item not found" ITEM_NOT_FOUND),
        advance widget_world).
Proof.
  split; [reflexivity|].
  exact (proj1 (proj2 (unknown_item_is_not_found widget_world "uuid-9"
                         eq_refl)) "alice" 1).
Defined.

(** ** Lapsed holds *)

Lemma filter_eq_id_unique (rows : list Reservation.t) (x : Reservation.t) :
  NoDup (map Reservation.id rows) -> In x rows ->
  filter (eq_id (Reservation.id x)) rows = [x].
Proof.
  induction rows as [|a l IH]; simpl; intros Hnd Hin; [contradiction|].
  inversion Hnd as [|? ? Hnot Hnd']; subst.
  destruct Hin as [->|Hin].
  - unfold eq_id at 1. rewrite String.eqb_refl. f_equal.
    apply filter_none. intros y Hy. unfold eq_id.
    apply String.eqb_neq. intros E. apply Hnot. rewrite <- E.
    apply in_map; exact Hy.
  - assert (Hne : eq_id (Reservation.id x) a = false).
    { unfold eq_id. apply String.eqb_neq. intros E. apply Hnot. rewrite E.
      apply in_map; exact Hin. }
    rewrite Hne. apply IH; assumption.
Qed.

Lemma lapsed_later (now now' : Z) (r : Reservation.t) :
  now <= now' -> lapsed now r -> lapsed now' r.
Proof.
  unfold lapsed. intros Ht H. destruct (Reservation.status r); try exact H.
  lia.
Qed.

Lemma lapsed_row_step (now : Z) (x y : Reservation.t) :
  lapsed now x -> row_step now x y -> lapsed now y.
Proof.
  intros Hl Hstep.
  destruct Hstep as [r|r Hst Hlive|r Hst|r Hst Hstale].
  - exact Hl.
  - unfold lapsed in Hl. rewrite Hst in Hl. lia.
  - exact I.
  - exact I.
Qed.

Lemma lapsed_survives (w w' : World) (r : Reservation.t) :
  world_ok w ->
  In r (reservations (db w)) ->
  lapsed (clock w) r ->
  evolves w w' ->
  world_ok w'
  /\ exists x,
       In x (reservations (db w'))
       /\ Reservation.id x = Reservation.id r
       /\ Reservation.item_id x = Reservation.item_id r
       /\ Reservation.quantity x = Reservation.quantity r
       /\ lapsed (clock w') x.
Proof.
  intros Hok Hin Hl Hev.
  induction Hev as [|w' dt Hev IH Hdt|w' q Hev IH Hvalid].
  - split; [exact Hok|]. exists r. repeat split; assumption.
  - destruct IH as [Hok' [x [Hx [Hid [Hit [Hq Hlx]]]]]].
    split; [apply world_ok_wait; assumption|].
    exists x. repeat split; try assumption.
    apply (lapsed_later (clock w')); [unfold wait; cbn [clock]; lia|].
    exact Hlx.
  - destruct IH as [Hok' [x [Hx [Hid [Hit [Hq Hlx]]]]]].
    split; [apply world_ok_handle; assumption|].
    assert (Heff : effect_of q w' (handle q w')).
    { destruct Hok' as [Hw [[_ [Hnr _]] _]]. apply handle_effect; assumption. }
    destruct Heff as [g [new_items [added [n [-> [Hg _]]]]]].
    cbn [db clock reservations].
    pose proof (Hg x Hx) as Hstep.
    destruct (row_step_fields _ _ _ Hstep) as [E1 [E2 [_ [E4 _]]]].
    exists (g x). split; [apply in_or_app; left; apply in_map; exact Hx|].
    split; [congruence|]. split; [congruence|]. split; [congruence|].
    apply (lapsed_row_step _ x); assumption.
Qed.

(** A hold that has lapsed (PENDING past its expiry, CANCELLED or EXPIRED)
    in a world reached by validated requests stays lapsed whatever
    validated requests are served and however much time passes afterwards:
    the reservation is still stored under its identifier, for the same item
    and quantity, it is never CONFIRMED, and a request to confirm it is
    refused with a 409 conflict that writes nothing. *)
Theorem lapsed_hold_is_never_confirmed (w w' : World) (r : Reservation.t) :
  reachable w ->
  In r (reservations (db w)) ->
  lapsed (clock w) r ->
  evolves w w' ->
  exists x e,
    select_reservation (Reservation.id r) (db w') = Data x
    /\ Reservation.item_id x = Reservation.item_id r
    /\ Reservation.quantity x = Reservation.quantity r
    /\ Reservation.status x <> CONFIRMED
    /\ lapsed (clock w') x
    /\ confirmReservation (Reservation.id r) w' = (Thrown e, w')
    /\ statusCode e = 409
    /\ (code e = RESERVATION_EXPIRED \/ code e = RESERVATION_CANCELLED).
Proof.
  intros Hreach Hin Hl Hev.
  destruct (lapsed_survives w w' r (reachable_world_ok w Hreach) Hin Hl Hev)
    as [[Hw [[_ [Hnr _]] _]] [x [Hx [Hid [Hit [Hq Hlx]]]]]].
  assert (Hsel : select_reservation (Reservation.id r) (db w') = Data x).
  { unfold select_reservation. rewrite <- Hid.
    rewrite (filter_eq_id_unique _ x Hnr Hx). reflexivity. }
  assert (Hst : Reservation.status x <> CONFIRMED).
  { intros E. unfold lapsed in Hlx. rewrite E in Hlx. exact Hlx. }
  rewrite (confirmReservation_isolated_run w' _ Hw), Hsel.
  unfold lapsed in Hlx.
  destruct (Reservation.status x) eqn:Est.
  - assert (Hgt : (clock w' >? Reservation.expires_at x) = true)
      by (rewrite Z.gtb_ltb; apply Z.ltb_lt; exact Hlx).
    rewrite Hgt.
    exists x, (mkAppError 409 "Cannot confirm an expired reservation"
                 RESERVATION_EXPIRED).
    unfold lapsed; rewrite Est.
    repeat split; try assumption; try reflexivity. left; reflexivity.
  - contradiction.
  - exists x, (mkAppError 409 "Cannot confirm a cancelled reservation"
                 RESERVATION_CANCELLED).
    unfold lapsed; rewrite Est.
    repeat split; try assumption; try reflexivity. right; reflexivity.
  - exists x, (mkAppError 409 "Cannot confirm an expired reservation"
                 RESERVATION_EXPIRED).
    unfold lapsed; rewrite Est.
    repeat split; try assumption; try reflexivity. left; reflexivity.
Qed.

Lemma lapsed_hold_is_never_confirmed_witness :
  exists x e,
    select_reservation "uuid-1" (db oversubscribed_world) = Data x
    /\ Reservation.status x <> CONFIRMED
    /\ confirmReservation "uuid-1" oversubscribed_world
       = (Thrown e, oversubscribed_world)
    /\ statusCode e = 409.
Proof.
  assert (Hreach :
            reachable
              (wait 60001
                 (handle (CreateReservation request_by_alice)
                    (handle (CreateItem one_widget) start_world)))).
  { apply reach_wait; [|lia].
    apply reach_request; [|reflexivity].
    apply reach_request; [|reflexivity].
    apply reach_start. }
  assert (Hin :
            In (hold "uuid-1" "alice" 1 PENDING 0)
              (reservations
                 (db (wait 60001
                        (handle (CreateReservation request_by_alice)
                           (handle (CreateItem one_widget) start_world)))))).
  { vm_compute. left; reflexivity. }
  assert (Hl :
            lapsed
              (clock (wait 60001
                        (handle (CreateReservation request_by_alice)
                           (handle (CreateItem one_widget) start_world))))
              (hold "uuid-1" "alice" 1 PENDING 0)).
  { vm_compute. reflexivity. }
  assert (Hev :
            evolves
              (wait 60001
                 (handle (CreateReservation request_by_alice)
                    (handle (CreateItem one_widget) start_world)))
              oversubscribed_world).
  { unfold oversubscribed_world, bob_after.
    apply evolves_request; [apply evolves_refl | reflexivity]. }
  destruct (lapsed_hold_is_never_confirmed _ _ _ Hreach Hin Hl Hev)
    as [x [e [H1 [_ [_ [H4 [_ [H6 [H7 _]]]]]]]]].
  exists x, e. repeat split; assumption.
Defined.

(** ** The passing of time *)

Lemma live_sum_antitone (item : string) (now now' : Z)
    (rows : list Reservation.t) :
  now <= now' ->
  (forall r, In r rows -> 0 < Reservation.quantity r) ->
  0 <= sum_quantity (is_live_pending_of item now') rows
    <= sum_quantity (is_live_pending_of item now) rows.
Proof.
  intros Ht. induction rows as [|r rows IH]; intros Hq; simpl; [lia|].
  assert (Hr : 0 < Reservation.quantity r) by (apply Hq; left; reflexivity).
  assert (IH' : 0 <= sum_quantity (is_live_pending_of item now') rows
                <= sum_quantity (is_live_pending_of item now) rows)
    by (apply IH; intros x Hx; apply Hq; right; exact Hx).
  set (later := sum_quantity (is_live_pending_of item now') rows) in *.
  set (sooner := sum_quantity (is_live_pending_of item now) rows) in *.
  unfold is_live_pending_of.
  destruct (eq_item_id item r && eq_status PENDING r); cbn [andb];
    [|lia].
  destruct (Z.ltb_spec now' (Reservation.expires_at r));
    destruct (Z.ltb_spec now (Reservation.expires_at r)); lia.
Qed.

(** With no request served, the passing of time never lowers what the
    admission check grants for an item: it rises as holds lapse and, once
    every PENDING hold of the item has reached its expiry, equals the total
    less the CONFIRMED quantity.  The status report does not move with
    time: it goes on counting lapsed holds as reserved until they are swept
    or cancelled. *)
Theorem waiting_only_frees_quantity (w : World) (itemId : string)
    (item : Item.t) (dt : Z) :
  isolated w ->
  quantities_positive (db w) ->
  select_item itemId (db w) = Data item ->
  0 <= dt ->
  exists before later,
    getAvailableQuantity itemId w = (Returned before, w)
    /\ getAvailableQuantity itemId (wait dt w) = (Returned later, wait dt w)
    /\ before <= later
    /\ later <= Item.total_quantity item
                - sum_quantity (is_confirmed_of itemId) (reservations (db w))
    /\ ((forall r, In r (reservations (db w)) ->
           Reservation.item_id r = itemId ->
           Reservation.status r = PENDING ->
           Reservation.expires_at r <= clock w + dt) ->
        later = Item.total_quantity item
                - sum_quantity (is_confirmed_of itemId)
                    (reservations (db w)))
    /\ fst (getItemStatus itemId (wait dt w)) = fst (getItemStatus itemId w).
Proof.
  intros Hw Hq Hitem Hdt.
  assert (Hw' : isolated (wait dt w)) by exact Hw.
  assert (Hitem' : select_item itemId (db (wait dt w)) = Data item)
    by exact Hitem.
  rewrite (getAvailableQuantity_isolated w itemId item Hw Hitem).
  rewrite (getAvailableQuantity_isolated (wait dt w) itemId item Hw' Hitem').
  rewrite (getItemStatus_isolated w itemId item Hw Hitem).
  rewrite (getItemStatus_isolated (wait dt w) itemId item Hw' Hitem').
  cbn [wait db clock fst].
  pose proof (live_sum_antitone itemId (clock w) (clock w + dt)
                (reservations (db w)) ltac:(lia) Hq) as Hsum.
  eexists _, _. split; [reflexivity|]. split; [reflexivity|].
  split; [lia|]. split; [lia|]. split; [|reflexivity].
  intros Hall.
  rewrite (sum_quantity_none (is_live_pending_of itemId (clock w + dt)));
    [lia|].
  intros r Hr. unfold is_live_pending_of, eq_item_id, eq_status.
  destruct (Reservation.item_id r =? itemId)%string eqn:Ei;
    [|reflexivity].
  destruct (Reservation.status r) eqn:Es; try reflexivity.
  cbn [status_eqb andb]. apply Z.ltb_ge.
  apply Hall; [exact Hr | apply String.eqb_eq; exact Ei | exact Es].
Qed.

Lemma waiting_only_frees_quantity_witness :
  exists before later,
    getAvailableQuantity "uuid-0" stale_world = (Returned before, stale_world)
    /\ getAvailableQuantity "uuid-0" (wait 5 stale_world)
       = (Returned later, wait 5 stale_world)
    /\ before <= later.
Proof.
  assert (Hq : quantities_positive (db stale_world)).
  { intros r [<-|[]]. reflexivity. }
  assert (Hdt : 0 <= 5) by lia.
  destruct (waiting_only_frees_quantity stale_world "uuid-0" (widget 2) 5
              eq_refl Hq eq_refl Hdt)
    as [before [later [H1 [H2 [H3 _]]]]].
  exists before, later. repeat split; assumption.
Defined.

(** ** Creating an item *)

(** A create-item request that passed validation, served in isolation,
    stores exactly one new item carrying the requested name and quantity
    and returns it, provided the generated identifier is unused, the name
    has a character other than a space and the quantity fits a 32-bit
    integer.  Validation does not check the last two: a name made of spaces
    or a quantity above 2147483647 passes it, is rejected by the table, and
    the request fails with 500 DATABASE_ERROR, nothing being stored. *)
Theorem createItem_outcomes (w : World) (input : CreateItemInput.t) :
  isolated w ->
  createItemSchema input = true ->
  (has_item (db w) (uuids w (issued w)) = false ->
   not_blank (CreateItemInput.name input) = true ->
   CreateItemInput.initial_quantity input <= 2147483647 ->
   createItem input w
   = (Returned (Item.mk (uuids w (issued w)) (CreateItemInput.name input)
                  (CreateItemInput.initial_quantity input)
                  (clock w) (clock w)),
      mkWorld
        (mkStore
           (items (db w)
            ++ [Item.mk (uuids w (issued w)) (CreateItemInput.name input)
                  (CreateItemInput.initial_quantity input)
                  (clock w) (clock w)])
           (reservations (db w)))
        (clock w) (uuids w) (S (issued w)) (sched w) (zone w)))
  /\ (has_item (db w) (uuids w (issued w)) = true
      \/ not_blank (CreateItemInput.name input) = false
      \/ 2147483647 < CreateItemInput.initial_quantity input ->
      createItem input w
      = (Thrown (mkAppError 500 "Failed to create item" DATABASE_ERROR),
         mkWorld (db w) (clock w) (uuids w) (S (issued w)) (sched w) (zone w))).
Proof.
  intros Hw Hvalid.
  unfold createItemSchema in Hvalid.
  apply andb_prop in Hvalid; destruct Hvalid as [Hvalid Hqty].
  apply andb_prop in Hvalid; destruct Hvalid as [_ Hlen].
  apply Z.leb_le in Hqty.
  assert (Hfit : fits_varchar255 (CreateItemInput.name input) = true)
    by (apply js_length_fits_varchar255; exact Hlen).
  assert (Hnonneg : (CreateItemInput.initial_quantity input >=? 0) = true)
    by (apply Z.geb_le; lia).
  unfold createItem, bind. rewrite (insert_isolated _ w Hw).
  unfold insert_item. rewrite Hfit, Hnonneg. cbn [negb].
  split.
  - intros Hfresh Hname Hmax. rewrite Hfresh, Hname.
    assert (Hint : fits_integer (CreateItemInput.initial_quantity input)
                   = true).
    { unfold fits_integer. apply andb_true_intro.
      split; apply Z.leb_le; lia. }
    rewrite Hint. reflexivity.
  - intros [Hused|[Hblank|Hbig]].
    + rewrite Hused. reflexivity.
    + rewrite Hblank.
      destruct (has_item (db w) (uuids w (issued w)));
        [reflexivity|].
      destruct (fits_integer (CreateItemInput.initial_quantity input));
        reflexivity.
    + assert (Hint : fits_integer (CreateItemInput.initial_quantity input)
                     = false).
      { unfold fits_integer. apply Bool.andb_false_iff. right.
        apply Z.leb_gt. exact Hbig. }
      rewrite Hint.
      destruct (has_item (db w) (uuids w (issued w))); reflexivity.
Qed.

Lemma createItem_outcomes_witness :
  createItemSchema (CreateItemInput.mk " " 5) = true
  /\ createItem (CreateItemInput.mk " " 5) widget_world
     = (Thrown (mkAppError 500 "Failed to create item" DATABASE_ERROR),
        mkWorld (db widget_world) (clock widget_world) (uuids widget_world)
          (S (issued widget_world)) (sched widget_world) (zone widget_world)).
Proof.
  split; [reflexivity|].
  apply (proj2 (createItem_outcomes widget_world (CreateItemInput.mk " " 5)
                  eq_refl eq_refl)).
  right; left; reflexivity.
Defined.
